(** * Sentry issue extractor: the formatter and the tags cache

    A shallow embedding of [src/utils/formatter.ts], [src/utils/types.ts],
    [src/utils/extractor/tags.ts], [src/utils/extractor/dom-helpers.ts] and
    the aggregator [src/utils/extractor/index.ts].

    Conventions of the embedding.
    - A JavaScript string is a [string]: one [ascii] stands for one code
      unit, so [length] is JavaScript's [.length].  String literals that
      the source writes outside ASCII (the arrow of the frame marker) are
      kept as the bytes of the literal.
    - A [Record<string, T>] is the association list of its own
      properties in insertion order ([Obj T]).  A read [o[k]] and an
      assignment [o[k] = v] with a computed key go through the prototype
      chain ([Object.lookup], [Object.store]): a plain object inherits
      the members of [Object.prototype].
    - A call returns, throws a [TypeError], or leaves the model by
      assigning to [Object] or [Object.prototype] ([Completion]).
    - [null] and [undefined] of an optional field are [None].
    - What the browser provides (DOM queries, regular expressions, number
      printing) is an interface the extractor code is written against. *)

From Stdlib Require Import String Ascii List Bool Arith ZArith NArith Lia.
From Stdlib Require Import Permutation.
From Stdlib Require DecimalString.
Import ListNotations.

Set Warnings "-register-all".
Open Scope list_scope.
Open Scope string_scope.

(* ================================================================= *)
(** ** JavaScript strings *)

Module Js.

(** [s ? a : b] on a string tests that it is not empty. *)
Definition truthy (s : string) : bool :=
  match s with EmptyString => false | String _ _ => true end.

(** Truthiness of a [string | null | undefined]. *)
Definition truthyOpt (o : option string) : bool :=
  match o with Some s => truthy s | None => false end.

(** [a || b] on strings. *)
Definition orElse (a b : string) : string := if truthy a then a else b.

(** [a || b] where [a] may be [null] or [undefined]. *)
Definition optOrElse (a : option string) (b : string) : string :=
  match a with Some s => orElse s b | None => b end.

(** [s.substring(0, n)]. *)
Definition substring0 (n : nat) (s : string) : string := substring 0 n s.

(** [s.charAt(0)]. *)
Definition charAt0 (s : string) : string := substring 0 1 s.

(** [s.includes(c)] for a one-character needle. *)
Fixpoint includes (c : ascii) (s : string) : bool :=
  match s with
  | EmptyString => false
  | String a s' => if Ascii.eqb a c then true else includes c s'
  end.

(** [s.split(c)] for a one-character separator: never the empty list. *)
Fixpoint split (c : ascii) (s : string) : list string :=
  match s with
  | EmptyString => [EmptyString]
  | String a s' =>
      if Ascii.eqb a c then EmptyString :: split c s'
      else match split c s' with
           | [] => [String a EmptyString]
           | w :: ws => String a w :: ws
           end
  end.

(** [xs.join(sep)]. *)
Fixpoint join (sep : string) (xs : list string) : string :=
  match xs with
  | [] => EmptyString
  | [x] => x
  | x :: rest => x ++ sep ++ join sep rest
  end.

(** White space and line terminators below U+0100. *)
Definition isWhiteSpace (a : ascii) : bool :=
  let n := nat_of_ascii a in
  ((n =? 9) || (n =? 10) || (n =? 11) || (n =? 12) || (n =? 13)
   || (n =? 32) || (n =? 160))%nat.

Fixpoint trimStart (s : string) : string :=
  match s with
  | EmptyString => EmptyString
  | String a s' => if isWhiteSpace a then trimStart s' else s
  end.

Fixpoint rev (s : string) : string :=
  match s with
  | EmptyString => EmptyString
  | String a s' => rev s' ++ String a EmptyString
  end.

Definition trimEnd (s : string) : string := rev (trimStart (rev s)).

(** [s.trim()]. *)
Definition trim (s : string) : string := trimEnd (trimStart s).

(** [`${n}`] for a non-negative integer such as an array length. *)
Definition ofNat (n : nat) : string :=
  DecimalString.NilEmpty.string_of_uint (Nat.to_uint n).

(** The line feed and the double quote. *)
Definition LF : string := String (ascii_of_nat 10) EmptyString.
Definition DQ : string := String (ascii_of_nat 34) EmptyString.

Definition isDigit (a : ascii) : bool :=
  let n := nat_of_ascii a in ((48 <=? n) && (n <=? 57))%nat.

(** The longest prefix of decimal digits, and what follows it. *)
Fixpoint spanDigits (s : string) : string * string :=
  match s with
  | EmptyString => (EmptyString, EmptyString)
  | String a s' =>
      if isDigit a
      then let (d, r) := spanDigits s' in (String a d, r)
      else (EmptyString, s)
  end.

Fixpoint digitsValueFrom (acc : N) (s : string) : N :=
  match s with
  | EmptyString => acc
  | String a s' =>
      digitsValueFrom (acc * 10 + N.of_nat (nat_of_ascii a - 48))%N s'
  end.

(** The value of a string of decimal digits. *)
Definition digitsValue (s : string) : N := digitsValueFrom 0%N s.

End Js.

(* ================================================================= *)
(** ** JavaScript values and plain objects *)

(** A plain object with string keys, in insertion order. *)
Definition Obj (T : Type) : Type := list (string * T).

Module Object.

(** The property names a plain object inherits from [Object.prototype] in
    the realm as the engine creates it: eleven functions and the accessor
    [__proto__]. *)
Definition prototypeFunctions : list string :=
  [ "constructor"; "hasOwnProperty"; "isPrototypeOf";
    "propertyIsEnumerable"; "toLocaleString"; "toString"; "valueOf";
    "__defineGetter__"; "__defineSetter__"; "__lookupGetter__";
    "__lookupSetter__" ].

Definition proto : string := "__proto__".

Definition inherited (k : string) : bool :=
  orb (String.eqb k proto) (existsb (String.eqb k) prototypeFunctions).

(** What the read [o[k]] finds on a plain object: an own property, a
    member of [Object.prototype] (a function, or [Object.prototype] itself
    under [__proto__]), or nothing. *)
Inductive Lookup (T : Type) : Type :=
| Own (v : T)
| Inherited
| Missing.
Arguments Own {T} v.
Arguments Inherited {T}.
Arguments Missing {T}.

Section Ops.
Context {T : Type}.

(** [o[k]] on own properties. *)
Fixpoint get (o : Obj T) (k : string) : option T :=
  match o with
  | [] => None
  | (k', v) :: o' => if String.eqb k' k then Some v else get o' k
  end.

(** [o[k] = v]: an existing key keeps its place, a new one goes last. *)
Fixpoint set (o : Obj T) (k : string) (v : T) : Obj T :=
  match o with
  | [] => [(k, v)]
  | (k', v') :: o' =>
      if String.eqb k' k then (k', v) :: o' else (k', v') :: set o' k v
  end.

(** The read [o[k]], through the prototype chain. *)
Definition lookup (o : Obj T) (k : string) : Lookup T :=
  match get o k with
  | Some v => Own v
  | None => if inherited k then Inherited else Missing
  end.

(** The assignment [o[k] = v]: an own property is updated; a key that is
    not one is added, except [__proto__], whose inherited setter creates no
    property. *)
Definition store (o : Obj T) (k : string) (v : T) : Obj T :=
  match get o k with
  | Some _ => set o k v
  | None => if String.eqb k proto then o else set o k v
  end.

End Ops.

(** A canonical array index: ["0"], or digits without a leading zero,
    below 2^32 - 1. Such keys are enumerated first, in numeric order. *)
Definition arrayIndex (k : string) : option N :=
  match k with
  | EmptyString => None
  | String a s' =>
      if andb (Ascii.eqb a "0"%char) (negb (String.eqb s' EmptyString))
      then None
      else match Js.spanDigits k with
           | (d, EmptyString) =>
               let n := Js.digitsValue d in
               if (n <? 4294967295)%N then Some n else None
           | _ => None
           end
  end.

Section Enumerate.
Context {T : Type}.

Fixpoint insertIndexed (x : N * (string * T)) (l : list (N * (string * T)))
  : list (N * (string * T)) :=
  match l with
  | [] => [x]
  | y :: l' => if (fst x <=? fst y)%N then x :: l else y :: insertIndexed x l'
  end.

Fixpoint indexed (o : Obj T) : list (N * (string * T)) :=
  match o with
  | [] => []
  | (k, v) :: o' =>
      match arrayIndex k with
      | Some n => insertIndexed (n, (k, v)) (indexed o')
      | None => indexed o'
      end
  end.

Fixpoint named (o : Obj T) : Obj T :=
  match o with
  | [] => []
  | (k, v) :: o' =>
      match arrayIndex k with
      | Some _ => named o'
      | None => (k, v) :: named o'
      end
  end.

(** [Object.entries(o)]: array indices ascending, then the other keys in
    insertion order. *)
Definition entries (o : Obj T) : list (string * T) :=
  (map snd (indexed o) ++ named o)%list.

(** [Object.keys(o)]. *)
Definition keys (o : Obj T) : list string := map fst (entries o).

(** [Object.keys(o).length === 0]. *)
Definition isEmpty (o : Obj T) : bool :=
  match keys o with [] => true | _ :: _ => false end.

End Enumerate.

End Object.

(** A number as [parseFloat] reads it: the decimal it denotes, before
    rounding to binary64. *)
Inductive number : Type :=
| NaN
| Infinity (negative : bool)
| Decimal (negative : bool) (digits : N) (exponent : Z).

Module Number.

Definition isNaN (n : number) : bool :=
  match n with NaN => true | _ => false end.

Definition isFinite (n : number) : bool :=
  match n with Decimal _ _ _ => true | _ => false end.

End Number.

(** An optional sign: whether it is a minus, and what follows it. *)
Definition parseSign (s : string) : bool * string :=
  match s with
  | String "-" r => (true, r)
  | String "+" r => (false, r)
  | _ => (false, s)
  end.

(** What follows [p] in [s] when [s] starts with [p]. *)
Fixpoint stripPrefix (p s : string) : option string :=
  match p, s with
  | EmptyString, _ => Some s
  | String a p', String b s' =>
      if Ascii.eqb a b then stripPrefix p' s' else None
  | String _ _, EmptyString => None
  end.

(** An exponent part is read only when it has a digit. *)
Definition scanExponent (s : string) : Z * string :=
  match s with
  | String c r =>
      if orb (Ascii.eqb c "e") (Ascii.eqb c "E")
      then let (neg, r') := parseSign r in
           let (d, rest) := Js.spanDigits r' in
           if Js.truthy d
           then ((if neg then - Z.of_N (Js.digitsValue d)
                  else Z.of_N (Js.digitsValue d))%Z, rest)
           else (0%Z, s)
      else (0%Z, s)
  | EmptyString => (0%Z, s)
  end.

(** The number at the start of [s] and the text left unread after it. *)
Definition scanFloat (s : string) : option (number * string) :=
  let (neg, u) := parseSign (Js.trimStart s) in
  match stripPrefix "Infinity" u with
  | Some rest => Some (Infinity neg, rest)
  | None =>
      let (ip, r1) := Js.spanDigits u in
      let (fp, r2) :=
        match r1 with
        | String "." r => Js.spanDigits r
        | _ => (EmptyString, r1)
        end in
      if orb (Js.truthy ip) (Js.truthy fp)
      then let (e, rest) := scanExponent r2 in
           Some (Decimal neg (Js.digitsValue (ip ++ fp))
                         (e - Z.of_nat (String.length fp))%Z,
                 rest)
      else None
  end.

(** [parseFloat(s)]: skip leading white space, then read the longest
    prefix that is a signed decimal literal or [Infinity]; [NaN] when there
    is none. *)
Definition parseFloat (s : string) : number :=
  match scanFloat s with
  | Some (num, _) => num
  | None => NaN
  end.

(** The values the extractor and the formatter handle ([unknown] in the
    source). [JBigInt] stands for the values [JSON.stringify] refuses. *)
Inductive JsValue : Type :=
| JUndefined
| JNull
| JBoolean (b : bool)
| JNumber (n : number)
| JString (s : string)
| JBigInt (z : Z)
| JArray (items : list JsValue)
| JObject (props : list (string * JsValue)).

(** [typeof v === "object"]. *)
Definition typeofObject (v : JsValue) : bool :=
  match v with
  | JNull | JArray _ | JObject _ => true
  | _ => false
  end.

(** A call returns, throws, or assigns a property of [Object.prototype]
    or of [Object]. After such an assignment what the program does
    depends on the whole realm, and the model follows it no further;
    every call is taken to start in the realm as the engine creates it. *)
Inductive Completion (A : Type) : Type :=
| Normal (a : A)
| ThrowTypeError
| AltersBuiltin.
Arguments Normal {A} a.
Arguments ThrowTypeError {A}.
Arguments AltersBuiltin {A}.

Definition bindC {A B} (c : Completion A) (k : A -> Completion B)
  : Completion B :=
  match c with
  | Normal a => k a
  | ThrowTypeError => ThrowTypeError
  | AltersBuiltin => AltersBuiltin
  end.

Notation "'try!' x <- c ; k" := (bindC c (fun x => k))
  (at level 10, x name, c at level 100, k at level 200).

(** [try { body } catch { handler }]. *)
Definition tryCatch {A} (body : Completion A) (handler : Completion A)
  : Completion A :=
  match body with
  | Normal a => Normal a
  | ThrowTypeError => handler
  | AltersBuiltin => AltersBuiltin
  end.

(** How the engine prints a number ([Number::toString]). *)
Class NumberFormat : Type := Number_toString : number -> string.

Module JSON.

Definition BS : string := String (ascii_of_nat 92) EmptyString.

Definition hexDigit (n : nat) : string := substring n 1 "0123456789abcdef".

(** One code unit inside a JSON string literal. *)
Definition quoteUnit (a : ascii) : string :=
  let n := nat_of_ascii a in
  if (n =? 8)%nat then BS ++ "b"
  else if (n =? 9)%nat then BS ++ "t"
  else if (n =? 10)%nat then BS ++ "n"
  else if (n =? 12)%nat then BS ++ "f"
  else if (n =? 13)%nat then BS ++ "r"
  else if (n =? 34)%nat then BS ++ Js.DQ
  else if (n =? 92)%nat then BS ++ BS
  else if (n <? 32)%nat
       then BS ++ "u00" ++ hexDigit (n / 16) ++ hexDigit (n mod 16)
       else String a EmptyString.

Fixpoint quoteUnits (s : string) : string :=
  match s with
  | EmptyString => EmptyString
  | String a s' => quoteUnit a ++ quoteUnits s'
  end.

Definition quote (s : string) : string := Js.DQ ++ quoteUnits s ++ Js.DQ.

(** Brackets around the serialized members, with the indentation [gap]
    asks for. *)
Definition wrap (opening closing gap indent stepback : string)
  (parts : list string) : string :=
  match parts with
  | [] => opening ++ closing
  | _ :: _ =>
      if Js.truthy gap
      then opening ++ Js.LF ++ indent
           ++ Js.join ("," ++ Js.LF ++ indent) parts
           ++ Js.LF ++ stepback ++ closing
      else opening ++ Js.join "," parts ++ closing
  end.

Definition member (gap : string) (kv : string * option string)
  : list string :=
  match snd kv with
  | Some t => [quote (fst kv) ++ ":" ++ (if Js.truthy gap then " " else "") ++ t]
  | None => []
  end.

(** Running the completions of a list in order. *)
Fixpoint sequence {A} (l : list (Completion A)) : Completion (list A) :=
  match l with
  | [] => Normal []
  | c :: l' => try! a <- c; try! r <- sequence l'; Normal (a :: r)
  end.

Definition sequenceProps {A} (l : list (string * Completion A))
  : Completion (list (string * A)) :=
  sequence (map (fun kv => try! a <- snd kv; Normal (fst kv, a)) l).

Section Serialize.
Context {NF : NumberFormat}.
Variable gap : string.

(** [SerializeJSONProperty]: [None] is the [undefined] of a value that has
    no JSON form; a BigInt throws. *)
Fixpoint serialize (indent : string) (v : JsValue)
  : Completion (option string) :=
  match v with
  | JUndefined => Normal None
  | JNull => Normal (Some "null")
  | JBoolean b => Normal (Some (if b then "true" else "false"))
  | JNumber n =>
      Normal (Some (if Number.isFinite n then Number_toString n else "null"))
  | JString s => Normal (Some (quote s))
  | JBigInt _ => ThrowTypeError
  | JArray items =>
      let inner := indent ++ gap in
      try! parts <- sequence (map (serialize inner) items);
      Normal (Some (wrap "[" "]" gap inner indent
                      (map (fun p => match p with Some t => t | None => "null" end)
                           parts)))
  | JObject props =>
      let inner := indent ++ gap in
      try! parts <- sequenceProps
                      (Object.entries
                         (map (fun kv => (fst kv, serialize inner (snd kv)))
                              props));
      Normal (Some (wrap "{" "}" gap inner indent
                      (flat_map (member gap) parts)))
  end.

End Serialize.

(** [JSON.stringify(v)]. *)
Definition stringify {NF : NumberFormat} (v : JsValue)
  : Completion (option string) :=
  serialize "" "" v.

(** [JSON.stringify(v, null, 2)]. *)
Definition stringifyPretty {NF : NumberFormat} (v : JsValue)
  : Completion (option string) :=
  serialize "  " "" v.

End JSON.

(** How a template literal prints [undefined]. *)
Definition undefinedText : string := "undefined".

(** [String(v)]. *)
Fixpoint String_ {NF : NumberFormat} (v : JsValue) : string :=
  match v with
  | JUndefined => undefinedText
  | JNull => "null"
  | JBoolean b => if b then "true" else "false"
  | JNumber n => Number_toString n
  | JString s => s
  | JBigInt z => DecimalString.NilZero.string_of_int (Z.to_int z)
  | JArray items =>
      Js.join ","
        (map (fun x => match x with
                       | JUndefined | JNull => EmptyString
                       | _ => String_ x
                       end) items)
  | JObject _ => "[object Object]"
  end.

(* ================================================================= *)
(** ** [types.ts] *)

Module StackFrame.
Record t : Type := {
  filename : string;
  lineNo : string;
  function : string;
  context : string;
  isSystem : bool;
  isExpanded : bool
}.
End StackFrame.

Module StackTrace.
Record t : Type := {
  frames : option (list StackFrame.t);
  raw : option string;
  exceptionValue : option string
}.
End StackTrace.

Module Breadcrumb.
Record t : Type := {
  category : option string;
  type : option string;
  message : option string;
  timestamp : option string;
  level : option string;
  raw : option string
}.
End Breadcrumb.

Module Timestamps.
Record t : Type := {
  firstSeen : option string;
  lastSeen : option string
}.
End Timestamps.

Module SentryIssueData.
Record t : Type := {
  url : string;
  projectName : string;
  issueId : string;
  shortId : option string;
  title : string;
  errorMessage : option string;
  route : option string;
  eventCount : string;
  userCount : string;
  environment : option string;
  release : option string;
  priority : option string;
  status : option string;
  level : option string;
  timestamps : option Timestamps.t;
  userInfo : option (Obj string);
  stackTrace : option StackTrace.t;
  breadcrumbs : option (list Breadcrumb.t);
  httpRequest : option (Obj string);
  tags : option (Obj string);
  contexts : option (Obj (Obj string));
  additionalData : option (Obj JsValue)
}.
End SentryIssueData.

(** An optional boolean property: [None] when the object does not have it,
    [Some None] when it has it with the value [undefined]. *)
Definition OptionalFlag : Type := option (option bool).

Module FormatOptions.
Record t : Type := {
  includeBreadcrumbs : OptionalFlag;
  includeContexts : OptionalFlag;
  includeTags : OptionalFlag
}.

(** The default [{}] of the [options] parameter. *)
Definition empty : t :=
  {| includeBreadcrumbs := None; includeContexts := None; includeTags := None |}.

(** Reading the property: [undefined] when it is not there. *)
Definition read (p : OptionalFlag) : option bool :=
  match p with Some v => v | None => None end.

(** [v !== false]. *)
Definition notFalse (v : option bool) : bool :=
  match v with Some false => false | _ => true end.

(** [{ k: d, ...options }.k]: the own property of [options] overrides. *)
Definition spread (d : bool) (p : OptionalFlag) : option bool :=
  match p with Some v => v | None => Some d end.

(** The property as [opts] holds it. *)
Definition resolved (p : OptionalFlag) : option bool :=
  spread (notFalse (read p)) p.

(** Truthiness of a [boolean | undefined]. *)
Definition enabled (v : option bool) : bool :=
  match v with Some true => true | _ => false end.
End FormatOptions.

(* ================================================================= *)
(** ** [formatter.ts] *)

(** A [Record<string, string>] where a [Record<string, unknown>] is asked. *)
Definition asUnknown (o : Obj string) : Obj JsValue :=
  map (fun kv => (fst kv, JString (snd kv))) o.

(** [xs.slice(-n)]. *)
Definition sliceLast {A} (n : nat) (xs : list A) : list A :=
  skipn (List.length xs - n) xs.

(** The code fence. *)
Definition fence : string := "```".

Definition formatKeyValue (key : string) (value : option string) : string :=
  match value with
  | None => ""
  | Some v => "- **" ++ key ++ ":** " ++ v
  end.

Section Formatter.
Context {NF : NumberFormat}.

(** The text a template literal gives to a [string | undefined]. *)
Definition display (r : option string) : string :=
  match r with Some t => t | None => undefinedText end.

Definition formatAsList (obj : option (Obj JsValue)) : Completion string :=
  match obj with
  | None => Normal ""
  | Some o =>
      if Object.isEmpty o then Normal ""
      else
        fold_left
          (fun acc kv =>
             try! list <- acc;
             let (key, value) := (kv : string * JsValue) in
             try! displayValue <-
               (if typeofObject value
                then try! r <- JSON.stringify value; Normal (display r)
                else Normal (String_ value));
             Normal (list ++ "- **" ++ key ++ ":** " ++ displayValue ++ Js.LF))
          (Object.entries o) (Normal "")
  end.

(** The enumerable properties that the call has given to the method
    [name] of [Object.prototype]; a method has none of its own. *)
Definition propsOf (methodProps : Obj (Obj string)) (name : string)
  : Obj string :=
  match Object.get methodProps name with
  | Some props => props
  | None => []
  end.

(** [target[subKey] = value] in strict code, where [target] is the member
    [name] of [Object.prototype] and [value] is a string. The setter of
    [__proto__] ignores a string. The member [__proto__] is
    [Object.prototype] itself. A function has the read-only properties
    [name] and [length] and inherits the throwing accessors [caller] and
    [arguments]; [Object], the value of [constructor], also has a
    read-only [prototype]. Any other assignment to a method gives the
    method an enumerable property, recorded in [methodProps]. *)
Definition storeOnBuiltin (methodProps : Obj (Obj string))
  (name subKey value : string) : Completion (Obj (Obj string)) :=
  if String.eqb subKey Object.proto then Normal methodProps
  else if String.eqb name Object.proto then AltersBuiltin
  else if existsb (String.eqb subKey)
            ["name"; "length"; "caller"; "arguments"]
  then ThrowTypeError
  else if String.eqb name "constructor"
  then (if String.eqb subKey "prototype" then ThrowTypeError
        else AltersBuiltin)
  else Normal (Object.set methodProps name
                 (Object.store (propsOf methodProps name) subKey value)).

(** [grouped], [standalone] and the properties given to the methods of
    [Object.prototype]. *)
Definition Groups : Type :=
  (Obj (Obj string) * Obj string * Obj (Obj string))%type.

(** The body of the first loop of [formatTagsNested]. *)
Definition groupStep (acc : Completion Groups) (kv : string * string)
  : Completion Groups :=
  try! state <- acc;
  let '(grouped, standalone, methodProps) := (state : Groups) in
  let (key, value) := kv in
  if Js.includes "." key then
    match Js.split "." key with
    | prefix :: rest =>
        let subKey := Js.join "." rest in
        let grouped :=
          match Object.lookup grouped prefix with
          | Object.Missing => Object.store grouped prefix []
          | _ => grouped
          end in
        match Object.lookup grouped prefix with
        | Object.Own sub =>
            Normal (Object.set grouped prefix (Object.store sub subKey value),
                    standalone, methodProps)
        | Object.Inherited =>
            try! methodProps <-
              storeOnBuiltin methodProps prefix subKey value;
            Normal (grouped, standalone, methodProps)
        | Object.Missing => ThrowTypeError
        end
    | [] => Normal (grouped, standalone, methodProps)
    end
  else Normal (grouped, Object.store standalone key value, methodProps).

Definition groupTags (tags : Obj string) : Completion Groups :=
  fold_left groupStep (Object.entries tags) (Normal ([], [], [])).

(** The sub-bullets of one group. *)
Definition subBullets (subTags : Obj string) : string :=
  fold_left
    (fun output kv =>
       let (subKey, subValue) := (kv : string * string) in
       output ++ "  - " ++ subKey ++ ": " ++ subValue ++ Js.LF)
    (Object.entries subTags) "".

(** The body of the loop over [standalone], on the pair
    [(output, outputtedPrefixes)]. An inherited [grouped[key]] is truthy;
    its enumerable properties are those the first loop gave it. *)
Definition standaloneStep (grouped methodProps : Obj (Obj string))
  (acc : string * list string) (kv : string * string)
  : string * list string :=
  let (output, outputtedPrefixes) := acc in
  let (key, value) := kv in
  match Object.lookup grouped key with
  | Object.Own subTags =>
      (output ++ "- **" ++ key ++ ":** " ++ value ++ Js.LF
              ++ subBullets subTags,
       key :: outputtedPrefixes)
  | Object.Inherited =>
      (output ++ "- **" ++ key ++ ":** " ++ value ++ Js.LF
              ++ subBullets (propsOf methodProps key),
       key :: outputtedPrefixes)
  | Object.Missing =>
      (output ++ "- **" ++ key ++ ":** " ++ value ++ Js.LF,
       outputtedPrefixes)
  end.

(** The body of the loop over [grouped]. *)
Definition groupedStep (outputtedPrefixes : list string) (output : string)
  (kv : string * Obj string) : string :=
  let (prefix, subTags) := kv in
  if existsb (String.eqb prefix) outputtedPrefixes then output
  else output ++ "- **" ++ prefix ++ ":**" ++ Js.LF ++ subBullets subTags.

Definition formatTagsNested (tags : option (Obj string))
  : Completion string :=
  match tags with
  | None => Normal ""
  | Some tags =>
      if Object.isEmpty tags then Normal ""
      else
        try! state <- groupTags tags;
        let '(grouped, standalone, methodProps) := (state : Groups) in
        let (output, outputtedPrefixes) :=
          fold_left (standaloneStep grouped methodProps)
            (Object.entries standalone) ("", []) in
        Normal (fold_left (groupedStep outputtedPrefixes)
                  (Object.entries grouped) output)
  end.

Definition formatAdditionalData (data : option (Obj JsValue))
  : Completion string :=
  match data with
  | None => Normal ""
  | Some o =>
      if Object.isEmpty o then Normal ""
      else
        tryCatch
          (try! r <- JSON.stringifyPretty (JObject o);
           Normal (fence ++ "json" ++ Js.LF ++ display r ++ Js.LF ++ fence))
          (formatAsList data)
  end.

(** [xs.forEach((x, index) => ...)] accumulating into [output]. *)
Fixpoint forEachIndexed {A} (f : string -> A -> nat -> string)
  (xs : list A) (index : nat) (output : string) : string :=
  match xs with
  | [] => output
  | x :: xs' => forEachIndexed f xs' (S index) (f output x index)
  end.

Definition formatFrame (output : string) (frame : StackFrame.t)
  (index : nat) : string :=
  let location :=
    if Js.truthy (StackFrame.filename frame)
    then StackFrame.filename frame
         ++ (if Js.truthy (StackFrame.lineNo frame)
             then ":" ++ StackFrame.lineNo frame else "")
    else "unknown" in
  let func := Js.orElse (StackFrame.function frame) "<anonymous>" in
  let marker := if StackFrame.isSystem frame then "  " else "→ " in
  let output :=
    output ++ marker ++ Js.ofNat (index + 1) ++ ". " ++ func ++ " at "
           ++ location ++ Js.LF in
  if Js.truthy (StackFrame.context frame)
  then output ++ "      " ++ Js.substring0 200 (StackFrame.context frame)
              ++ Js.LF
  else output.

Definition formatStackTrace (stackTrace : option StackTrace.t) : string :=
  match stackTrace with
  | None => ""
  | Some stackTrace =>
      let output := "" in
      let output :=
        if Js.truthyOpt (StackTrace.exceptionValue stackTrace)
        then output ++ "**Exception:** "
                    ++ display (StackTrace.exceptionValue stackTrace)
                    ++ Js.LF ++ Js.LF
        else output in
      if Js.truthyOpt (StackTrace.raw stackTrace)
      then output ++ fence ++ Js.LF ++ display (StackTrace.raw stackTrace)
                  ++ Js.LF ++ fence
      else
        match StackTrace.frames stackTrace with
        | Some ((_ :: _) as frames) =>
            let output := output ++ fence ++ Js.LF in
            let output := forEachIndexed formatFrame frames 0 output in
            output ++ fence
        | _ => output
        end
  end.

Definition formatBreadcrumb (output : string) (bc : Breadcrumb.t) : string :=
  let time := Js.optOrElse (Breadcrumb.timestamp bc) "" in
  let category := Js.optOrElse (Breadcrumb.category bc) "" in
  let level :=
    Js.optOrElse (Breadcrumb.type bc)
      (Js.optOrElse (Breadcrumb.level bc) "") in
  let message :=
    match Breadcrumb.message bc with
    | Some m => if Js.truthy m then Js.substring0 100 m else ""
    | None => ""
    end in
  output ++ "- " ++ (if Js.truthy time then "[" ++ time ++ "]" else "")
         ++ " " ++ (if Js.truthy category then "**" ++ category ++ "**" else "")
         ++ " " ++ (if Js.truthy level then "(" ++ level ++ ")" else "")
         ++ " " ++ message ++ Js.LF.

Definition formatBreadcrumbs (breadcrumbs : option (list Breadcrumb.t))
  : string :=
  match breadcrumbs with
  | None | Some [] => ""
  | Some ((first :: _) as breadcrumbs) =>
      if andb (List.length breadcrumbs =? 1)%nat
              (Js.truthyOpt (Breadcrumb.raw first))
      then fence ++ Js.LF ++ display (Breadcrumb.raw first) ++ Js.LF ++ fence
      else
        let output := "" in
        let recentBreadcrumbs := sliceLast 15 breadcrumbs in
        fold_left formatBreadcrumb recentBreadcrumbs output
  end.

Definition formatContexts (contexts : option (Obj (Obj string)))
  : Completion string :=
  match contexts with
  | None => Normal ""
  | Some o =>
      if Object.isEmpty o then Normal ""
      else
        fold_left
          (fun acc kv =>
             try! output <- acc;
             let (contextName, contextData) := (kv : string * Obj string) in
             if negb (Object.isEmpty contextData)
             then
               let output :=
                 output ++ Js.LF ++ "**" ++ contextName ++ ":**" ++ Js.LF in
               try! list <- formatAsList (Some (asUnknown contextData));
               Normal (output ++ list)
             else Normal output)
          (Object.entries o) (Normal "")
  end.

End Formatter.

Section FormatToJiraMarkdown.
Context {NF : NumberFormat}.

(** [new Date().toISOString()] is read from the clock: [now] is what it
    returned. *)
Variable now : string.

(** [lines.push(...items)]. *)
Definition push (lines items : list string) : list string :=
  (lines ++ items)%list.

(** [if (value) lines.push(formatKeyValue(key, value))]. *)
Definition pushKeyValue (lines : list string) (key : string)
  (value : option string) : list string :=
  if Js.truthyOpt value then push lines [formatKeyValue key value] else lines.

(** [Object.keys(o).length > 0] behind a null check. *)
Definition hasKeys {T} (o : option (Obj T)) : bool :=
  match o with Some o => negb (Object.isEmpty o) | None => false end.

Definition headerTitle (data : SentryIssueData.t) : string :=
  if Js.truthyOpt (SentryIssueData.shortId data)
  then display (SentryIssueData.shortId data) ++ ": "
       ++ SentryIssueData.title data
  else SentryIssueData.title data.

(** The header block and the overview bullets. *)
Definition overviewLines (data : SentryIssueData.t) : list string :=
  let lines : list string := [] in
  let lines :=
    push lines
      [ "## " ++ headerTitle data;
        "";
        "[View in Sentry](" ++ SentryIssueData.url data ++ ")";
        "";
        "---";
        "";
        "### Issue Overview";
        "" ] in
  let lines :=
    pushKeyValue lines "Project" (Some (SentryIssueData.projectName data)) in
  let lines :=
    if Js.truthyOpt (SentryIssueData.shortId data)
    then push lines [formatKeyValue "Issue ID" (SentryIssueData.shortId data)]
    else pushKeyValue lines "Issue ID" (Some (SentryIssueData.issueId data)) in
  let lines := pushKeyValue lines "Status" (SentryIssueData.status data) in
  let lines := pushKeyValue lines "Priority" (SentryIssueData.priority data) in
  let lines := pushKeyValue lines "Level" (SentryIssueData.level data) in
  let lines :=
    pushKeyValue lines "Environment" (SentryIssueData.environment data) in
  let lines := pushKeyValue lines "Release" (SentryIssueData.release data) in
  let lines :=
    pushKeyValue lines "Events" (Some (SentryIssueData.eventCount data)) in
  let lines :=
    pushKeyValue lines "Users Affected"
      (Some (SentryIssueData.userCount data)) in
  let lines := pushKeyValue lines "Route/URL" (SentryIssueData.route data) in
  let lines :=
    pushKeyValue lines "First Seen"
      (match SentryIssueData.timestamps data with
       | Some ts => Timestamps.firstSeen ts
       | None => None
       end) in
  let lines :=
    pushKeyValue lines "Last Seen"
      (match SentryIssueData.timestamps data with
       | Some ts => Timestamps.lastSeen ts
       | None => None
       end) in
  push lines [""].

(** Each [if (...) lines.push(...)] after the overview is one step on
    [lines]. *)
Definition pushErrorMessage (data : SentryIssueData.t) (lines : list string)
  : list string :=
  if Js.truthyOpt (SentryIssueData.errorMessage data)
  then push lines
         [ "### Error Message"; ""; fence;
           display (SentryIssueData.errorMessage data); fence; "" ]
  else lines.

Definition pushStackTrace (data : SentryIssueData.t) (lines : list string)
  : list string :=
  match SentryIssueData.stackTrace data with
  | Some _ =>
      push lines
        [ "### Stack Trace"; "";
          formatStackTrace (SentryIssueData.stackTrace data); "" ]
  | None => lines
  end.

Definition pushBreadcrumbs (data : SentryIssueData.t)
  (includeBreadcrumbs : option bool) (lines : list string) : list string :=
  match SentryIssueData.breadcrumbs data with
  | Some ((_ :: _) as breadcrumbs) =>
      if FormatOptions.enabled includeBreadcrumbs
      then push lines
             [ "### Breadcrumbs ("
                 ++ Js.ofNat (List.length breadcrumbs) ++ " entries)";
               "";
               formatBreadcrumbs (SentryIssueData.breadcrumbs data);
               "" ]
      else lines
  | _ => lines
  end.

Definition pushHttpRequest (data : SentryIssueData.t) (lines : list string)
  : Completion (list string) :=
  if hasKeys (SentryIssueData.httpRequest data)
  then
    try! list <-
      formatAsList (option_map asUnknown (SentryIssueData.httpRequest data));
    Normal (push lines ["### HTTP Request"; ""; list; ""])
  else Normal lines.

Definition pushUserInfo (data : SentryIssueData.t) (lines : list string)
  : Completion (list string) :=
  if hasKeys (SentryIssueData.userInfo data)
  then
    try! list <-
      formatAsList (option_map asUnknown (SentryIssueData.userInfo data));
    Normal (push lines ["### User Information"; ""; list; ""])
  else Normal lines.

Definition pushTags (data : SentryIssueData.t) (includeTags : option bool)
  (lines : list string) : Completion (list string) :=
  if andb (FormatOptions.enabled includeTags)
          (hasKeys (SentryIssueData.tags data))
  then
    try! text <- formatTagsNested (SentryIssueData.tags data);
    Normal (push lines ["### Tags"; ""; text; ""])
  else Normal lines.

Definition pushContexts (data : SentryIssueData.t)
  (includeContexts : option bool) (lines : list string)
  : Completion (list string) :=
  if andb (FormatOptions.enabled includeContexts)
          (hasKeys (SentryIssueData.contexts data))
  then
    try! text <- formatContexts (SentryIssueData.contexts data);
    Normal (push lines ["### Contexts"; ""; text; ""])
  else Normal lines.

Definition pushAdditionalData (data : SentryIssueData.t)
  (lines : list string) : Completion (list string) :=
  if hasKeys (SentryIssueData.additionalData data)
  then
    try! text <- formatAdditionalData (SentryIssueData.additionalData data);
    Normal (push lines ["### Additional Data"; ""; text; ""])
  else Normal lines.

(** The sections after the overview, in the order of the source. *)
Definition sectionLines (data : SentryIssueData.t)
  (includeBreadcrumbs includeContexts includeTags : option bool)
  (lines : list string) : Completion (list string) :=
  let lines := pushErrorMessage data lines in
  let lines := pushStackTrace data lines in
  let lines := pushBreadcrumbs data includeBreadcrumbs lines in
  try! lines <- pushHttpRequest data lines;
  try! lines <- pushUserInfo data lines;
  try! lines <- pushTags data includeTags lines;
  try! lines <- pushContexts data includeContexts lines;
  try! lines <- pushAdditionalData data lines;
  Normal lines.

Definition footerLines : list string :=
  [ "---";
    "*Extracted from Sentry on " ++ hd "" (Js.split "T" now) ++ "*" ].

(** The array [lines] when the function returns. *)
Definition documentLines (data : SentryIssueData.t)
  (options : FormatOptions.t) : Completion (list string) :=
  let includeBreadcrumbs :=
    FormatOptions.resolved (FormatOptions.includeBreadcrumbs options) in
  let includeContexts :=
    FormatOptions.resolved (FormatOptions.includeContexts options) in
  let includeTags :=
    FormatOptions.resolved (FormatOptions.includeTags options) in
  try! lines <-
    sectionLines data includeBreadcrumbs includeContexts includeTags
      (overviewLines data);
  Normal (push lines footerLines).

Definition formatToJiraMarkdown (data : SentryIssueData.t)
  (options : FormatOptions.t) : Completion string :=
  try! lines <- documentLines data options;
  Normal (Js.join Js.LF lines).

End FormatToJiraMarkdown.

(* ================================================================= *)
(** ** The page: what the extractors ask of the browser *)

(** The selectors the extractors use, as syntax trees:
    [SelAnd (SelTag "section") (SelId "tags")] is [section#tags],
    [SelAttr "data-test-id" "tags"] is [[data-test-id="tags"]],
    [SelOr a b] is [a, b], [SelDescendant a b] is [a b] and
    [SelChild a b] is [a > b]. *)
Inductive Selector : Type :=
| SelTag (name : string)
| SelId (name : string)
| SelClass (name : string)
| SelAttr (name value : string)
| SelAttrPrefix (name value : string)
| SelScope
| SelAnd (a b : Selector)
| SelDescendant (ancestor descendant : Selector)
| SelChild (parent child : Selector)
| SelOr (a b : Selector).

(** The DOM interface. [Node] is an element or the document; the tree a
    node gives access to is the state of the page when it is read. *)
Class Dom : Type := {
  Node : Type;
  querySelector : Node -> Selector -> option Node;
  querySelectorAll : Node -> Selector -> list Node;
  children : Node -> list Node;
  textContent : Node -> option string;
  getAttribute : Node -> string -> option string;
  sameNode : Node -> Node -> bool
}.

(** ** Regular expressions of [tags.ts] *)

Module RegExp.

Definition isWordChar (a : ascii) : bool :=
  let n := nat_of_ascii a in
  ((48 <=? n) && (n <=? 57) || (65 <=? n) && (n <=? 90)
   || (97 <=? n) && (n <=? 122) || (n =? 95))%nat.

Definition lower (a : ascii) : ascii :=
  let n := nat_of_ascii a in
  if ((65 <=? n) && (n <=? 90))%nat then ascii_of_nat (n + 32) else a.

(** What follows [p] in [s] when [s] starts with [p]. *)
Fixpoint after (ignoreCase : bool) (p s : string) : option string :=
  match p, s with
  | EmptyString, _ => Some s
  | String a p', String b s' =>
      if (if ignoreCase then Ascii.eqb (lower a) (lower b) else Ascii.eqb a b)
      then after ignoreCase p' s' else None
  | String _ _, EmptyString => None
  end.

Fixpoint spanWord (s : string) : string :=
  match s with
  | EmptyString => EmptyString
  | String a s' => if isWordChar a then String a (spanWord s') else EmptyString
  end.

(** [/^(GET|POST|PUT|DELETE|PATCH|HEAD|OPTIONS)\s+\//] matches [text]. *)
Definition matchesMethodAndPath (text : string) : bool :=
  existsb
    (fun method =>
       match after false method text with
       | Some r =>
           match r with
           | String a _ =>
               andb (Js.isWhiteSpace a) (prefix "/" (Js.trimStart r))
           | EmptyString => false
           end
       | None => false
       end)
    ["GET"; "POST"; "PUT"; "DELETE"; "PATCH"; "HEAD"; "OPTIONS"].

(** [text.match(/Level:\s*(\w+)/i)]: the first group of the leftmost
    match. *)
Fixpoint matchLevel (text : string) : option string :=
  let here :=
    match after true "Level:" text with
    | Some r =>
        let w := spanWord (Js.trimStart r) in
        if Js.truthy w then Some w else None
    | None => None
    end in
  match here with
  | Some w => Some w
  | None =>
      match text with
      | EmptyString => None
      | String _ text' => matchLevel text'
      end
  end.

End RegExp.

(* ================================================================= *)
(** ** [extractor/dom-helpers.ts] *)

Section DomHelpers.
Context {D : Dom}.

(** [el.textContent?.trim()]: [None] is [undefined]. *)
Definition trimmedText (el : Node) : option string :=
  option_map Js.trim (textContent el).

(** [a ?? b]. *)
Definition nullish {A} (a : option A) (b : A) : A :=
  match a with Some x => x | None => b end.

Definition getText (selector : Selector) (context : Node) : option string :=
  match querySelector context selector with
  | Some element => trimmedText element
  | None => None
  end.

Definition getTagValue (valueEl : option Node) : string :=
  match valueEl with
  | None => ""
  | Some valueEl =>
      match
        querySelector valueEl
          (SelOr (SelAnd (SelTag "span")
                         (SelAttr "data-test-id" "loaded-device-name"))
             (SelOr (SelTag "a")
                (SelDescendant (SelAttr "data-sentry-element" "TagLinkText")
                               (SelTag "a"))))
      with
      | Some nestedEl => nullish (trimmedText nestedEl) ""
      | None => nullish (trimmedText valueEl) ""
      end
  end.

(** A [string | undefined] as a value. *)
Definition ofText (t : option string) : JsValue :=
  match t with Some s => JString s | None => JUndefined end.

Definition parseValueElement (valueEl : Node) : JsValue :=
  let testId := getAttribute valueEl "data-test-id" in
  let text := nullish (trimmedText valueEl) "" in
  match testId with
  | Some "value-number" =>
      let num := parseFloat text in
      if Number.isNaN num then JString text else JNumber num
  | Some "value-boolean" => JBoolean (String.eqb text "true")
  | Some "value-null" => JNull
  | _ => JString text
  end.

(** [a || b || c] over the three ways to find the content container. *)
Definition contentContainer (container : Node) : option Node :=
  match querySelector container
          (SelAttr "data-sentry-element" "CollapsibleContent") with
  | Some el => Some el
  | None =>
      match querySelector container (SelAttr "role" "group") with
      | Some el => Some el
      | None =>
          querySelector container
            (SelChild (SelChild SelScope (SelTag "div")) (SelTag "div"))
      end
  end.

Section Composite.
(** The recursive call: [None] when the traversal budget is used up. *)
Variable parseCollapsibleValue : Node -> option JsValue.

Definition parseObjectValue (container : Node) : option JsValue :=
  let result : Obj JsValue := [] in
  match contentContainer container with
  | None => Some (JString (nullish (trimmedText container) ""))
  | Some contentDiv =>
      let result :=
        fold_left
          (fun acc child =>
             match acc with
             | None => None
             | Some result =>
                 match querySelector child
                         (SelAttr "data-sentry-element" "ValueObjectKey") with
                 | None => Some result
                 | Some keyEl =>
                     let key := nullish (trimmedText keyEl) "" in
                     let nestedCollapsible :=
                       querySelector child
                         (SelAttr "data-sentry-component" "CollapsibleValue") in
                     match nestedCollapsible with
                     | Some nested =>
                         if negb (sameNode nested container)
                         then option_map (Object.store result key)
                                (parseCollapsibleValue nested)
                         else
                           match querySelector child
                                   (SelAttrPrefix "data-test-id" "value-") with
                           | Some valueEl =>
                               Some (Object.store result key
                                       (parseValueElement valueEl))
                           | None => Some result
                           end
                     | None =>
                         match querySelector child
                                 (SelAttrPrefix "data-test-id" "value-") with
                         | Some valueEl =>
                             Some (Object.store result key
                                     (parseValueElement valueEl))
                         | None => Some result
                         end
                     end
                 end
             end)
          (children contentDiv) (Some result) in
      match result with
      | None => None
      | Some result =>
          if negb (Object.isEmpty result) then Some (JObject result)
          else Some (JString (nullish (trimmedText container) ""))
      end
  end.

Definition parseArrayValue (container : Node) : option JsValue :=
  let result : list JsValue := [] in
  match contentContainer container with
  | None => Some (JString (nullish (trimmedText container) ""))
  | Some contentDiv =>
      let result :=
        fold_left
          (fun acc child =>
             match acc with
             | None => None
             | Some result =>
                 match querySelector child
                         (SelAttr "data-sentry-component" "CollapsibleValue") with
                 | Some nested =>
                     option_map (fun v => (result ++ [v])%list)
                       (parseCollapsibleValue nested)
                 | None =>
                     match querySelector child
                             (SelAttrPrefix "data-test-id" "value-") with
                     | Some valueEl =>
                         Some (result ++ [parseValueElement valueEl])%list
                     | None => Some result
                     end
                 end
             end)
          (children contentDiv) (Some result) in
      match result with
      | None => None
      | Some [] => Some (JString (nullish (trimmedText container) ""))
      | Some result => Some (JArray result)
      end
  end.

End Composite.

(** [fuel] bounds the depth of nested composites that is followed. *)
Fixpoint parseCollapsibleValue (fuel : nat) (collapsible : Node)
  : option JsValue :=
  match fuel with
  | O => None
  | S fuel' =>
      let firstChar := option_map Js.charAt0 (trimmedText collapsible) in
      let isArray :=
        match firstChar with
        | Some c => String.eqb c "["
        | None => false
        end in
      if isArray
      then parseArrayValue (parseCollapsibleValue fuel') collapsible
      else parseObjectValue (parseCollapsibleValue fuel') collapsible
  end.

Definition extractStructuredValue (fuel : nat) (element : Node)
  : option JsValue :=
  match querySelector element
          (SelAttr "data-sentry-component" "CollapsibleValue") with
  | Some collapsible => parseCollapsibleValue fuel collapsible
  | None =>
      match querySelector element (SelAttr "data-test-id" "value-number") with
      | Some numberEl =>
          let num := parseFloat (nullish (trimmedText numberEl) "") in
          Some (if Number.isNaN num then ofText (trimmedText numberEl)
                else JNumber num)
      | None =>
          match querySelector element
                  (SelOr (SelAttr "data-test-id" "value-string")
                         (SelAnd (SelTag "pre") (SelClass "val-string"))) with
          | Some stringEl => Some (ofText (trimmedText stringEl))
          | None =>
              match querySelector element
                      (SelAttr "data-test-id" "value-boolean") with
              | Some boolEl =>
                  Some (JBoolean
                          (match trimmedText boolEl with
                           | Some t => String.eqb t "true"
                           | None => false
                           end))
              | None =>
                  match querySelector element
                          (SelAttr "data-test-id" "value-null") with
                  | Some _ => Some JNull
                  | None =>
                      Some (match trimmedText element with
                            | Some t => if Js.truthy t then JString t else JNull
                            | None => JNull
                            end)
                  end
              end
          end
      end
  end.

End DomHelpers.

(* ================================================================= *)
(** ** [extractor/tags.ts] *)

(** The two module-level variables of [tags.ts]. *)
Record TagsModule : Type := {
  tagsCache : option (Obj string);
  tagsCacheValid : bool
}.

(** The module as it is loaded. *)
Definition initialTagsModule : TagsModule :=
  {| tagsCache := None; tagsCacheValid := false |}.

(** A function of [tags.ts] reads and writes the module variables. *)
Definition Tags (A : Type) : Type := TagsModule -> A * TagsModule.

Definition ret {A} (a : A) : Tags A := fun m => (a, m).

Definition bind {A B} (c : Tags A) (k : A -> Tags B) : Tags B :=
  fun m => let (a, m') := c m in k a m'.

Notation "'run!' x <- c ; k" := (bind c (fun x => k))
  (at level 10, x name, c at level 100, k at level 200).

Definition clearTagsCache : Tags unit :=
  fun _ => (tt, {| tagsCache := None; tagsCacheValid := false |}).

Section TagsExtractor.
Context {D : Dom}.

(** The key and the value a row shows, when it has both elements. *)
Definition rowKeyValue (row : Node) : option (string * string) :=
  let keyEl := querySelector row (SelAttr "data-sentry-element" "TreeKey") in
  let valueEl := querySelector row (SelAttr "data-sentry-element" "TreeValue") in
  match keyEl, valueEl with
  | Some keyEl, Some valueEl =>
      let key :=
        Js.optOrElse (getAttribute keyEl "title")
          (Js.optOrElse (trimmedText keyEl) "") in
      let value := getTagValue (Some valueEl) in
      Some (key, value)
  | _, _ => None
  end.

(** The body of the loops over tag tree rows: [tags[key] = value] when
    both are non-empty. *)
Definition addRow (tags : Obj string) (row : Node) : Obj string :=
  match rowKeyValue row with
  | Some (key, value) =>
      if andb (Js.truthy key) (Js.truthy value)
      then Object.store tags key value
      else tags
  | None => tags
  end.

(** Whether [tags[key]] is truthy: an own text that is not empty, or a
    member of [Object.prototype]. *)
Definition isSet (tags : Obj string) (key : string) : bool :=
  match Object.lookup tags key with
  | Object.Own v => Js.truthy v
  | Object.Inherited => true
  | Object.Missing => false
  end.

(** The body of the loop over highlight rows after the tree rows: the
    assignment also asks for [!tags[key]]. *)
Definition addRowIfUnset (tags : Obj string) (row : Node) : Obj string :=
  match rowKeyValue row with
  | Some (key, value) =>
      if andb (andb (Js.truthy key) (Js.truthy value))
              (negb (isSet tags key))
      then Object.store tags key value
      else tags
  | None => tags
  end.

(** [Object.keys(tags).length > 0 ? tags : null]. *)
Definition nonEmptyOrNull (tags : Obj string) : option (Obj string) :=
  if negb (Object.isEmpty tags) then Some tags else None.

(** The part of [extractTags] that reads the DOM. *)
Definition readTags (document : Node) : option (Obj string) :=
  let tags : Obj string := [] in
  match querySelector document
          (SelOr (SelAnd (SelTag "section") (SelId "tags"))
                 (SelAttr "data-test-id" "tags")) with
  | None =>
      let highlightTags :=
        querySelectorAll document (SelAttr "data-test-id" "highlight-tag-row") in
      let tags := fold_left addRow highlightTags tags in
      nonEmptyOrNull tags
  | Some tagsSection =>
      let tagRows :=
        querySelectorAll tagsSection (SelAttr "data-test-id" "tag-tree-row") in
      let tags := fold_left addRow tagRows tags in
      let highlightRows :=
        querySelectorAll document (SelAttr "data-test-id" "highlight-tag-row") in
      let tags := fold_left addRowIfUnset highlightRows tags in
      nonEmptyOrNull tags
  end.

Definition extractTags (document : Node) : Tags (option (Obj string)) :=
  fun m =>
    if tagsCacheValid m then (tagsCache m, m)
    else
      let result := readTags document in
      (result, {| tagsCache := result; tagsCacheValid := true |}).

(** [tags?.name] when it is truthy, for the names the extractors read
    ([environment], [release], [level], [transaction], [url]): none of
    them is a member of [Object.prototype], so the own property decides. *)
Definition truthyTag (tags : option (Obj string)) (name : string)
  : option string :=
  match tags with
  | Some o =>
      match Object.get o name with
      | Some v => if Js.truthy v then Some v else None
      | None => None
      end
  | None => None
  end.

(** [el?.textContent?.trim() ?? null]. *)
Definition trimmedTextOf (el : option Node) : option string :=
  match el with Some el => trimmedText el | None => None end.

Definition extractEnvironment (document : Node) : Tags (option string) :=
  run! tags <- extractTags document;
  match truthyTag tags "environment" with
  | Some v => ret (Some v)
  | None =>
      let envEl :=
        querySelector document
          (SelOr (SelAttr "data-test-id" "environment")
                 (SelClass "environment-tag")) in
      ret (trimmedTextOf envEl)
  end.

Definition extractRelease (document : Node) : Tags (option string) :=
  run! tags <- extractTags document;
  match truthyTag tags "release" with
  | Some v => ret (Some v)
  | None =>
      let releaseEl :=
        querySelector document
          (SelOr (SelAttr "data-test-id" "release") (SelClass "release-tag")) in
      ret (trimmedTextOf releaseEl)
  end.

Definition extractLevel (document : Node) : Tags (option string) :=
  run! tags <- extractTags document;
  match truthyTag tags "level" with
  | Some v => ret (Some v)
  | None =>
      match querySelector document
              (SelAttr "data-sentry-element" "ColoredLine") with
      | Some levelIndicator =>
          match querySelector levelIndicator
                  (SelAttr "data-sentry-element" "VisuallyHidden") with
          | Some hiddenText =>
              let text := nullish (trimmedText hiddenText) "" in
              ret (RegExp.matchLevel text)
          | None => ret None
          end
      | None => ret None
      end
  end.

(** The first span of the header whose text is a method and a path. *)
Definition routeSpan (spans : list Node) : option string :=
  find RegExp.matchesMethodAndPath
    (map (fun span => nullish (trimmedText span) "") spans).

(** The last loop of [extractRoute]: the first highlight row keyed [url]
    or [transaction] that has a value element. *)
Fixpoint routeFromHighlightRows (rows : list Node) : option string :=
  match rows with
  | [] => None
  | row :: rows' =>
      match querySelector row (SelAttr "data-sentry-element" "TreeKey") with
      | Some keyEl =>
          let key :=
            match getAttribute keyEl "title" with
            | Some t => if Js.truthy t then Some t else trimmedText keyEl
            | None => trimmedText keyEl
            end in
          match key with
          | Some k =>
              if orb (String.eqb k "url") (String.eqb k "transaction")
              then
                match querySelector row
                        (SelAttr "data-sentry-element" "TreeValue") with
                | Some valueEl => trimmedText valueEl
                | None => routeFromHighlightRows rows'
                end
              else routeFromHighlightRows rows'
          | None => routeFromHighlightRows rows'
          end
      | None => routeFromHighlightRows rows'
      end
  end.

Definition extractRoute (document : Node) : Tags (option string) :=
  let fromHeader :=
    match querySelector document
            (SelAttr "data-sentry-element" "HeaderGrid") with
    | Some headerGrid => routeSpan (querySelectorAll headerGrid (SelTag "span"))
    | None => None
    end in
  match fromHeader with
  | Some text => ret (Some text)
  | None =>
      run! tags <- extractTags document;
      match truthyTag tags "transaction" with
      | Some v => ret (Some v)
      | None =>
          match truthyTag tags "url" with
          | Some v => ret (Some v)
          | None =>
              ret (routeFromHighlightRows
                     (querySelectorAll document
                        (SelAttr "data-test-id" "highlight-tag-row")))
          end
      end
  end.

End TagsExtractor.

(* ================================================================= *)
(** ** [extractor/index.ts] *)

(** The extractors of the other modules. They read the document and
    [window.location] and never the variables of [tags.ts]. *)
Class PageExtractors {D : Dom} : Type := {
  locationHref : Node -> string;
  extractProjectName : Node -> string;
  extractIssueId : Node -> string;
  extractShortId : Node -> option string;
  extractIssueTitle : Node -> string;
  extractErrorMessage : Node -> option string;
  extractEventCount : Node -> string;
  extractUserCount : Node -> string;
  extractPriority : Node -> option string;
  extractStatus : Node -> option string;
  extractTimestamps : Node -> option Timestamps.t;
  extractUserInfo : Node -> option (Obj string);
  extractStackTrace : Node -> option StackTrace.t;
  extractBreadcrumbs : Node -> option (list Breadcrumb.t);
  extractHttpRequest : Node -> option (Obj string);
  extractContexts : Node -> option (Obj (Obj string));
  extractAdditionalData : Node -> option (Obj JsValue)
}.

Section Aggregator.
Context {D : Dom} {P : PageExtractors}.

Definition extractAllData (document : Node) : Tags SentryIssueData.t :=
  run! _ <- clearTagsCache;
  let url := locationHref document in
  let projectName := extractProjectName document in
  let issueId := extractIssueId document in
  let shortId := extractShortId document in
  let title := extractIssueTitle document in
  let errorMessage := extractErrorMessage document in
  run! route <- extractRoute document;
  let eventCount := extractEventCount document in
  let userCount := extractUserCount document in
  run! environment <- extractEnvironment document;
  run! release <- extractRelease document;
  let priority := extractPriority document in
  let status := extractStatus document in
  run! level <- extractLevel document;
  let timestamps := extractTimestamps document in
  let userInfo := extractUserInfo document in
  let stackTrace := extractStackTrace document in
  let breadcrumbs := extractBreadcrumbs document in
  let httpRequest := extractHttpRequest document in
  run! tags <- extractTags document;
  let contexts := extractContexts document in
  let additionalData := extractAdditionalData document in
  ret {| SentryIssueData.url := url;
         SentryIssueData.projectName := projectName;
         SentryIssueData.issueId := issueId;
         SentryIssueData.shortId := shortId;
         SentryIssueData.title := title;
         SentryIssueData.errorMessage := errorMessage;
         SentryIssueData.route := route;
         SentryIssueData.eventCount := eventCount;
         SentryIssueData.userCount := userCount;
         SentryIssueData.environment := environment;
         SentryIssueData.release := release;
         SentryIssueData.priority := priority;
         SentryIssueData.status := status;
         SentryIssueData.level := level;
         SentryIssueData.timestamps := timestamps;
         SentryIssueData.userInfo := userInfo;
         SentryIssueData.stackTrace := stackTrace;
         SentryIssueData.breadcrumbs := breadcrumbs;
         SentryIssueData.httpRequest := httpRequest;
         SentryIssueData.tags := tags;
         SentryIssueData.contexts := contexts;
         SentryIssueData.additionalData := additionalData |}.

End Aggregator.

(* ================================================================= *)
(** ** Vocabulary of the specification *)

(** The values the data model allows in [additionalData]: strings,
    numbers, booleans, [null] and nested objects and arrays of them. *)
Fixpoint jsonLike (v : JsValue) : bool :=
  match v with
  | JBigInt _ => false
  | JArray items => forallb jsonLike items
  | JObject props => forallb (fun kv => jsonLike (snd kv)) props
  | _ => true
  end.

(** A well-formed issue record. *)
Definition wellFormed (data : SentryIssueData.t) : Prop :=
  match SentryIssueData.additionalData data with
  | Some o => forallb (fun kv => jsonLike (snd kv)) o = true
  | None => True
  end.

(** The first line of a text. *)
Definition firstLine (text : string) : string :=
  hd "" (Js.split (ascii_of_nat 10) text).

(** The header text as the specification words it: the title, prefixed
    with the short id and a colon whenever the short id is not null. *)
Definition specHeaderTitle (data : SentryIssueData.t) : string :=
  match SentryIssueData.shortId data with
  | Some shortId => shortId ++ ": " ++ SentryIssueData.title data
  | None => SentryIssueData.title data
  end.

(** A text that is a number as a whole: a signed decimal literal, with
    nothing after it. *)
Definition numericText (text : string) : bool :=
  match scanFloat text with
  | Some (_, EmptyString) => true
  | _ => false
  end.

(** The bullet of one breadcrumb. *)
Definition breadcrumbLine (bc : Breadcrumb.t) : string :=
  formatBreadcrumb "" bc.

(** Texts put one after the other. *)
Fixpoint joinAll (texts : list string) : string :=
  match texts with
  | [] => ""
  | t :: rest => t ++ joinAll rest
  end.

(** What a breadcrumb bullet shows before the message: the time, the
    category and the level. *)
Definition breadcrumbLead (bc : Breadcrumb.t) : string :=
  let time := Js.optOrElse (Breadcrumb.timestamp bc) "" in
  let category := Js.optOrElse (Breadcrumb.category bc) "" in
  let level :=
    Js.optOrElse (Breadcrumb.type bc)
      (Js.optOrElse (Breadcrumb.level bc) "") in
  "- " ++ (if Js.truthy time then "[" ++ time ++ "]" else "")
       ++ " " ++ (if Js.truthy category then "**" ++ category ++ "**" else "")
       ++ " " ++ (if Js.truthy level then "(" ++ level ++ ")" else "")
       ++ " ".

(** The part of its message a breadcrumb bullet shows: the first 100
    units. *)
Definition shownMessage (bc : Breadcrumb.t) : string :=
  match Breadcrumb.message bc with
  | Some m => Js.substring0 100 m
  | None => ""
  end.

(** The bullet of a breadcrumb, written out. *)
Definition crumbBullet (bc : Breadcrumb.t) : string :=
  breadcrumbLead bc ++ shownMessage bc ++ Js.LF.

(** The list is the single raw-text entry the extractor falls back to. *)
Definition rawFallback (breadcrumbs : list Breadcrumb.t) : bool :=
  match breadcrumbs with
  | [only] => Js.truthyOpt (Breadcrumb.raw only)
  | _ => false
  end.

(** The line that announces the exception of a stack trace. *)
Definition exceptionLine (stackTrace : StackTrace.t) : string :=
  match StackTrace.exceptionValue stackTrace with
  | Some v =>
      if Js.truthy v then "**Exception:** " ++ v ++ Js.LF ++ Js.LF else ""
  | None => ""
  end.

(** The overview bullet of a field: none when the value is missing or
    empty. *)
Definition bullet (key : string) (value : option string) : list string :=
  if Js.truthyOpt value then [formatKeyValue key value] else [].

(** The record of the minimal scenario: the title and the url are given,
    every nullable field is [null]. *)
Definition minimalRecord (projectName issueId eventCount userCount : string)
  : SentryIssueData.t :=
  {| SentryIssueData.url := "https://x";
     SentryIssueData.projectName := projectName;
     SentryIssueData.issueId := issueId;
     SentryIssueData.shortId := None;
     SentryIssueData.title := "X";
     SentryIssueData.errorMessage := None;
     SentryIssueData.route := None;
     SentryIssueData.eventCount := eventCount;
     SentryIssueData.userCount := userCount;
     SentryIssueData.environment := None;
     SentryIssueData.release := None;
     SentryIssueData.priority := None;
     SentryIssueData.status := None;
     SentryIssueData.level := None;
     SentryIssueData.timestamps := None;
     SentryIssueData.userInfo := None;
     SentryIssueData.stackTrace := None;
     SentryIssueData.breadcrumbs := None;
     SentryIssueData.httpRequest := None;
     SentryIssueData.tags := None;
     SentryIssueData.contexts := None;
     SentryIssueData.additionalData := None |}.

(** The values a list of rows binds, in row order: a row counts when it
    has a key element and a value element and neither text is empty. *)
Definition rowBindings {D : Dom} (rows : list Node) : list (string * string) :=
  flat_map
    (fun row =>
       match rowKeyValue row with
       | Some (key, value) =>
           if andb (Js.truthy key) (Js.truthy value) then [(key, value)]
           else []
       | None => []
       end)
    rows.

(** The bindings of one row. *)
Definition bindingsOf {D : Dom} (row : Node) : list (string * string) :=
  rowBindings [row].

(** Every value an object holds is a non-empty text. *)
Definition allTruthy (tags : Obj string) : Prop :=
  forall k v, Object.get tags k = Some v -> Js.truthy v = true.

(** The module variables once the tags of [document] are cached. *)
Definition cachedFor {D : Dom} (document : Node) : TagsModule :=
  {| tagsCache := readTags document; tagsCacheValid := true |}.

(** During a pass over [document] the cache is either cleared or holds
    the tags of [document]. *)
Definition freshFor {D : Dom} (document : Node) (m : TagsModule) : Prop :=
  m = initialTagsModule \/ m = cachedFor document.

(** Other extractors for the sample pages: they find nothing. *)
Definition noExtractors {D : Dom} : PageExtractors :=
  {| locationHref := fun _ => "https://x";
     extractProjectName := fun _ => "Unknown Project";
     extractIssueId := fun _ => "Unknown";
     extractShortId := fun _ => None;
     extractIssueTitle := fun _ => "Unknown Issue";
     extractErrorMessage := fun _ => None;
     extractEventCount := fun _ => "0";
     extractUserCount := fun _ => "0";
     extractPriority := fun _ => None;
     extractStatus := fun _ => None;
     extractTimestamps := fun _ => None;
     extractUserInfo := fun _ => None;
     extractStackTrace := fun _ => None;
     extractBreadcrumbs := fun _ => None;
     extractHttpRequest := fun _ => None;
     extractContexts := fun _ => None;
     extractAdditionalData := fun _ => None |}.

(** The bullets of the tags section. *)
Definition tagBullet (key value : string) : string :=
  "- **" ++ key ++ ":** " ++ value ++ Js.LF.

Definition syntheticBullet (prefix : string) : string :=
  "- **" ++ prefix ++ ":**" ++ Js.LF.

Definition subBullet (kv : string * string) : string :=
  "  - " ++ fst kv ++ ": " ++ snd kv ++ Js.LF.

(** The sub-bullets of a group, written out. *)
Definition subBulletsOf (group : Obj string) : string :=
  joinAll (map subBullet (Object.entries group)).

(** What the tags section shows for a tag without a dot: its bullet, and
    beneath it the sub-bullets of the group of that name when there is
    one. *)
Definition standaloneBlock (grouped : Obj (Obj string))
  (kv : string * string) : string :=
  tagBullet (fst kv) (snd kv)
  ++ match Object.get grouped (fst kv) with
     | Some group => subBulletsOf group
     | None => ""
     end.

(** What the loop over [grouped] puts out for one group, given the
    prefixes already put out. *)
Definition groupedBlock (outputtedPrefixes : list string)
  (kv : string * Obj string) : string :=
  if existsb (String.eqb (fst kv)) outputtedPrefixes then ""
  else syntheticBullet (fst kv) ++ subBulletsOf (snd kv).

(** What the tags section shows for a group after the tags without a
    dot: nothing when a tag has the name of the group, and otherwise a
    synthetic bullet with the sub-bullets beneath. *)
Definition orphanBlock (standalone : Obj string)
  (kv : string * Obj string) : string :=
  groupedBlock (map fst standalone) kv.

(** A dotted key whose prefix names a member of [Object.prototype]. *)
Definition builtinPrefix (key : string) : bool :=
  andb (Js.includes "." key)
       (Object.inherited (hd "" (Js.split "." key))).

(** Tags none of whose keys has such a prefix. *)
Definition ordinaryKeys (tags : Obj string) : bool :=
  forallb (fun kv => negb (builtinPrefix (fst kv))) tags.

Definition ordinaryOpt (tags : option (Obj string)) : Prop :=
  match tags with
  | Some tags => ordinaryKeys tags = true
  | None => True
  end.

(** A record whose tags have no such key. *)
Definition ordinaryTags (data : SentryIssueData.t) : Prop :=
  ordinaryOpt (SentryIssueData.tags data).

(** The first loop of [formatTagsNested] has sorted the tags [tags] into
    [grouped] and [standalone]: the tags without a dot are in
    [standalone], and the tag [parent.child] is the property [child] of
    the group [parent]. A property named [__proto__] is never created. *)
Definition sorted (tags : list (string * string))
  (grouped : Obj (Obj string)) (standalone : Obj string) : Prop :=
  NoDup (map fst standalone)
  /\ NoDup (map fst grouped)
  /\ (forall key value,
        In (key, value) standalone
        <-> In (key, value) tags
            /\ Js.includes "." key = false /\ key <> Object.proto)
  /\ (forall parent,
        In parent (map fst grouped)
        <-> Js.includes "." parent = false
            /\ exists child value, In (parent ++ "." ++ child, value) tags)
  /\ (forall parent group,
        In (parent, group) grouped ->
        NoDup (map fst group)
        /\ forall child value,
             In (child, value) group
             <-> In (parent ++ "." ++ child, value) tags
                 /\ child <> Object.proto).

(** The value of the first, and of the last, binding of a key. *)
Definition firstBinding (key : string) (l : list (string * string))
  : option string :=
  option_map snd (find (fun kv => String.eqb (fst kv) key) l).

Definition lastBinding (key : string) (l : list (string * string))
  : option string :=
  firstBinding key (List.rev l).

(* ================================================================= *)
(** ** Sample pages and records *)

Module Sample.

(** A page given by what its queries answer. *)
Inductive page : Type :=
| El (ident : nat) (text : option string) (attrs : list (string * string))
     (kids : list page) (found : list (Selector * list page)).

Fixpoint selEqb (a b : Selector) : bool :=
  match a, b with
  | SelTag x, SelTag y => String.eqb x y
  | SelId x, SelId y => String.eqb x y
  | SelClass x, SelClass y => String.eqb x y
  | SelAttr n v, SelAttr n' v' => andb (String.eqb n n') (String.eqb v v')
  | SelAttrPrefix n v, SelAttrPrefix n' v' =>
      andb (String.eqb n n') (String.eqb v v')
  | SelScope, SelScope => true
  | SelAnd x y, SelAnd x' y' => andb (selEqb x x') (selEqb y y')
  | SelDescendant x y, SelDescendant x' y' =>
      andb (selEqb x x') (selEqb y y')
  | SelChild x y, SelChild x' y' => andb (selEqb x x') (selEqb y y')
  | SelOr x y, SelOr x' y' => andb (selEqb x x') (selEqb y y')
  | _, _ => false
  end.

Definition ident (p : page) : nat := match p with El i _ _ _ _ => i end.
Definition text (p : page) : option string :=
  match p with El _ t _ _ _ => t end.
Definition kids (p : page) : list page := match p with El _ _ _ k _ => k end.

Definition attribute (p : page) (name : string) : option string :=
  match p with
  | El _ _ attrs _ _ =>
      option_map snd (find (fun kv => String.eqb (fst kv) name) attrs)
  end.

Definition all (p : page) (s : Selector) : list page :=
  match p with
  | El _ _ _ _ found =>
      match find (fun q => selEqb (fst q) s) found with
      | Some (_, nodes) => nodes
      | None => []
      end
  end.

Definition dom : Dom :=
  {| Node := page;
     querySelector := fun p s => hd_error (all p s);
     querySelectorAll := all;
     children := kids;
     textContent := text;
     getAttribute := attribute;
     sameNode := fun a b => Nat.eqb (ident a) (ident b) |}.

(** A leaf with a text. *)
Definition leaf (i : nat) (t : string) (attrs : list (string * string))
  : page :=
  El i (Some t) attrs [] [].

(** Integers are printed in decimal. *)
Definition integers : NumberFormat :=
  fun n =>
    match n with
    | Decimal neg d 0%Z =>
        (if neg then "-" else "")
        ++ DecimalString.NilZero.string_of_uint (N.to_uint d)
    | _ => "NaN"
    end.

(** A tag tree row or a highlight row showing [key] and [value]. *)
Definition row (i : nat) (key value : string) : page :=
  El i (Some (key ++ value)) []
     [leaf (i + 1) key [("data-sentry-element", "TreeKey")];
      leaf (i + 2) value [("data-sentry-element", "TreeValue")]]
     [(SelAttr "data-sentry-element" "TreeKey",
       [leaf (i + 1) key [("data-sentry-element", "TreeKey")]]);
      (SelAttr "data-sentry-element" "TreeValue",
       [leaf (i + 2) value [("data-sentry-element", "TreeValue")]])].

(** A page whose tags section has the rows [primary] and which shows the
    highlight rows [highlight]. *)
Definition tagsPage (primary highlight : list page) : page :=
  El 0 None [] []
     [(SelOr (SelAnd (SelTag "section") (SelId "tags"))
             (SelAttr "data-test-id" "tags"),
       [El 1 None [("data-test-id", "tags")] primary
           [(SelAttr "data-test-id" "tag-tree-row", primary)]]);
      (SelAttr "data-test-id" "highlight-tag-row", highlight)].

(** The release is [1.0] in the tags section and [2.0] in a highlight. *)
Definition collidingPage : page :=
  tagsPage [row 10 "release" "1.0"; row 20 "level" "error"]
           [row 30 "release" "2.0"; row 40 "os" "linux"].

(** A table cell whose value element is marked as a number and shows
    [shown]. *)
Definition numberCell (shown : string) : page :=
  El 0 (Some shown) [("class", "val")]
     [leaf 1 shown [("data-test-id", "value-number")]]
     [(SelAttr "data-test-id" "value-number",
       [leaf 1 shown [("data-test-id", "value-number")]])].

Definition crumb (message : string) : Breadcrumb.t :=
  {| Breadcrumb.category := Some "http";
     Breadcrumb.type := Some "info";
     Breadcrumb.message := Some message;
     Breadcrumb.timestamp := Some "12:00:00";
     Breadcrumb.level := Some "info";
     Breadcrumb.raw := None |}.

(** Sixteen breadcrumbs, numbered in order. *)
Definition sixteenCrumbs : list Breadcrumb.t :=
  map (fun n => crumb ("step " ++ Js.ofNat n)) (seq 1 16).

(** A message of 104 characters. *)
Definition longMessage : string :=
  "0123456789012345678901234567890123456789012345678901234567890123456789012345678901234567890123456789tail".

Definition frame : StackFrame.t :=
  {| StackFrame.filename := "app.js";
     StackFrame.lineNo := "10";
     StackFrame.function := "main";
     StackFrame.context := "";
     StackFrame.isSystem := false;
     StackFrame.isExpanded := false |}.

(** A stack trace that carries both shapes at once. *)
Definition rawAndFrames : StackTrace.t :=
  {| StackTrace.frames := Some [frame];
     StackTrace.raw := Some "Error: boom at app.js:10";
     StackTrace.exceptionValue := Some "boom" |}.

(** A record whose short id is the empty string. *)
Definition emptyShortId : SentryIssueData.t :=
  {| SentryIssueData.url := "https://x";
     SentryIssueData.projectName := "web";
     SentryIssueData.issueId := "Unknown";
     SentryIssueData.shortId := Some "";
     SentryIssueData.title := "X";
     SentryIssueData.errorMessage := None;
     SentryIssueData.route := None;
     SentryIssueData.eventCount := "0";
     SentryIssueData.userCount := "0";
     SentryIssueData.environment := None;
     SentryIssueData.release := None;
     SentryIssueData.priority := None;
     SentryIssueData.status := None;
     SentryIssueData.level := None;
     SentryIssueData.timestamps := None;
     SentryIssueData.userInfo := None;
     SentryIssueData.stackTrace := None;
     SentryIssueData.breadcrumbs := None;
     SentryIssueData.httpRequest := None;
     SentryIssueData.tags := None;
     SentryIssueData.contexts := None;
     SentryIssueData.additionalData := None |}.

(** A record with a short id, sixteen breadcrumbs and nested data. *)
Definition fullRecord : SentryIssueData.t :=
  {| SentryIssueData.url := "https://x";
     SentryIssueData.projectName := "web";
     SentryIssueData.issueId := "WEB-1";
     SentryIssueData.shortId := Some "WEB-1";
     SentryIssueData.title := "TypeError";
     SentryIssueData.errorMessage := Some "boom";
     SentryIssueData.route := None;
     SentryIssueData.eventCount := "3";
     SentryIssueData.userCount := "1";
     SentryIssueData.environment := Some "prod";
     SentryIssueData.release := None;
     SentryIssueData.priority := None;
     SentryIssueData.status := None;
     SentryIssueData.level := Some "error";
     SentryIssueData.timestamps := None;
     SentryIssueData.userInfo := Some [("id", "7")];
     SentryIssueData.stackTrace := Some rawAndFrames;
     SentryIssueData.breadcrumbs := Some sixteenCrumbs;
     SentryIssueData.httpRequest := None;
     SentryIssueData.tags :=
       Some [("runtime", "node"); ("runtime.version", "18")];
     SentryIssueData.contexts := Some [("browser", [("name", "firefox")])];
     SentryIssueData.additionalData :=
       Some [("retries", JNumber (Decimal false 3 0));
             ("path", JArray [JString "a"; JNull])] |}.

Definition now : string := "2026-01-02T10:00:00.000Z".

(** The module variables left by a pass over another page. *)
Definition staleCache : TagsModule :=
  {| tagsCache := Some [("release", "0.9")]; tagsCacheValid := true |}.

End Sample.

(* ================================================================= *)
(** ** More string operations *)

Module Text.

(** [s.includes(needle)] for any needle. *)
Fixpoint includes (needle s : string) : bool :=
  if prefix needle s then true
  else match s with
       | EmptyString => false
       | String _ s' => includes needle s'
       end.

(** [toLowerCase] on one code unit below U+0100. *)
Definition toLowerUnit (a : ascii) : ascii :=
  let n := nat_of_ascii a in
  if ((65 <=? n) && (n <=? 90))%nat then ascii_of_nat (n + 32)
  else if ((192 <=? n) && (n <=? 222) && negb (n =? 215))%nat
       then ascii_of_nat (n + 32)
       else a.

(** [s.toLowerCase()]. *)
Fixpoint toLowerCase (s : string) : string :=
  match s with
  | EmptyString => EmptyString
  | String a s' => String (toLowerUnit a) (toLowerCase s')
  end.

(** ASCII white space, which separates the tokens of a [class]
    attribute. *)
Definition isAsciiWhiteSpace (a : ascii) : bool :=
  let n := nat_of_ascii a in
  ((n =? 9) || (n =? 10) || (n =? 12) || (n =? 13) || (n =? 32))%nat.

(** The tokens of a text, split at ASCII white space; [word] is the token
    being read. *)
Fixpoint tokensFrom (word : string) (s : string) : list string :=
  match s with
  | EmptyString => if Js.truthy word then [word] else []
  | String a s' =>
      if isAsciiWhiteSpace a
      then if Js.truthy word then word :: tokensFrom EmptyString s'
           else tokensFrom EmptyString s'
      else tokensFrom (word ++ String a EmptyString) s'
  end.

Definition tokens (s : string) : list string := tokensFrom EmptyString s.

End Text.

(** [el.classList.contains(name)]: the class list is the token set of the
    [class] attribute. *)
Definition classListContains {D : Dom} (el : Node) (name : string) : bool :=
  match getAttribute el "class" with
  | Some classes => existsb (String.eqb name) (Text.tokens classes)
  | None => false
  end.

(* ================================================================= *)
(** ** [extractor/breadcrumbs.ts] *)

Module Breadcrumbs.
Section Extractor.
Context {D : Dom}.

(** Which of the four crumb contents the item shows. *)
Definition categoryOf (item : Node) : string :=
  if Js.truthyOpt
       (getText (SelAttr "data-sentry-component" "HTTPCrumbContent") item)
  then "http"
  else if Js.truthyOpt
            (getText (SelAttr "data-sentry-component" "ExceptionCrumbContent")
               item)
  then "exception"
  else if Js.truthyOpt
            (getText (SelAttr "data-sentry-component" "UICrumbContent") item)
  then "ui"
  else if Js.truthyOpt
            (getText (SelAttr "data-sentry-component" "ConsoleCrumbContent")
               item)
  then "console"
  else "".

(** The body of the loop over the items: the breadcrumb that is pushed,
    if one is. *)
Definition readItem (item : Node) : option Breadcrumb.t :=
  let levelEl :=
    querySelector item
      (SelOr (SelAttr "data-sentry-element" "BreadcrumbLevel")
             (SelAttr "data-test-id" "breadcrumb-level")) in
  let level := nullish (trimmedTextOf levelEl) "" in
  let textEl :=
    querySelector item
      (SelOr (SelAttr "data-sentry-element" "BreadcrumbText")
             (SelAttr "data-test-id" "breadcrumb-message")) in
  let message := nullish (trimmedTextOf textEl) "" in
  let category := categoryOf item in
  let timeEl := querySelector item (SelTag "time") in
  let timestamp :=
    match timeEl with
    | Some timeEl =>
        Js.optOrElse (getAttribute timeEl "datetime")
          (Js.optOrElse (trimmedText timeEl) "")
    | None => ""
    end in
  if orb (orb (Js.truthy level) (Js.truthy message)) (Js.truthy category)
  then Some {| Breadcrumb.category := Some category;
               Breadcrumb.type := Some level;
               Breadcrumb.message := Some message;
               Breadcrumb.timestamp := Some timestamp;
               Breadcrumb.level := Some level;
               Breadcrumb.raw := None |}
  else None.

(** [{ raw: text }]. *)
Definition rawEntry (text : string) : Breadcrumb.t :=
  {| Breadcrumb.category := None;
     Breadcrumb.type := None;
     Breadcrumb.message := None;
     Breadcrumb.timestamp := None;
     Breadcrumb.level := None;
     Breadcrumb.raw := Some text |}.

(** The breadcrumbs pushed by the loop over [items]. *)
Definition readItems (items : list Node) : list Breadcrumb.t :=
  fold_left
    (fun breadcrumbs item =>
       match readItem item with
       | Some bc => (breadcrumbs ++ [bc])%list
       | None => breadcrumbs
       end)
    items [].

Definition extractBreadcrumbs (document : Node)
  : option (list Breadcrumb.t) :=
  match querySelector document
          (SelOr (SelAnd (SelTag "section") (SelId "breadcrumbs"))
                 (SelAttr "data-test-id" "breadcrumbs")) with
  | None => None
  | Some breadcrumbSection =>
      let breadcrumbItems :=
        querySelectorAll breadcrumbSection
          (SelOr (SelAttr "data-sentry-component" "Item")
                 (SelAttr "data-sentry-element" "BreadcrumbItem")) in
      let breadcrumbs := readItems breadcrumbItems in
      match breadcrumbs with
      | [] =>
          match textContent breadcrumbSection with
          | Some allText =>
              if (10 <? String.length allText)%nat
              then Some [rawEntry (Js.substring0 3000 allText)]
              else None
          | None => None
          end
      | _ :: _ => Some breadcrumbs
      end
  end.

End Extractor.
End Breadcrumbs.

(* ================================================================= *)
(** ** [extractor/stack-trace.ts] *)

Module StackTraces.
Section Extractor.
Context {D : Dom}.

(** [getText(selector, frame) || ""]. *)
Definition textOr (selector : Selector) (context : Node) : string :=
  Js.optOrElse (getText selector context) "".

(** The body of the loop over the frame elements: the frame that is
    pushed, if one is. *)
Definition readFrame (frame : Node) : option StackFrame.t :=
  let filename :=
    textOr (SelOr (SelAttr "data-test-id" "filename")
              (SelOr (SelAnd (SelTag "code") (SelClass "filename"))
                     (SelAttr "data-sentry-element" "Filename")))
           frame in
  let funcName :=
    textOr (SelOr (SelAttr "data-test-id" "function")
              (SelOr (SelAttr "data-sentry-component" "FunctionName")
                     (SelAttr "data-sentry-element" "Function")))
           frame in
  let lineInfoEl :=
    querySelector frame
      (SelOr (SelAttr "data-sentry-element" "InFramePosition")
             (SelAttr "data-test-id" "line-number")) in
  let lineNo := nullish (trimmedTextOf lineInfoEl) "" in
  let contextEl :=
    querySelector frame
      (SelOr (SelAttr "data-test-id" "frame-context")
             (SelAttr "data-sentry-element" "Context")) in
  let context :=
    match contextEl with
    | Some contextEl =>
        let contextLines :=
          querySelectorAll contextEl
            (SelOr (SelAttr "data-test-id" "context-line")
                   (SelAttr "data-sentry-element" "ContextLine")) in
        Js.join Js.LF
          (map (fun line => nullish (textContent line) "") contextLines)
    | None => ""
    end in
  let isSystem := classListContains frame "system-frame" in
  let isExpanded := classListContains frame "expanded" in
  if orb (Js.truthy filename) (Js.truthy funcName)
  then Some {| StackFrame.filename := filename;
               StackFrame.lineNo := lineNo;
               StackFrame.function := funcName;
               StackFrame.context := Js.substring0 1000 context;
               StackFrame.isSystem := isSystem;
               StackFrame.isExpanded := isExpanded |}
  else None.

(** The frames pushed by the loop over [frameElements]. *)
Definition readFrames (frameElements : list Node) : list StackFrame.t :=
  fold_left
    (fun frames frame =>
       match readFrame frame with
       | Some f => (frames ++ [f])%list
       | None => frames
       end)
    frameElements [].

Definition extractStackTrace (document : Node) : option StackTrace.t :=
  match querySelector document
          (SelOr (SelAnd (SelTag "section") (SelId "exception"))
                 (SelAttr "data-test-id" "exception")) with
  | None => None
  | Some exceptionSection =>
      let exceptionValueEl :=
        querySelector exceptionSection
          (SelDescendant (SelAttr "data-test-id" "exception-value")
                         (SelTag "h5")) in
      let exceptionValue := trimmedTextOf exceptionValueEl in
      let frameElements :=
        querySelectorAll exceptionSection
          (SelOr (SelAnd (SelAttr "data-test-id" "line") (SelClass "frame"))
             (SelOr (SelAnd (SelTag "li") (SelClass "frame"))
                    (SelAttr "data-sentry-component" "Frame"))) in
      let frames := readFrames frameElements in
      match frames with
      | [] =>
          match querySelector document
                  (SelOr (SelAttr "data-test-id" "stack-trace-content")
                         (SelAttr "data-sentry-element" "StackTrace")) with
          | Some stackContent =>
              Some {| StackTrace.frames := None;
                      StackTrace.raw :=
                        option_map (Js.substring0 5000)
                          (trimmedText stackContent);
                      StackTrace.exceptionValue := exceptionValue |}
          | None => None
          end
      | _ :: _ =>
          Some {| StackTrace.frames := Some frames;
                  StackTrace.raw := None;
                  StackTrace.exceptionValue := exceptionValue |}
      end
  end.

End Extractor.
End StackTraces.

(* ================================================================= *)
(** ** [extractor/additional-data.ts] *)

Module AdditionalData.
Section Extractor.
Context {D : Dom}.

(** The body of the loop over the table rows; [None] when the traversal
    budget of a cell is used up. *)
Definition readRow (fuel : nat) (data : Obj JsValue) (row : Node)
  : option (Obj JsValue) :=
  let keyCell := querySelector row (SelAnd (SelTag "td") (SelClass "key")) in
  let valCell := querySelector row (SelAnd (SelTag "td") (SelClass "val")) in
  match keyCell, valCell with
  | Some keyCell, Some valCell =>
      let key := nullish (trimmedText keyCell) "" in
      match extractStructuredValue fuel valCell with
      | None => None
      | Some value =>
          match value with
          | JNull | JUndefined => Some data
          | _ => if Js.truthy key then Some (Object.store data key value)
                 else Some data
          end
      end
  | _, _ => Some data
  end.

(** The outer [None] is a budget used up; the inner one is [null]. *)
Definition extractAdditionalData (fuel : nat) (document : Node)
  : option (option (Obj JsValue)) :=
  match querySelector document
          (SelOr (SelAnd (SelTag "section") (SelId "extra"))
                 (SelAttr "data-test-id" "extra")) with
  | None => Some None
  | Some extraSection =>
      let data : Obj JsValue := [] in
      let data :=
        match querySelector extraSection
                (SelOr (SelAnd (SelTag "table") (SelClass "key-value"))
                       (SelAttr "data-sentry-component" "KeyValueList")) with
        | Some kvTable =>
            fold_left
              (fun acc row =>
                 match acc with
                 | Some data => readRow fuel data row
                 | None => None
                 end)
              (querySelectorAll kvTable (SelTag "tr")) (Some data)
        | None => Some data
        end in
      match data with
      | Some data =>
          Some (if negb (Object.isEmpty data) then Some data else None)
      | None => None
      end
  end.

End Extractor.
End AdditionalData.

(* ================================================================= *)
(** ** [extractor/basic-info.ts] *)

Module BasicInfo.

(** [pathname.match(/\/issues\/(\d+)/)]: the digits of the leftmost
    match. *)
Fixpoint matchIssuePath (pathname : string) : option string :=
  let here :=
    match stripPrefix "/issues/" pathname with
    | Some r =>
        let (digits, _) := Js.spanDigits r in
        if Js.truthy digits then Some digits else None
    | None => None
    end in
  match here with
  | Some digits => Some digits
  | None =>
      match pathname with
      | EmptyString => None
      | String _ pathname' => matchIssuePath pathname'
      end
  end.

Definition validStatuses : list string :=
  ["ongoing"; "resolved"; "ignored"; "archived"; "unresolved"].

Section Extractor.
Context {D : Dom}.

(** The element of the first selector that matches. *)
Fixpoint firstMatch (document : Node) (selectors : list Selector)
  : option Node :=
  match selectors with
  | [] => None
  | selector :: rest =>
      match querySelector document selector with
      | Some el => Some el
      | None => firstMatch document rest
      end
  end.

Definition shortIdSelectors : list Selector :=
  [ SelDescendant
      (SelDescendant (SelAttr "data-sentry-component" "ShortId")
                     (SelClass "auto-select-text"))
      (SelTag "span");
    SelDescendant (SelAttr "data-sentry-component" "AutoSelectText")
                  (SelTag "span");
    SelDescendant (SelAttr "data-sentry-element" "ShortIdCopyable")
                  (SelTag "span") ].

Definition extractShortId (document : Node) : option string :=
  match firstMatch document shortIdSelectors with
  | Some el => trimmedText el
  | None => None
  end.

(** [pathname] is [window.location.pathname]. *)
Definition extractIssueId (document : Node) (pathname : string) : string :=
  let shortId := extractShortId document in
  if Js.truthyOpt shortId then nullish shortId ""
  else
    match matchIssuePath pathname with
    | Some digits => digits
    | None => "Unknown"
    end.

Definition titleSelectors : list Selector :=
  [ SelAttr "data-sentry-element" "PrimaryTitle";
    SelAttr "data-sentry-component" "EventTitle";
    SelAttr "data-sentry-element" "Title" ].

(** [title] is [document.title]. *)
Definition extractIssueTitle (document : Node) (title : string) : string :=
  match firstMatch document titleSelectors with
  | Some el => nullish (trimmedText el) "Unknown Issue"
  | None =>
      Js.orElse (Js.trim (hd "" (Js.split "|" title))) "Unknown Issue"
  end.

Definition extractErrorMessage (document : Node) : option string :=
  let fromException :=
    match querySelector document (SelAttr "data-test-id" "exception-value") with
    | Some exceptionValue => trimmedText exceptionValue
    | None => None
    end in
  match querySelector document
          (SelAttr "data-sentry-component" "EventMessage") with
  | Some eventMsg =>
      match querySelector eventMsg
              (SelAttr "data-sentry-element" "NoMessage") with
      | Some _ => None
      | None =>
          match trimmedText eventMsg with
          | Some msgText =>
              if andb (Js.truthy msgText)
                      (negb (Text.includes "(No error message)" msgText))
              then Some msgText
              else fromException
          | None => fromException
          end
      end
  | None => fromException
  end.

(** [title ? title : el.textContent?.trim() ?? fallback]. *)
Definition countText (el : Node) (fallback : string) : string :=
  match getAttribute el "title" with
  | Some title =>
      if Js.truthy title then title else nullish (trimmedText el) fallback
  | None => nullish (trimmedText el) fallback
  end.

Definition extractEventCount (document : Node) : string :=
  let countElements :=
    querySelectorAll document (SelAttr "data-sentry-component" "Count") in
  match countElements with
  | eventsEl :: _ => countText eventsEl "Unknown"
  | [] => "Unknown"
  end.

Definition extractUserCount (document : Node) : string :=
  let countElements :=
    querySelectorAll document (SelAttr "data-sentry-component" "Count") in
  match countElements with
  | _ :: usersEl :: _ => countText usersEl "0"
  | _ => "0"
  end.

(** The loop of [extractStatus] over the header spans. *)
Fixpoint statusFrom (spans : list Node) : option string :=
  match spans with
  | [] => None
  | span :: rest =>
      match option_map Text.toLowerCase (trimmedText span) with
      | Some text =>
          if andb (Js.truthy text) (existsb (String.eqb text) validStatuses)
          then trimmedText span
          else statusFrom rest
      | None => statusFrom rest
      end
  end.

Definition extractStatus (document : Node) : option string :=
  statusFrom
    (querySelectorAll document
       (SelDescendant (SelAttr "data-sentry-element" "HeaderGrid")
                      (SelTag "span"))).

(** The body of the loop over the stats items, on the pair
    [(firstSeen, lastSeen)] of the object [timestamps]. *)
Definition statsStep (acc : option string * option string) (item : Node)
  : option string * option string :=
  let (firstSeen, lastSeen) := acc in
  let label := getText (SelOr (SelClass "label") (SelTag "dt")) item in
  let value :=
    getText (SelOr (SelClass "value") (SelOr (SelTag "dd") (SelTag "time")))
      item in
  match label, value with
  | Some label, Some value =>
      if andb (Js.truthy label) (Js.truthy value)
      then
        let firstSeen :=
          if Text.includes "first" (Text.toLowerCase label)
          then Some value else firstSeen in
        let lastSeen :=
          if Text.includes "last" (Text.toLowerCase label)
          then Some value else lastSeen in
        (firstSeen, lastSeen)
      else (firstSeen, lastSeen)
  | _, _ => (firstSeen, lastSeen)
  end.

(** A property that is set only to a non-empty text. *)
Definition whenTruthy (text : option string) : option string :=
  if Js.truthyOpt text then text else None.

Definition extractTimestamps (document : Node) : option Timestamps.t :=
  let firstSeen :=
    getText (SelOr (SelAttr "data-test-id" "first-seen")
                   (SelClass "first-seen")) document in
  let lastSeen :=
    getText (SelOr (SelAttr "data-test-id" "last-seen")
                   (SelClass "last-seen")) document in
  let timestamps := (whenTruthy firstSeen, whenTruthy lastSeen) in
  let statsItems :=
    querySelectorAll document
      (SelOr (SelAttr "data-test-id" "stats-item") (SelClass "stats-item")) in
  let (firstSeen, lastSeen) := fold_left statsStep statsItems timestamps in
  match firstSeen, lastSeen with
  | None, None => None
  | _, _ =>
      Some {| Timestamps.firstSeen := firstSeen;
              Timestamps.lastSeen := lastSeen |}
  end.

End Extractor.
End BasicInfo.

(* ================================================================= *)
(** ** Vocabulary of the further properties *)

(** What the loop over the frames puts out for one frame. *)
Definition frameBlock (frame : StackFrame.t) (index : nat) : string :=
  formatFrame "" frame index.

(** The line of a frame: marker, number, function and location. *)
Definition frameHead (frame : StackFrame.t) (index : nat) : string :=
  (if StackFrame.isSystem frame then "  " else "→ ")
  ++ Js.ofNat (index + 1) ++ ". "
  ++ Js.orElse (StackFrame.function frame) "<anonymous>" ++ " at "
  ++ (if Js.truthy (StackFrame.filename frame)
      then StackFrame.filename frame
           ++ (if Js.truthy (StackFrame.lineNo frame)
               then ":" ++ StackFrame.lineNo frame else "")
      else "unknown")
  ++ Js.LF.

(** The elements of a list with their positions, counted from [index]. *)
Fixpoint numbered {A} (index : nat) (xs : list A) : list (nat * A) :=
  match xs with
  | [] => []
  | x :: rest => (index, x) :: numbered (S index) rest
  end.

(** What [formatContexts] puts out for one context. *)
Definition contextBlock (kv : string * Obj string) : string :=
  if Object.isEmpty (snd kv) then ""
  else Js.LF ++ "**" ++ fst kv ++ ":**" ++ Js.LF
       ++ joinAll
            (map (fun p => tagBullet (fst p) (snd p))
               (Object.entries (snd kv))).

(** A record with one field set to [null]. *)
Definition dropBreadcrumbs (data : SentryIssueData.t) : SentryIssueData.t :=
  {| SentryIssueData.url := SentryIssueData.url data;
     SentryIssueData.projectName := SentryIssueData.projectName data;
     SentryIssueData.issueId := SentryIssueData.issueId data;
     SentryIssueData.shortId := SentryIssueData.shortId data;
     SentryIssueData.title := SentryIssueData.title data;
     SentryIssueData.errorMessage := SentryIssueData.errorMessage data;
     SentryIssueData.route := SentryIssueData.route data;
     SentryIssueData.eventCount := SentryIssueData.eventCount data;
     SentryIssueData.userCount := SentryIssueData.userCount data;
     SentryIssueData.environment := SentryIssueData.environment data;
     SentryIssueData.release := SentryIssueData.release data;
     SentryIssueData.priority := SentryIssueData.priority data;
     SentryIssueData.status := SentryIssueData.status data;
     SentryIssueData.level := SentryIssueData.level data;
     SentryIssueData.timestamps := SentryIssueData.timestamps data;
     SentryIssueData.userInfo := SentryIssueData.userInfo data;
     SentryIssueData.stackTrace := SentryIssueData.stackTrace data;
     SentryIssueData.breadcrumbs := None;
     SentryIssueData.httpRequest := SentryIssueData.httpRequest data;
     SentryIssueData.tags := SentryIssueData.tags data;
     SentryIssueData.contexts := SentryIssueData.contexts data;
     SentryIssueData.additionalData := SentryIssueData.additionalData data |}.

Definition dropTags (data : SentryIssueData.t) : SentryIssueData.t :=
  {| SentryIssueData.url := SentryIssueData.url data;
     SentryIssueData.projectName := SentryIssueData.projectName data;
     SentryIssueData.issueId := SentryIssueData.issueId data;
     SentryIssueData.shortId := SentryIssueData.shortId data;
     SentryIssueData.title := SentryIssueData.title data;
     SentryIssueData.errorMessage := SentryIssueData.errorMessage data;
     SentryIssueData.route := SentryIssueData.route data;
     SentryIssueData.eventCount := SentryIssueData.eventCount data;
     SentryIssueData.userCount := SentryIssueData.userCount data;
     SentryIssueData.environment := SentryIssueData.environment data;
     SentryIssueData.release := SentryIssueData.release data;
     SentryIssueData.priority := SentryIssueData.priority data;
     SentryIssueData.status := SentryIssueData.status data;
     SentryIssueData.level := SentryIssueData.level data;
     SentryIssueData.timestamps := SentryIssueData.timestamps data;
     SentryIssueData.userInfo := SentryIssueData.userInfo data;
     SentryIssueData.stackTrace := SentryIssueData.stackTrace data;
     SentryIssueData.breadcrumbs := SentryIssueData.breadcrumbs data;
     SentryIssueData.httpRequest := SentryIssueData.httpRequest data;
     SentryIssueData.tags := None;
     SentryIssueData.contexts := SentryIssueData.contexts data;
     SentryIssueData.additionalData := SentryIssueData.additionalData data |}.

Definition dropContexts (data : SentryIssueData.t) : SentryIssueData.t :=
  {| SentryIssueData.url := SentryIssueData.url data;
     SentryIssueData.projectName := SentryIssueData.projectName data;
     SentryIssueData.issueId := SentryIssueData.issueId data;
     SentryIssueData.shortId := SentryIssueData.shortId data;
     SentryIssueData.title := SentryIssueData.title data;
     SentryIssueData.errorMessage := SentryIssueData.errorMessage data;
     SentryIssueData.route := SentryIssueData.route data;
     SentryIssueData.eventCount := SentryIssueData.eventCount data;
     SentryIssueData.userCount := SentryIssueData.userCount data;
     SentryIssueData.environment := SentryIssueData.environment data;
     SentryIssueData.release := SentryIssueData.release data;
     SentryIssueData.priority := SentryIssueData.priority data;
     SentryIssueData.status := SentryIssueData.status data;
     SentryIssueData.level := SentryIssueData.level data;
     SentryIssueData.timestamps := SentryIssueData.timestamps data;
     SentryIssueData.userInfo := SentryIssueData.userInfo data;
     SentryIssueData.stackTrace := SentryIssueData.stackTrace data;
     SentryIssueData.breadcrumbs := SentryIssueData.breadcrumbs data;
     SentryIssueData.httpRequest := SentryIssueData.httpRequest data;
     SentryIssueData.tags := SentryIssueData.tags data;
     SentryIssueData.contexts := None;
     SentryIssueData.additionalData := SentryIssueData.additionalData data |}.

(** One round of the loop of [formatAsList]. *)
Definition listStep {NF : NumberFormat} (acc : Completion string)
  (kv : string * JsValue) : Completion string :=
  try! list <- acc;
  let (key, value) := kv in
  try! displayValue <-
    (if typeofObject value
     then try! r <- JSON.stringify value; Normal (display r)
     else Normal (String_ value));
  Normal (list ++ "- **" ++ key ++ ":** " ++ displayValue ++ Js.LF).

(** A value [formatAsList] hands to [JSON.stringify] and that cannot be
    serialized. *)
Definition unserializableEntry (kv : string * JsValue) : bool :=
  andb (typeofObject (snd kv)) (negb (jsonLike (snd kv))).

(** A tags object as the extractor builds it: no key twice, no empty
    key and no empty value. *)
Definition goodTags (tags : Obj string) : Prop :=
  NoDup (map fst tags)
  /\ forall k v, In (k, v) tags -> Js.truthy k = true /\ Js.truthy v = true.

(** The selector of the tags section. *)
Definition tagsSectionSelector : Selector :=
  SelOr (SelAnd (SelTag "section") (SelId "tags"))
        (SelAttr "data-test-id" "tags").

(** The highlight rows of a page. *)
Definition highlightRowsOf {D : Dom} (document : Node) : list Node :=
  querySelectorAll document (SelAttr "data-test-id" "highlight-tag-row").

(** A page is a finite tree: every node has a height, and what a query
    finds below a node, like each child of it, is less high. *)
Class FiniteDom (D : Dom) : Type := {
  height : Node -> nat;
  querySelector_below :
    forall (n : Node) (s : Selector) (m : Node),
      querySelector n s = Some m -> height m < height n;
  children_below :
    forall n c : Node, In c (children n) -> height c < height n
}.

(** A value that is a text, or an object or array that is not empty. *)
Definition textOrNonEmpty (v : JsValue) : Prop :=
  (exists s, v = JString s)
  \/ (exists props, v = JObject props /\ props <> [])
  \/ (exists items, v = JArray items /\ items <> []).

(** A value that is neither [null] nor [undefined]. *)
Definition isDefined (v : JsValue) : bool :=
  match v with JNull | JUndefined => false | _ => true end.

(** Additional data without a repeated key, an empty key, a [null] or
    [undefined] value, or a value that cannot be serialised. *)
Definition clean (data : Obj JsValue) : Prop :=
  NoDup (map fst data)
  /\ forall k v, In (k, v) data ->
       k <> "" /\ isDefined v = true /\ jsonLike v = true.

(** The breadcrumbs one item gives: one or none. *)
Definition crumbsOf {D : Dom} (item : Node) : list Breadcrumb.t :=
  match Breadcrumbs.readItem item with
  | Some bc => [bc]
  | None => []
  end.

(** A breadcrumb read from an item of the page: no raw text, the level
    also as its type, one of the four categories or none, and a level, a
    message or a category that is not empty. *)
Definition structuredCrumb (bc : Breadcrumb.t) : Prop :=
  Breadcrumb.raw bc = None
  /\ Breadcrumb.type bc = Breadcrumb.level bc
  /\ In (Breadcrumb.category bc)
        [Some "http"; Some "exception"; Some "ui"; Some "console"; Some ""]
  /\ exists level message timestamp,
       Breadcrumb.level bc = Some level
       /\ Breadcrumb.message bc = Some message
       /\ Breadcrumb.timestamp bc = Some timestamp
       /\ (level <> "" \/ message <> ""
           \/ Breadcrumb.category bc <> Some "").

(** The frames one frame element gives: one or none. *)
Definition framesOf {D : Dom} (frame : Node) : list StackFrame.t :=
  match StackTraces.readFrame frame with
  | Some f => [f]
  | None => []
  end.

(** A frame read from the page: it names a file or a function, and its
    context is at most 1000 units long. *)
Definition namedFrame (f : StackFrame.t) : Prop :=
  (StackFrame.filename f <> "" \/ StackFrame.function f <> "")
  /\ String.length (StackFrame.context f) <= 1000.

(** The lines of a frame, written out: its head line and, when it has
    context text, a line that shows the first 200 units of it behind six
    spaces. *)
Definition frameText (frame : StackFrame.t) (index : nat) : string :=
  frameHead frame index
  ++ (if Js.truthy (StackFrame.context frame)
      then "      " ++ Js.substring0 200 (StackFrame.context frame) ++ Js.LF
      else "").

(** What [formatStackTrace] puts after the exception line for a trace
    that has frames or raw text but not both. *)
Definition traceBody (stackTrace : StackTrace.t) : string :=
  match StackTrace.frames stackTrace with
  | Some frames =>
      fence ++ Js.LF
      ++ joinAll (map (fun p => frameText (snd p) (fst p))
                    (numbered 0 frames))
      ++ fence
  | None =>
      match StackTrace.raw stackTrace with
      | Some r => if Js.truthy r then fence ++ Js.LF ++ r ++ Js.LF ++ fence
                  else ""
      | None => ""
      end
  end.

(** A text of decimal digits only. *)
Fixpoint allDigits (s : string) : bool :=
  match s with
  | EmptyString => true
  | String a s' => andb (Js.isDigit a) (allDigits s')
  end.

(** A text that starts with a decimal digit. *)
Definition startsWithDigit (s : string) : bool :=
  match s with
  | EmptyString => false
  | String a _ => Js.isDigit a
  end.

(** A timestamp that is missing or a text that is not empty. *)
Definition missingOrShown (t : option string) : Prop :=
  match t with Some s => s <> "" | None => True end.

(* ================================================================= *)
(** ** More sample pages and records *)

Module Pages.

(** The height of a sample page: one more than what its children and its
    query answers reach. *)
Fixpoint heightOf (p : Sample.page) : nat :=
  match p with
  | Sample.El _ _ _ kids found =>
      S (Nat.max (list_max (map heightOf kids))
                 (list_max
                    (map (fun q : Selector * list Sample.page =>
                            list_max (map heightOf (snd q)))
                       found)))
  end.

Definition finite : FiniteDom Sample.dom.
Proof.
  assert (Hmax : forall (l : list Sample.page) (x : Sample.page),
            In x l -> heightOf x <= list_max (map heightOf l)).
  { intros l x. induction l as [|y l IH]; simpl; [easy|].
    intros [->|Hin]; [lia | specialize (IH Hin); lia]. }
  refine (@Build_FiniteDom Sample.dom heightOf _ _).
  - intros [i t a kids found] s m. simpl. unfold Sample.all.
    intros Hq.
    destruct (find (fun q => Sample.selEqb (fst q) s) found)
      as [[s' nodes]|] eqn:Hfind; [|discriminate].
    apply find_some in Hfind. destruct Hfind as [Hin _].
    destruct nodes as [|n nodes]; [discriminate|].
    injection Hq as ->.
    assert (H1 : heightOf m <= list_max (map heightOf (m :: nodes)))
      by (apply Hmax; now left).
    assert (H2 : list_max (map heightOf (m :: nodes))
                 <= list_max
                      (map (fun q : Selector * list Sample.page =>
                              list_max (map heightOf (snd q))) found)).
    { clear - Hin. induction found as [|q found IH]; [easy|].
      simpl. destruct Hin as [->|Hin]; [simpl; lia|].
      specialize (IH Hin). simpl in IH. lia. }
    lia.
  - intros [i t a kids found] c. simpl. intros Hin.
    specialize (Hmax kids c Hin). lia.
Defined.

(** A table cell that shows the array [[1, "a"]] as a composite value. *)
Definition arrayItem (i : nat) (value : Sample.page) : Sample.page :=
  Sample.El i None [] [value]
    [(SelAttrPrefix "data-test-id" "value-", [value])].

Definition arrayComposite : Sample.page :=
  Sample.El 2 (Some "[1, a]") [("data-sentry-component", "CollapsibleValue")]
    []
    [(SelAttr "data-sentry-element" "CollapsibleContent",
      [Sample.El 3 (Some "1, a") [] 
         [arrayItem 4 (Sample.leaf 5 "1" [("data-test-id", "value-number")]);
          arrayItem 6 (Sample.leaf 7 "a" [("data-test-id", "value-string")])]
         []])].

Definition arrayCell : Sample.page :=
  Sample.El 1 (Some "[1, a]") [("class", "val")] [arrayComposite]
    [(SelAttr "data-sentry-component" "CollapsibleValue", [arrayComposite])].

(** A page whose extra section has a table with the rows [retries: 3]
    and [path: [1, a]]. *)
Definition tableRow (i : nat) (key : string) (cell : Sample.page)
  : Sample.page :=
  Sample.El i None [] []
    [(SelAnd (SelTag "td") (SelClass "key"),
      [Sample.leaf (i + 1) key [("class", "key")]]);
     (SelAnd (SelTag "td") (SelClass "val"), [cell])].

Definition extraPage : Sample.page :=
  Sample.El 0 None [] []
    [(SelOr (SelAnd (SelTag "section") (SelId "extra"))
            (SelAttr "data-test-id" "extra"),
      [Sample.El 10 None [] []
         [(SelOr (SelAnd (SelTag "table") (SelClass "key-value"))
                 (SelAttr "data-sentry-component" "KeyValueList"),
           [Sample.El 11 None [] []
              [(SelTag "tr",
                [tableRow 20 "retries" (Sample.numberCell "3");
                 tableRow 30 "path" arrayCell])]])]])].

(** Other extractors that find nothing, with the additional data read
    from the page. *)
Definition withAdditionalData (fuel : nat) : PageExtractors (D := Sample.dom) :=
  {| locationHref := fun _ => "https://x";
     extractProjectName := fun _ => "Unknown Project";
     extractIssueId := fun _ => "Unknown";
     extractShortId := fun _ => None;
     extractIssueTitle := fun _ => "Unknown Issue";
     extractErrorMessage := fun _ => None;
     extractEventCount := fun _ => "0";
     extractUserCount := fun _ => "0";
     extractPriority := fun _ => None;
     extractStatus := fun _ => None;
     extractTimestamps := fun _ => None;
     extractUserInfo := fun _ => None;
     extractStackTrace := fun _ => None;
     extractBreadcrumbs := fun _ => None;
     extractHttpRequest := fun _ => None;
     extractContexts := fun _ => None;
     extractAdditionalData :=
       fun document =>
         match AdditionalData.extractAdditionalData fuel document with
         | Some data => data
         | None => None
         end |}.

(** A page without tags section whose highlight rows show [os] twice. *)
Definition highlightsOnly : Sample.page :=
  Sample.El 0 None [] []
    [(SelAttr "data-test-id" "highlight-tag-row",
      [Sample.row 10 "os" "linux"; Sample.row 20 "os" "mac"])].

(** A page whose header shows a method and a path, and whose tags hold
    a transaction and a url. *)
Definition routed (spans : list Sample.page) : Sample.page :=
  Sample.El 0 None [] []
    [(SelAttr "data-sentry-element" "HeaderGrid",
      [Sample.El 1 None [] spans [(SelTag "span", spans)]]);
     (SelOr (SelAnd (SelTag "section") (SelId "tags"))
            (SelAttr "data-test-id" "tags"),
      [Sample.El 2 None [("data-test-id", "tags")] []
         [(SelAttr "data-test-id" "tag-tree-row",
           [Sample.row 10 "url" "https://x/a";
            Sample.row 20 "transaction" "/api/users";
            Sample.row 30 "environment" "prod"])]]);
     (SelOr (SelAttr "data-test-id" "environment")
            (SelClass "environment-tag"),
      [Sample.leaf 40 "staging" [("data-test-id", "environment")]])].

Definition systemFrame : StackFrame.t :=
  {| StackFrame.filename := "";
     StackFrame.lineNo := "";
     StackFrame.function := "";
     StackFrame.context := Sample.longMessage ++ Sample.longMessage
                           ++ Sample.longMessage;
     StackFrame.isSystem := true;
     StackFrame.isExpanded := false |}.

(** A stack trace with two frames and no raw text. *)
Definition twoFrames : StackTrace.t :=
  {| StackTrace.frames := Some [Sample.frame; systemFrame];
     StackTrace.raw := None;
     StackTrace.exceptionValue := Some "boom" |}.

(** A stack trace that renders to nothing. *)
Definition emptyTrace : StackTrace.t :=
  {| StackTrace.frames := None;
     StackTrace.raw := Some "";
     StackTrace.exceptionValue := None |}.

(** The minimal record with a stack trace. *)
Definition withTrace (trace : StackTrace.t) : SentryIssueData.t :=
  {| SentryIssueData.url := "https://x";
     SentryIssueData.projectName := "web";
     SentryIssueData.issueId := "1";
     SentryIssueData.shortId := None;
     SentryIssueData.title := "X";
     SentryIssueData.errorMessage := None;
     SentryIssueData.route := None;
     SentryIssueData.eventCount := "1";
     SentryIssueData.userCount := "0";
     SentryIssueData.environment := None;
     SentryIssueData.release := None;
     SentryIssueData.priority := None;
     SentryIssueData.status := None;
     SentryIssueData.level := None;
     SentryIssueData.timestamps := None;
     SentryIssueData.userInfo := None;
     SentryIssueData.stackTrace := Some trace;
     SentryIssueData.breadcrumbs := None;
     SentryIssueData.httpRequest := None;
     SentryIssueData.tags := None;
     SentryIssueData.contexts := None;
     SentryIssueData.additionalData := None |}.

(** Options that hold [includeTags: undefined] and
    [includeBreadcrumbs: false]. *)
Definition quietOptions : FormatOptions.t :=
  {| FormatOptions.includeBreadcrumbs := Some (Some false);
     FormatOptions.includeContexts := Some (Some false);
     FormatOptions.includeTags := Some None |}.

(** A breadcrumb item showing a level, a message and an HTTP content. *)
Definition crumbItem (i : nat) (level message : string) : Sample.page :=
  Sample.El i (Some (level ++ message))
    [("data-sentry-component", "Item")] []
    [(SelOr (SelAttr "data-sentry-element" "BreadcrumbLevel")
            (SelAttr "data-test-id" "breadcrumb-level"),
      [Sample.leaf (i + 1) level
         [("data-sentry-element", "BreadcrumbLevel")]]);
     (SelOr (SelAttr "data-sentry-element" "BreadcrumbText")
            (SelAttr "data-test-id" "breadcrumb-message"),
      [Sample.leaf (i + 2) message
         [("data-sentry-element", "BreadcrumbText")]]);
     (SelAttr "data-sentry-component" "HTTPCrumbContent",
      [Sample.leaf (i + 3) "GET" []]);
     (SelTag "time",
      [Sample.leaf (i + 4) " 12:00 " [("datetime", "2026-01-02T12:00:00Z")]])].

(** An item that shows nothing. *)
Definition blankItem (i : nat) : Sample.page :=
  Sample.El i (Some "") [("data-sentry-component", "Item")] [] [].

(** A page whose breadcrumbs section has the text [text] and the items
    [items]. *)
Definition crumbsPage (text : string) (items : list Sample.page)
  : Sample.page :=
  Sample.El 0 None [] []
    [(SelOr (SelAnd (SelTag "section") (SelId "breadcrumbs"))
            (SelAttr "data-test-id" "breadcrumbs"),
      [Sample.El 1 (Some text) [("data-test-id", "breadcrumbs")] items
         [(SelOr (SelAttr "data-sentry-component" "Item")
                 (SelAttr "data-sentry-element" "BreadcrumbItem"),
           items)]])].

(** One structured breadcrumb between two blank items. *)
Definition oneCrumbPage : Sample.page :=
  crumbsPage "info GET /a"
    [blankItem 10; crumbItem 20 "info" "GET /a"; blankItem 30].

(** The breadcrumb that page gives. *)
Definition readCrumb : Breadcrumb.t :=
  {| Breadcrumb.category := Some "http";
     Breadcrumb.type := Some "info";
     Breadcrumb.message := Some "GET /a";
     Breadcrumb.timestamp := Some "2026-01-02T12:00:00Z";
     Breadcrumb.level := Some "info";
     Breadcrumb.raw := None |}.


(** A frame element of class [frame system-frame] that shows a file name
    and two context lines. *)
Definition frameEl (i : nat) (filename : string) : Sample.page :=
  Sample.El i (Some filename) [("class", "frame system-frame")] []
    [(SelOr (SelAttr "data-test-id" "filename")
        (SelOr (SelAnd (SelTag "code") (SelClass "filename"))
               (SelAttr "data-sentry-element" "Filename")),
      [Sample.leaf (i + 1) (" " ++ filename ++ " ")
         [("data-test-id", "filename")]]);
     (SelOr (SelAttr "data-test-id" "frame-context")
            (SelAttr "data-sentry-element" "Context"),
      [Sample.El (i + 2) None [("data-test-id", "frame-context")] []
         [(SelOr (SelAttr "data-test-id" "context-line")
                 (SelAttr "data-sentry-element" "ContextLine"),
           [Sample.leaf (i + 3) "let a = 1;" [];
            Sample.leaf (i + 4) "f(a);" []])]])].

(** A frame element that names neither a file nor a function. *)
Definition blankFrameEl (i : nat) : Sample.page :=
  Sample.El i (Some "") [("class", "frame")] [] [].

(** A page whose exception section has the frame elements [frames], and
    which shows the stack content [content] if there is one. *)
Definition tracePage (frames : list Sample.page)
  (content : option string) : Sample.page :=
  Sample.El 0 None [] []
    ([(SelOr (SelAnd (SelTag "section") (SelId "exception"))
             (SelAttr "data-test-id" "exception"),
       [Sample.El 1 None [("data-test-id", "exception")] frames
          [(SelOr (SelAnd (SelAttr "data-test-id" "line") (SelClass "frame"))
              (SelOr (SelAnd (SelTag "li") (SelClass "frame"))
                     (SelAttr "data-sentry-component" "Frame")),
            frames);
           (SelDescendant (SelAttr "data-test-id" "exception-value")
                          (SelTag "h5"),
            [Sample.leaf 2 "boom" []])]])]
     ++ match content with
        | Some text =>
            [(SelOr (SelAttr "data-test-id" "stack-trace-content")
                    (SelAttr "data-sentry-element" "StackTrace"),
              [Sample.leaf 3 text
                 [("data-test-id", "stack-trace-content")]])]
        | None => []
        end)%list.

(** One frame after a blank one. *)
Definition framesPage : Sample.page :=
  tracePage [blankFrameEl 10; frameEl 20 "app.js"] (Some "raw text").

(** The stack trace that page gives. *)
Definition readTrace : StackTrace.t :=
  {| StackTrace.frames :=
       Some [{| StackFrame.filename := "app.js";
                StackFrame.lineNo := "";
                StackFrame.function := "";
                StackFrame.context := "let a = 1;" ++ Js.LF ++ "f(a);";
                StackFrame.isSystem := true;
                StackFrame.isExpanded := false |}];
     StackTrace.raw := None;
     StackTrace.exceptionValue := Some "boom" |}.

(** A page whose header shows the texts [texts] in spans. *)
Definition statusPage (texts : list string) : Sample.page :=
  Sample.El 0 None [] []
    [(SelDescendant (SelAttr "data-sentry-element" "HeaderGrid")
                    (SelTag "span"),
      map (fun t => Sample.leaf 5 t []) texts)].

(** A stats item showing a label and a value. *)
Definition statsItem (i : nat) (label value : string) : Sample.page :=
  Sample.El i (Some (label ++ value)) [("class", "stats-item")] []
    [(SelOr (SelClass "label") (SelTag "dt"),
      [Sample.leaf (i + 1) label [("class", "label")]]);
     (SelOr (SelClass "value") (SelOr (SelTag "dd") (SelTag "time")),
      [Sample.leaf (i + 2) value [("class", "value")]])].

(** A page with a blank first-seen element and two stats items. *)
Definition statsPage : Sample.page :=
  Sample.El 0 None [] []
    [(SelOr (SelAttr "data-test-id" "first-seen") (SelClass "first-seen"),
      [Sample.leaf 1 "  " [("class", "first-seen")]]);
     (SelOr (SelAttr "data-test-id" "stats-item") (SelClass "stats-item"),
      [statsItem 10 "Events" "12"; statsItem 20 "LAST SEEN" "2 days ago"])].

(** A page on which no extractor finds anything. *)
Definition blankPage : Sample.page := Sample.El 0 None [] [] [].

(** A page whose tags section has a row keyed [__proto__] and a row
    keyed [level], and which shows a highlight row keyed [__proto__]. *)
Definition protoPage : Sample.page :=
  Sample.tagsPage
    [Sample.row 10 "__proto__" "x"; Sample.row 20 "level" "error"]
    [Sample.row 30 "__proto__" "y"].

(** The minimal record with tags. *)
Definition tagged (tags : Obj string) : SentryIssueData.t :=
  {| SentryIssueData.url := "https://x";
     SentryIssueData.projectName := "web";
     SentryIssueData.issueId := "1";
     SentryIssueData.shortId := None;
     SentryIssueData.title := "X";
     SentryIssueData.errorMessage := None;
     SentryIssueData.route := None;
     SentryIssueData.eventCount := "1";
     SentryIssueData.userCount := "0";
     SentryIssueData.environment := None;
     SentryIssueData.release := None;
     SentryIssueData.priority := None;
     SentryIssueData.status := None;
     SentryIssueData.level := None;
     SentryIssueData.timestamps := None;
     SentryIssueData.userInfo := None;
     SentryIssueData.stackTrace := None;
     SentryIssueData.breadcrumbs := None;
     SentryIssueData.httpRequest := None;
     SentryIssueData.tags := Some tags;
     SentryIssueData.contexts := None;
     SentryIssueData.additionalData := None |}.

(** Additional data with a BigInt inside an array. *)
Definition nestedBigInt : Obj JsValue :=
  [("count", JNumber (Decimal false 1 0)); ("ids", JArray [JBigInt 7])].

End Pages.

(* ================================================================= *)
(** * Properties *)

(** ** Strings and loops *)

Lemma append_assoc (a b c : string) : (a ++ b) ++ c = a ++ (b ++ c).
Proof. induction a as [|x a IH]; simpl; [reflexivity | now rewrite IH]. Qed.

Lemma append_nil_r (a : string) : a ++ "" = a.
Proof. induction a as [|x a IH]; simpl; [reflexivity | now rewrite IH]. Qed.

Lemma substring0_short (n : nat) (s : string) :
  String.length s <= n -> Js.substring0 n s = s.
Proof.
  unfold Js.substring0. revert n.
  induction s as [|x s IH]; intros [|n] H; simpl in *; try reflexivity; try lia.
  now rewrite IH by lia.
Qed.

Lemma substring0_long (n : nat) (s : string) :
  n <= String.length s ->
  String.length (Js.substring0 n s) = n
  /\ exists cut, s = Js.substring0 n s ++ cut.
Proof.
  unfold Js.substring0. revert n.
  induction s as [|x s IH]; intros [|n] H; simpl in *.
  - split; [reflexivity | now exists ""].
  - lia.
  - split; [reflexivity | now exists (String x s)].
  - destruct (IH n) as [Hlen [cut Hcut]]; [lia|].
    split; [now rewrite Hlen | exists cut; now rewrite <- Hcut].
Qed.

(** Appends are put in right-nested form. *)
Ltac normalize_append :=
  repeat first [rewrite append_assoc | progress simpl].

(** A loop that only appends to its accumulator. *)
Lemma fold_left_appends {A} (f : string -> A -> string) (g : A -> string)
  (l : list A) (acc : string) :
  (forall out x, f out x = out ++ g x) ->
  fold_left f l acc = acc ++ joinAll (map g l).
Proof.
  intros Hf. revert acc.
  induction l as [|x l IH]; intros acc; simpl.
  - now rewrite append_nil_r.
  - now rewrite IH, Hf, append_assoc.
Qed.

Lemma joinAll_app (l1 l2 : list string) :
  joinAll (l1 ++ l2) = joinAll l1 ++ joinAll l2.
Proof.
  induction l1 as [|x l1 IH]; simpl; [reflexivity|].
  now rewrite IH, append_assoc.
Qed.

(** ** The formatter: stack traces and breadcrumbs *)

Lemma formatBreadcrumb_appends (output : string) (bc : Breadcrumb.t) :
  formatBreadcrumb output bc = output ++ breadcrumbLine bc.
Proof. reflexivity. Qed.

Lemma formatBreadcrumbs_bullets (breadcrumbs : list Breadcrumb.t) :
  rawFallback breadcrumbs = false ->
  formatBreadcrumbs (Some breadcrumbs)
  = joinAll (map breadcrumbLine (sliceLast 15 breadcrumbs)).
Proof.
  intros Hraw. unfold formatBreadcrumbs.
  destruct breadcrumbs as [|first rest]; [reflexivity|].
  destruct rest as [|second rest].
  - simpl in Hraw. simpl Nat.eqb. rewrite Hraw. simpl andb. cbv iota.
    now rewrite (fold_left_appends _ breadcrumbLine)
      by apply formatBreadcrumb_appends.
  - replace (List.length (first :: second :: rest) =? 1)%nat with false
      by reflexivity.
    simpl andb. cbv iota.
    now rewrite (fold_left_appends _ breadcrumbLine)
      by apply formatBreadcrumb_appends.
Qed.

Lemma breadcrumbLine_shape (bc : Breadcrumb.t) :
  breadcrumbLine bc
  = breadcrumbLead bc
    ++ match Breadcrumb.message bc with
       | Some m => Js.substring0 100 m
       | None => ""
       end
    ++ Js.LF.
Proof.
  unfold breadcrumbLine, formatBreadcrumb, breadcrumbLead. cbv zeta.
  generalize (Js.optOrElse (Breadcrumb.timestamp bc) "").
  generalize (Js.optOrElse (Breadcrumb.category bc) "").
  generalize (Js.optOrElse (Breadcrumb.type bc)
                (Js.optOrElse (Breadcrumb.level bc) "")).
  intros level category time.
  assert (Hmsg : match Breadcrumb.message bc with
                 | Some m => if Js.truthy m then Js.substring0 100 m else ""
                 | None => ""
                 end
                 = match Breadcrumb.message bc with
                   | Some m => Js.substring0 100 m
                   | None => ""
                   end).
  { destruct (Breadcrumb.message bc) as [[|c m]|]; reflexivity. }
  rewrite Hmsg.
  destruct (Js.truthy time), (Js.truthy category), (Js.truthy level);
    normalize_append; reflexivity.
Qed.

Lemma formatBreadcrumbs_crumbs (breadcrumbs : list Breadcrumb.t) :
  rawFallback breadcrumbs = false ->
  formatBreadcrumbs (Some breadcrumbs)
  = joinAll (map crumbBullet (sliceLast 15 breadcrumbs)).
Proof.
  intros Hraw. rewrite (formatBreadcrumbs_bullets _ Hraw). f_equal.
  apply map_ext. intros bc. apply breadcrumbLine_shape.
Qed.

(** C2. A stack trace whose [raw] text is not empty is rendered as the
    optional exception line followed by one fenced block that holds the
    raw text; its [frames] play no part in the output, so the numbered
    frame lines never appear. *)
Theorem stack_trace_raw_excludes_frames :
  forall (stackTrace : StackTrace.t) (raw : string),
    StackTrace.raw stackTrace = Some raw ->
    raw <> "" ->
    formatStackTrace (Some stackTrace)
    = exceptionLine stackTrace ++ fence ++ Js.LF ++ raw ++ Js.LF ++ fence
    /\ forall frames,
         formatStackTrace
           (Some {| StackTrace.frames := frames;
                    StackTrace.raw := Some raw;
                    StackTrace.exceptionValue :=
                      StackTrace.exceptionValue stackTrace |})
         = formatStackTrace (Some stackTrace).
Proof.
  intros [frames0 raw0 exc] raw Hraw Hne. simpl in Hraw. subst raw0.
  assert (Htruthy : Js.truthy raw = true)
    by (destruct raw; [now elim Hne | reflexivity]).
  assert (Hshape : forall frames,
    formatStackTrace
      (Some {| StackTrace.frames := frames; StackTrace.raw := Some raw;
               StackTrace.exceptionValue := exc |})
    = exceptionLine
        {| StackTrace.frames := frames0; StackTrace.raw := Some raw;
           StackTrace.exceptionValue := exc |}
      ++ fence ++ Js.LF ++ raw ++ Js.LF ++ fence).
  { intros frames. unfold formatStackTrace, exceptionLine. simpl.
    rewrite Htruthy.
    destruct exc as [v|]; simpl; [|reflexivity].
    destruct (Js.truthy v); simpl; [|reflexivity].
    now repeat rewrite append_assoc. }
  split.
  - apply Hshape.
  - intros frames. simpl StackTrace.exceptionValue.
    now rewrite (Hshape frames), (Hshape frames0).
Qed.

Lemma stack_trace_raw_excludes_frames_witness :
  formatStackTrace (Some Sample.rawAndFrames)
  = exceptionLine Sample.rawAndFrames ++ fence ++ Js.LF
    ++ "Error: boom at app.js:10" ++ Js.LF ++ fence.
Proof.
  apply (stack_trace_raw_excludes_frames Sample.rawAndFrames
           "Error: boom at app.js:10").
  - reflexivity.
  - discriminate.
Defined.

(** C4. A breadcrumb list of more than fifteen entries is rendered as the
    bullets of its last fifteen entries, in the order of the list; the
    bullet of an entry is its time, category and level followed by the
    first 100 units of its message and a line feed. *)
Theorem breadcrumbs_render_last_fifteen :
  forall breadcrumbs : list Breadcrumb.t,
    15 < List.length breadcrumbs ->
    exists older recent,
      breadcrumbs = (older ++ recent)%list
      /\ List.length recent = 15
      /\ formatBreadcrumbs (Some breadcrumbs)
         = joinAll (map crumbBullet recent).
Proof.
  intros breadcrumbs Hlen.
  exists (firstn (List.length breadcrumbs - 15) breadcrumbs),
         (skipn (List.length breadcrumbs - 15) breadcrumbs).
  split; [symmetry; apply firstn_skipn|].
  split; [rewrite length_skipn; lia|].
  apply formatBreadcrumbs_crumbs.
  destruct breadcrumbs as [|a [|b l]]; simpl in *; try reflexivity; lia.
Qed.

Lemma breadcrumbs_render_last_fifteen_witness :
  exists older recent,
    Sample.sixteenCrumbs = (older ++ recent)%list
    /\ List.length recent = 15
    /\ formatBreadcrumbs (Some Sample.sixteenCrumbs)
       = joinAll (map crumbBullet recent).
Proof.
  apply (breadcrumbs_render_last_fifteen Sample.sixteenCrumbs).
  vm_compute. lia.
Defined.

(** C10. In the bullet list every rendered breadcrumb has one line, made
    of the time, category and level followed by its message cut to 100
    characters: a message of at most 100 characters is shown whole, and of
    a longer one exactly the first 100 characters are shown. *)
Theorem breadcrumb_message_truncated :
  forall (breadcrumbs : list Breadcrumb.t) (bc : Breadcrumb.t) (m : string),
    rawFallback breadcrumbs = false ->
    In bc (sliceLast 15 breadcrumbs) ->
    Breadcrumb.message bc = Some m ->
    exists before after shown,
      formatBreadcrumbs (Some breadcrumbs)
      = before ++ (breadcrumbLead bc ++ shown ++ Js.LF) ++ after
      /\ breadcrumbLine bc = breadcrumbLead bc ++ shown ++ Js.LF
      /\ (String.length m <= 100 -> shown = m)
      /\ (100 < String.length m ->
          String.length shown = 100 /\ exists cut, m = shown ++ cut).
Proof.
  intros breadcrumbs bc m Hraw Hin Hm.
  rewrite (formatBreadcrumbs_bullets _ Hraw).
  apply in_split in Hin. destruct Hin as [l1 [l2 Hsplit]].
  exists (joinAll (map breadcrumbLine l1)),
         (joinAll (map breadcrumbLine l2)),
         (Js.substring0 100 m).
  assert (Hline : breadcrumbLine bc
                  = breadcrumbLead bc ++ Js.substring0 100 m ++ Js.LF)
    by (rewrite breadcrumbLine_shape, Hm; reflexivity).
  split; [|split; [exact Hline|split]].
  - rewrite Hsplit, map_app, joinAll_app. cbn [map joinAll].
    now rewrite Hline.
  - intros Hle. now apply substring0_short.
  - intros Hlt. apply substring0_long. lia.
Qed.

Lemma breadcrumb_message_truncated_witness :
  exists before after shown,
    formatBreadcrumbs (Some [Sample.crumb Sample.longMessage])
    = before ++ (breadcrumbLead (Sample.crumb Sample.longMessage)
                 ++ shown ++ Js.LF) ++ after
    /\ breadcrumbLine (Sample.crumb Sample.longMessage)
       = breadcrumbLead (Sample.crumb Sample.longMessage) ++ shown ++ Js.LF
    /\ (String.length Sample.longMessage <= 100 -> shown = Sample.longMessage)
    /\ (100 < String.length Sample.longMessage ->
        String.length shown = 100
        /\ exists cut, Sample.longMessage = shown ++ cut).
Proof.
  apply (breadcrumb_message_truncated
           [Sample.crumb Sample.longMessage]
           (Sample.crumb Sample.longMessage) Sample.longMessage).
  - reflexivity.
  - simpl. left. reflexivity.
  - reflexivity.
Defined.

(** ** Plain objects *)

Section ObjectFacts.
Context {T : Type}.

Lemma insertIndexed_perm (x : N * (string * T)) (l : list (N * (string * T))) :
  Permutation (Object.insertIndexed x l) (x :: l).
Proof.
  induction l as [|y l IH]; simpl; [reflexivity|].
  destruct (fst x <=? fst y)%N; [reflexivity|].
  rewrite IH. apply perm_swap.
Qed.

Lemma entries_perm (o : Obj T) : Permutation (Object.entries o) o.
Proof.
  unfold Object.entries.
  induction o as [|[k v] o IH]; simpl; [reflexivity|].
  destruct (Object.arrayIndex k) as [n|].
  - rewrite (Permutation_map snd (insertIndexed_perm (n, (k, v)) _)).
    simpl. now apply perm_skip.
  - rewrite <- Permutation_middle. now apply perm_skip.
Qed.

Lemma entries_In (x : string * T) (o : Obj T) :
  In x (Object.entries o) <-> In x o.
Proof.
  split; apply Permutation_in;
    [apply entries_perm | symmetry; apply entries_perm].
Qed.

Lemma isEmpty_nil (o : Obj T) : Object.isEmpty o = true <-> o = [].
Proof.
  unfold Object.isEmpty, Object.keys.
  pose proof (Permutation_length (entries_perm o)) as Hlen.
  destruct (Object.entries o) as [|e es], o as [|x o];
    simpl in *; try discriminate; split; intros H;
    try reflexivity; discriminate.
Qed.

Lemma isEmpty_In (x : string * T) (o : Obj T) :
  In x o -> Object.isEmpty o = false.
Proof.
  intros Hin. destruct (Object.isEmpty o) eqn:E; [|reflexivity].
  apply isEmpty_nil in E. subst o. destruct Hin.
Qed.

Lemma get_In (o : Obj T) (k : string) (v : T) :
  Object.get o k = Some v -> In (k, v) o.
Proof.
  induction o as [|[k' v'] o IH]; simpl; [discriminate|].
  destruct (String.eqb_spec k' k) as [->|Hne].
  - intros [= ->]. now left.
  - intros H. right. now apply IH.
Qed.

Lemma get_set_same (o : Obj T) (k : string) (v : T) :
  Object.get (Object.set o k v) k = Some v.
Proof.
  induction o as [|[k' v'] o IH]; simpl.
  - now rewrite String.eqb_refl.
  - destruct (String.eqb_spec k' k) as [->|Hne]; simpl.
    + now rewrite String.eqb_refl.
    + destruct (String.eqb_spec k' k); [contradiction | exact IH].
Qed.

Lemma get_set_other (o : Obj T) (k k' : string) (v : T) :
  k <> k' -> Object.get (Object.set o k v) k' = Object.get o k'.
Proof.
  intros Hne.
  induction o as [|[k0 v0] o IH]; simpl.
  - destruct (String.eqb_spec k k'); [contradiction | reflexivity].
  - destruct (String.eqb_spec k0 k) as [->|Hk]; simpl.
    + destruct (String.eqb_spec k k'); [contradiction | reflexivity].
    + destruct (String.eqb_spec k0 k'); [reflexivity | exact IH].
Qed.

Lemma set_set_same (o : Obj T) (k : string) (a b : T) :
  Object.set (Object.set o k a) k b = Object.set o k b.
Proof.
  induction o as [|[k0 v0] o IH]; simpl.
  - now rewrite String.eqb_refl.
  - destruct (String.eqb_spec k0 k) as [->|Hne]; simpl.
    + now rewrite String.eqb_refl.
    + destruct (String.eqb_spec k0 k); [contradiction|].
      now rewrite IH.
Qed.

(** The keys of an object after an assignment. *)
Lemma set_keys (o : Obj T) (k k' : string) (v : T) :
  In k' (map fst (Object.set o k v)) <-> k' = k \/ In k' (map fst o).
Proof.
  induction o as [|[k0 v0] o IH]; simpl.
  - intuition.
  - destruct (String.eqb_spec k0 k) as [->|Hk]; simpl.
    + intuition.
    + rewrite IH. intuition.
Qed.

Lemma In_set (o : Obj T) (k : string) (v : T) (x : string * T) :
  In x (Object.set o k v) -> x = (k, v) \/ In x o.
Proof.
  induction o as [|[k0 v0] o IH]; simpl.
  - intros [<-|[]]. now left.
  - destruct (String.eqb_spec k0 k) as [->|Hne]; simpl.
    + intros [<-|Hin]; [now left | right; now right].
    + intros [<-|Hin]; [right; now left|].
      destruct (IH Hin) as [->|Hin']; [now left | right; now right].
Qed.

Lemma set_NoDup (o : Obj T) (k : string) (v : T) :
  NoDup (map fst o) -> NoDup (map fst (Object.set o k v)).
Proof.
  induction o as [|[k0 v0] o IH]; simpl; intros Hnodup.
  - constructor; [easy | constructor].
  - destruct (String.eqb_spec k0 k) as [->|Hne]; simpl; [exact Hnodup|].
    apply NoDup_cons_iff in Hnodup. destruct Hnodup as [Hfresh Hnodup].
    constructor; [|now apply IH].
    intros Hin. apply set_keys in Hin. destruct Hin as [->|Hin]; auto.
Qed.

Lemma In_get (o : Obj T) (k : string) (v : T) :
  NoDup (map fst o) -> In (k, v) o -> Object.get o k = Some v.
Proof.
  induction o as [|[k0 v0] o IH]; simpl; intros Hnodup Hin; [destruct Hin|].
  apply NoDup_cons_iff in Hnodup. destruct Hnodup as [Hfresh Hnodup].
  destruct Hin as [[= -> ->]|Hin].
  - now rewrite String.eqb_refl.
  - destruct (String.eqb_spec k0 k) as [->|Hne]; [|now apply IH].
    elim Hfresh. apply in_map_iff. now exists (k, v).
Qed.

Lemma get_None_iff (o : Obj T) (k : string) :
  Object.get o k = None <-> ~ In k (map fst o).
Proof.
  induction o as [|[k0 v0] o IH]; simpl.
  - split; [intros _ [] | reflexivity].
  - destruct (String.eqb_spec k0 k) as [->|Hne].
    + split; [discriminate | intros H; elim H; now left].
    + rewrite IH. split.
      * intros H [Hk|Hin]; [contradiction | now apply H].
      * intros H Hin. apply H. now right.
Qed.

(** With distinct keys, the entries after [o[k] = v] on own properties
    are [(k, v)] and the entries of [o] under other keys. *)
Lemma In_set_iff (o : Obj T) (k : string) (v : T) (x : string * T) :
  NoDup (map fst o) ->
  In x (Object.set o k v) <-> x = (k, v) \/ (fst x <> k /\ In x o).
Proof.
  intros Hnodup. destruct x as [k' v']. cbn [fst]. split.
  - intros Hin.
    destruct (String.eqb_spec k' k) as [->|Hne].
    + left. apply In_get in Hin; [|now apply set_NoDup].
      rewrite get_set_same in Hin. now injection Hin as <-.
    + right. split; [exact Hne|].
      apply In_set in Hin. destruct Hin as [[= -> ->]|Hin];
        [now elim Hne | exact Hin].
  - intros [[= -> ->]|[Hne Hin]].
    + apply get_In. apply get_set_same.
    + apply get_In. rewrite get_set_other by (intros ->; now apply Hne).
      now apply In_get.
Qed.

(** An assignment is the assignment on own properties, except that of
    [__proto__] where there is no such own property, which does
    nothing. *)
Lemma store_cases (o : Obj T) (k : string) (v : T) :
  (Object.store o k v = Object.set o k v
   /\ (k <> Object.proto \/ In k (map fst o)))
  \/ (Object.store o k v = o
      /\ k = Object.proto /\ ~ In k (map fst o)).
Proof.
  unfold Object.store.
  destruct (Object.get o k) as [w|] eqn:Hget.
  - left. split; [reflexivity|]. right.
    apply get_In in Hget. apply in_map_iff. now exists (k, w).
  - destruct (String.eqb_spec k Object.proto) as [->|Hne].
    + right. split; [reflexivity|]. split; [reflexivity|].
      now apply get_None_iff.
    + left. split; [reflexivity | now left].
Qed.

Lemma store_ordinary (o : Obj T) (k : string) (v : T) :
  k <> Object.proto -> Object.store o k v = Object.set o k v.
Proof.
  intros Hne. destruct (store_cases o k v) as [[H _]|[_ [H _]]];
    [exact H | contradiction].
Qed.

Lemma store_NoDup (o : Obj T) (k : string) (v : T) :
  NoDup (map fst o) -> NoDup (map fst (Object.store o k v)).
Proof.
  intros Hnodup. destruct (store_cases o k v) as [[-> _]|[-> _]];
    [now apply set_NoDup | exact Hnodup].
Qed.

Lemma In_store (o : Obj T) (k : string) (v : T) (x : string * T) :
  In x (Object.store o k v) -> x = (k, v) \/ In x o.
Proof.
  destruct (store_cases o k v) as [[-> _]|[-> _]];
    [apply In_set | now right].
Qed.

Lemma lookup_Own (o : Obj T) (k : string) (v : T) :
  Object.lookup o k = Object.Own v <-> Object.get o k = Some v.
Proof.
  unfold Object.lookup. destruct (Object.get o k) as [w|].
  - split; now intros [= ->].
  - destruct (Object.inherited k); split; discriminate.
Qed.

Lemma lookup_get (o : Obj T) (k : string) (v : T) :
  Object.get o k = Some v -> Object.lookup o k = Object.Own v.
Proof. apply lookup_Own. Qed.

Lemma lookup_Missing (o : Obj T) (k : string) :
  Object.get o k = None -> Object.inherited k = false ->
  Object.lookup o k = Object.Missing.
Proof. intros Hget Hk. unfold Object.lookup. now rewrite Hget, Hk. Qed.

End ObjectFacts.

(** ** Calls that return *)

Lemma sequence_normal {A} (l : list (Completion A)) :
  Forall (fun c => exists a, c = Normal a) l ->
  exists r, JSON.sequence l = Normal r.
Proof.
  induction 1 as [|c l [a ->] _ [r IH]]; simpl.
  - now exists [].
  - rewrite IH. simpl. now exists (a :: r).
Qed.

Lemma JsValue_nested_ind (P : JsValue -> Prop) :
  P JUndefined -> P JNull -> (forall b, P (JBoolean b)) ->
  (forall n, P (JNumber n)) -> (forall s, P (JString s)) ->
  (forall z, P (JBigInt z)) ->
  (forall items, Forall P items -> P (JArray items)) ->
  (forall props, Forall (fun kv => P (snd kv)) props -> P (JObject props)) ->
  forall v, P v.
Proof.
  intros HU HN HB HNum HS HBig HA HO.
  fix IH 1. intros [| |b|n|s|z|items|props].
  - exact HU.
  - exact HN.
  - apply HB.
  - apply HNum.
  - apply HS.
  - apply HBig.
  - apply HA. induction items as [|x items IHitems];
      constructor; [apply IH | exact IHitems].
  - apply HO. induction props as [|[k x] props IHprops];
      constructor; [apply IH | exact IHprops].
Qed.

Section Returns.
Context {NF : NumberFormat}.

(** [JSON.stringify] throws on no value of the data model. *)
Lemma serialize_normal (gap : string) (v : JsValue) :
  jsonLike v = true ->
  forall indent, exists r, JSON.serialize gap indent v = Normal r.
Proof.
  induction v as [| | | | | |items IH|props IH] using JsValue_nested_ind;
    intros Hjson indent; simpl; try (eexists; reflexivity).
  - discriminate.
  - destruct (sequence_normal
                (map (JSON.serialize gap (indent ++ gap)) items)) as [r Hr].
    { simpl in Hjson. rewrite forallb_forall in Hjson.
      rewrite Forall_forall in *. intros c Hc.
      apply in_map_iff in Hc. destruct Hc as [x [<- Hx]].
      apply IH; auto. }
    rewrite Hr. simpl. eexists; reflexivity.
  - unfold JSON.sequenceProps.
    match goal with
    | |- context [JSON.sequence ?l] =>
        destruct (sequence_normal l) as [r Hr]
    end.
    { simpl in Hjson. rewrite forallb_forall in Hjson.
      rewrite Forall_forall in *. intros c Hc.
      apply in_map_iff in Hc. destruct Hc as [[k c'] [<- Hc]].
      apply (proj1 (entries_In _ _)) in Hc. apply in_map_iff in Hc.
      destruct Hc as [[k' x] [E Hx]]. simpl in E. injection E as <- <-.
      destruct (IH (k', x) Hx (Hjson (k', x) Hx) (indent ++ gap)) as [a Ha].
      simpl in *. rewrite Ha. simpl. eexists; reflexivity. }
    rewrite Hr. simpl. eexists; reflexivity.
Qed.

Lemma fold_left_normal {A B} (f : Completion B -> A -> Completion B)
  (l : list A) :
  (forall x b, In x l -> exists b', f (Normal b) x = Normal b') ->
  forall b, exists b', fold_left f l (Normal b) = Normal b'.
Proof.
  induction l as [|x l IH]; intros Hf b; simpl.
  - now exists b.
  - destruct (Hf x b (or_introl eq_refl)) as [b' ->].
    apply IH. intros y c Hy. apply Hf. now right.
Qed.

(** A list of strings always formats. *)
Lemma formatAsList_strings (o : option (Obj string)) :
  exists text, formatAsList (option_map asUnknown o) = Normal text.
Proof.
  destruct o as [o|]; simpl; [|now exists ""].
  destruct (Object.isEmpty (asUnknown o)); [now exists ""|].
  apply fold_left_normal. intros [k v] b Hin.
  apply (proj1 (entries_In _ _)) in Hin. unfold asUnknown in Hin.
  apply in_map_iff in Hin. destruct Hin as [[k' s] [[= <- <-] _]].
  simpl. eexists; reflexivity.
Qed.

Lemma formatContexts_normal (contexts : option (Obj (Obj string))) :
  exists text, formatContexts contexts = Normal text.
Proof.
  destruct contexts as [o|]; simpl; [|now exists ""].
  destruct (Object.isEmpty o); [now exists ""|].
  apply fold_left_normal. intros [name data] b _. simpl.
  destruct (Object.isEmpty data); simpl; [eexists; reflexivity|].
  destruct (formatAsList_strings (Some data)) as [text Htext].
  simpl in Htext. rewrite Htext. simpl. eexists; reflexivity.
Qed.

Lemma formatAdditionalData_normal (data : option (Obj JsValue)) :
  match data with
  | Some o => forallb (fun kv => jsonLike (snd kv)) o = true
  | None => True
  end ->
  exists text, formatAdditionalData data = Normal text.
Proof.
  destruct data as [o|]; intros Hwf; simpl; [|now exists ""].
  destruct (Object.isEmpty o); [now exists ""|].
  unfold JSON.stringifyPretty.
  destruct (serialize_normal "  " (JObject o) Hwf "") as [r Hr].
  rewrite Hr. simpl. eexists; reflexivity.
Qed.

End Returns.

(** ** Dotted keys *)

Lemma includes_append (c : ascii) (a b : string) :
  Js.includes c (a ++ b) = orb (Js.includes c a) (Js.includes c b).
Proof.
  induction a as [|x a IH]; simpl; [reflexivity|].
  destruct (Ascii.eqb x c); [reflexivity | exact IH].
Qed.

Lemma split_nonempty (c : ascii) (s : string) : Js.split c s <> [].
Proof.
  destruct s as [|a s]; simpl; [discriminate|].
  destruct (Ascii.eqb a c); [discriminate|].
  destruct (Js.split c s); discriminate.
Qed.

Lemma join_split (c : ascii) (s : string) :
  Js.join (String c "") (Js.split c s) = s.
Proof.
  induction s as [|a s IH]; [reflexivity|]. simpl.
  destruct (Ascii.eqb_spec a c) as [->|Hne].
  - destruct (Js.split c s) as [|w ws] eqn:E;
      [now elim (split_nonempty c s)|].
    change (Js.join (String c "") ("" :: w :: ws))
      with (String c (Js.join (String c "") (w :: ws))).
    now rewrite IH.
  - destruct (Js.split c s) as [|w ws] eqn:E;
      [now elim (split_nonempty c s)|].
    destruct ws as [|y ws].
    + simpl in *. now rewrite IH.
    + change (Js.join (String c "") (String a w :: y :: ws))
        with (String a (Js.join (String c "") (w :: y :: ws))).
      now rewrite IH.
Qed.

Lemma split_head_clean (c : ascii) (s p : string) (rest : list string) :
  Js.split c s = p :: rest -> Js.includes c p = false.
Proof.
  revert p rest. induction s as [|a s IH]; intros p rest; simpl.
  - now intros [= <- <-].
  - destruct (Ascii.eqb a c) eqn:Ea.
    + now intros [= <- <-].
    + destruct (Js.split c s) as [|w ws] eqn:E.
      * intros [= <- <-]. simpl. now rewrite Ea.
      * intros [= <- <-]. simpl. rewrite Ea. now apply (IH w ws).
Qed.

Lemma split_has_rest (c : ascii) (s p : string) (rest : list string) :
  Js.includes c s = true -> Js.split c s = p :: rest -> rest <> [].
Proof.
  revert p rest. induction s as [|a s IH]; intros p rest; simpl;
    [discriminate|].
  destruct (Ascii.eqb a c) eqn:Ea.
  - intros _ [= <- <-]. apply split_nonempty.
  - intros Hinc. destruct (Js.split c s) as [|w ws] eqn:E;
      [now elim (split_nonempty c s)|].
    intros [= <- <-]. now apply (IH w ws).
Qed.

(** A key with a dot is its prefix, a dot and its sub-key. *)
Lemma split_dotted (key p : string) (rest : list string) :
  Js.includes "." key = true ->
  Js.split "." key = p :: rest ->
  key = p ++ "." ++ Js.join "." rest /\ Js.includes "." p = false.
Proof.
  intros Hinc Hsplit. split; [|now apply (split_head_clean _ _ _ _ Hsplit)].
  pose proof (join_split "." key) as Hjoin. rewrite Hsplit in Hjoin.
  pose proof (split_has_rest _ _ _ _ Hinc Hsplit) as Hrest.
  destruct rest as [|y rest]; [now elim Hrest|].
  now rewrite <- Hjoin.
Qed.

Lemma split_before (c : ascii) (a b : string) :
  Js.includes c a = false ->
  Js.split c (a ++ String c b) = a :: Js.split c b.
Proof.
  induction a as [|x a IH]; simpl; intros H.
  - now rewrite Ascii.eqb_refl.
  - destruct (Ascii.eqb x c); [discriminate|].
    now rewrite (IH H).
Qed.

Lemma split_of_dotted (parent child : string) :
  Js.includes "." parent = false ->
  Js.includes "." (parent ++ "." ++ child) = true
  /\ Js.split "." (parent ++ "." ++ child) = parent :: Js.split "." child.
Proof.
  intros Hclean. split.
  - rewrite includes_append. simpl. apply Bool.orb_true_r.
  - now apply split_before.
Qed.

Lemma append_cancel_l (a b c : string) : a ++ b = a ++ c -> b = c.
Proof. induction a as [|x a IH]; simpl; [auto | intros [= H]; auto]. Qed.

(** ** Grouping tags by prefix *)

Lemma groupStep_plain (grouped : Obj (Obj string)) (standalone : Obj string)
  (methodProps : Obj (Obj string)) (key value : string) :
  Js.includes "." key = false ->
  groupStep (Normal (grouped, standalone, methodProps)) (key, value)
  = Normal (grouped, Object.store standalone key value, methodProps).
Proof. intros H. unfold groupStep. cbn [bindC]. now rewrite H. Qed.

Lemma inherited_not_proto (k : string) :
  Object.inherited k = false -> k <> Object.proto.
Proof. intros H ->. discriminate. Qed.

Lemma groupStep_dotted (grouped : Obj (Obj string)) (standalone : Obj string)
  (methodProps : Obj (Obj string)) (parent child value : string) :
  Js.includes "." parent = false ->
  Object.inherited parent = false ->
  groupStep (Normal (grouped, standalone, methodProps))
    (parent ++ "." ++ child, value)
  = Normal
      (Object.set grouped parent
         (Object.store (match Object.get grouped parent with
                        | Some g => g
                        | None => []
                        end) child value),
       standalone, methodProps).
Proof.
  intros Hclean Hord. unfold groupStep. cbn [bindC].
  destruct (split_of_dotted parent child Hclean) as [-> ->].
  rewrite join_split. cbv zeta.
  destruct (Object.get grouped parent) as [g|] eqn:E.
  - rewrite (lookup_get _ _ _ E). cbv iota.
    now rewrite (lookup_get _ _ _ E).
  - rewrite (lookup_Missing _ _ E Hord). cbv iota.
    rewrite store_ordinary by now apply inherited_not_proto.
    rewrite (lookup_get _ _ _ (get_set_same grouped parent [])).
    now rewrite set_set_same.
Qed.

(** Every key is plain or dotted. *)
Lemma key_cases (key : string) :
  Js.includes "." key = false
  \/ exists parent child,
       key = parent ++ "." ++ child /\ Js.includes "." parent = false.
Proof.
  destruct (Js.includes "." key) eqn:Hinc; [right | now left].
  destruct (Js.split "." key) as [|p rest] eqn:Hsplit;
    [now elim (split_nonempty "." key)|].
  destruct (split_dotted key p rest Hinc Hsplit) as [Hkey Hclean].
  now exists p, (Js.join "." rest).
Qed.

Lemma dotted_inj (p1 c1 p2 c2 : string) :
  Js.includes "." p1 = false -> Js.includes "." p2 = false ->
  p1 ++ "." ++ c1 = p2 ++ "." ++ c2 -> p1 = p2 /\ c1 = c2.
Proof.
  intros H1 H2 Heq.
  pose proof (proj2 (split_of_dotted p1 c1 H1)) as S1.
  pose proof (proj2 (split_of_dotted p2 c2 H2)) as S2.
  rewrite Heq, S2 in S1. injection S1 as Hp _. subst p2.
  split; [reflexivity|].
  apply append_cancel_l in Heq. now injection Heq.
Qed.

Lemma dotted_not_plain (parent child : string) :
  Js.includes "." parent = false ->
  Js.includes "." (parent ++ "." ++ child) = true.
Proof. intros H. apply (split_of_dotted parent child H). Qed.

Lemma plain_not_dotted (key parent child : string) :
  Js.includes "." key = false ->
  key = parent ++ "." ++ child ->
  Js.includes "." parent = false -> False.
Proof.
  intros Hplain -> Hp. rewrite (dotted_not_plain parent child Hp) in Hplain.
  discriminate.
Qed.

Lemma builtinPrefix_dotted (parent child : string) :
  Js.includes "." parent = false ->
  builtinPrefix (parent ++ "." ++ child) = Object.inherited parent.
Proof.
  intros H. unfold builtinPrefix.
  destruct (split_of_dotted parent child H) as [-> ->]. reflexivity.
Qed.

(** Without a built-in prefix the first loop returns. *)
Lemma groupLoop_normal (l : list (string * string)) (state : Groups) :
  ordinaryKeys l = true ->
  exists state', fold_left groupStep l (Normal state) = Normal state'.
Proof.
  revert state. induction l as [|[key value] l IH]; intros [[g s] m] Hord.
  - now exists (g, s, m).
  - simpl in Hord. apply andb_true_iff in Hord. destruct Hord as [Hk Hord].
    apply negb_true_iff in Hk. cbn [fold_left].
    destruct (key_cases key) as [Hplain|[p [c [-> Hp]]]].
    + rewrite groupStep_plain by exact Hplain. now apply IH.
    + rewrite builtinPrefix_dotted in Hk by exact Hp.
      rewrite groupStep_dotted by assumption. now apply IH.
Qed.

Lemma sorted_nil : sorted [] [] [].
Proof.
  split; [constructor|]. split; [constructor|]. split; [|split].
  - intros k v. simpl. tauto.
  - intros p. simpl. split; [intros [] | intros [_ [c [v []]]]].
  - intros p group [].
Qed.

Lemma sorted_plain_step (done : list (string * string))
  (g : Obj (Obj string)) (s : Obj string) (key value : string) :
  sorted done g s ->
  Js.includes "." key = false ->
  ~ In key (map fst done) ->
  sorted (done ++ [(key, value)]) g (Object.store s key value).
Proof.
  intros [S1 [S2 [S3 [S4 S5]]]] Hplain Hfresh.
  assert (Hkeys : forall v, ~ In (key, v) s).
  { intros v Hin. apply S3 in Hin. destruct Hin as [Hin _].
    apply Hfresh. apply in_map_iff. now exists (key, v). }
  split; [now apply store_NoDup|]. split; [exact S2|]. split; [|split].
  - intros k v.
    destruct (store_cases s key value) as [[-> Hc]|[-> [Hp _]]].
    + assert (Hcp : key <> Object.proto).
      { destruct Hc as [Hc|Hc]; [exact Hc|].
        apply in_map_iff in Hc. destruct Hc as [[k0 v0] [Heq Hin]].
        simpl in Heq. subst k0. now elim (Hkeys v0). }
      rewrite In_set_iff by exact S1. cbn [fst].
      rewrite S3, in_app_iff. simpl. split.
      * intros [[= -> ->]|[Hne [Hin [Hp Hq]]]].
        -- split; [right; now left | now split].
        -- split; [now left | now split].
      * intros [[Hin|[[= <- <-]|[]]] [Hp Hq]].
        -- right. split; [|now split].
           intros ->. apply Hfresh. apply in_map_iff. now exists (key, v).
        -- now left.
    + rewrite S3, in_app_iff. simpl. split.
      * intros [Hin [Hp' Hq]]. split; [now left | now split].
      * intros [[Hin|[[= <- <-]|[]]] [Hp' Hq]]; [now split | now elim Hq].
  - intros parent. rewrite S4. split; intros [Hp [c [v Hin]]];
      (split; [exact Hp|]); exists c, v.
    + apply in_app_iff. now left.
    + apply in_app_iff in Hin. destruct Hin as [Hin|[[= Heq _]|[]]];
        [exact Hin|].
      elim (plain_not_dotted _ _ _ Hplain Heq Hp).
  - intros parent group Hin.
    assert (Hp : Js.includes "." parent = false).
    { apply (S4 parent). apply in_map_iff. now exists (parent, group). }
    destruct (S5 parent group Hin) as [Hn Hc]. split; [exact Hn|].
    intros c v. rewrite Hc, in_app_iff. simpl. split.
    + intros [H1 H2]. split; [now left | exact H2].
    + intros [[H1|[[= Heq _]|[]]] H2]; [now split|].
      elim (plain_not_dotted _ _ _ Hplain Heq Hp).
Qed.

Lemma sorted_dotted_step (done : list (string * string))
  (g : Obj (Obj string)) (s : Obj string) (parent child value : string) :
  sorted done g s ->
  Js.includes "." parent = false ->
  ~ In (parent ++ "." ++ child) (map fst done) ->
  sorted (done ++ [(parent ++ "." ++ child, value)])
    (Object.set g parent
       (Object.store (match Object.get g parent with
                      | Some x => x
                      | None => []
                      end) child value))
    s.
Proof.
  intros [S1 [S2 [S3 [S4 S5]]]] Hplain Hfresh.
  set (sub := match Object.get g parent with Some x => x | None => [] end).
  assert (Hsub : NoDup (map fst sub)
                 /\ forall c v,
                      In (c, v) sub
                      <-> In (parent ++ "." ++ c, v) done
                          /\ c <> Object.proto).
  { unfold sub. destruct (Object.get g parent) as [x|] eqn:E.
    - apply S5. now apply get_In.
    - split; [constructor|]. intros c v. split; [intros []|].
      intros [Hin _]. exfalso. apply get_None_iff in E. apply E.
      apply S4. split; [exact Hplain|]. now exists c, v. }
  destruct Hsub as [Hsn Hsc].
  assert (Hnew : NoDup (map fst (Object.store sub child value))
                 /\ forall c v,
                      In (c, v) (Object.store sub child value)
                      <-> In (parent ++ "." ++ c, v)
                            (done ++ [(parent ++ "." ++ child, value)])
                          /\ c <> Object.proto).
  { split; [now apply store_NoDup|]. intros c v.
    assert (Hfreshc : forall v0, ~ In (child, v0) sub).
    { intros v0 Hin. apply Hsc in Hin. destruct Hin as [Hin _].
      apply Hfresh. apply in_map_iff.
      now exists (parent ++ "." ++ child, v0). }
    destruct (store_cases sub child value) as [[-> Hc]|[-> [Hp _]]].
    - assert (Hcp : child <> Object.proto).
      { destruct Hc as [Hc|Hc]; [exact Hc|].
        apply in_map_iff in Hc. destruct Hc as [[c0 v0] [Heq Hin]].
        simpl in Heq. subst c0. now elim (Hfreshc v0). }
      rewrite In_set_iff by exact Hsn. cbn [fst].
      rewrite Hsc, in_app_iff. simpl. split.
      + intros [[= -> ->]|[Hne [Hin Hq]]].
        * split; [right; now left | exact Hcp].
        * split; [now left | exact Hq].
      + intros [[Hin|[Heq|[]]] Hq].
        * right. split; [|now split].
          intros ->. apply Hfresh. apply in_map_iff.
          now exists (parent ++ "." ++ child, v).
        * left. injection Heq as H1 H2.
          apply append_cancel_l in H1. injection H1 as H1.
          now rewrite H1, H2.
    - rewrite Hsc, in_app_iff. simpl. split.
      + intros [Hin Hq]. split; [now left | exact Hq].
      + intros [[Hin|[Heq|[]]] Hq]; [now split|].
        injection Heq as H1 _. apply append_cancel_l in H1.
        injection H1 as H1. elim Hq. now rewrite <- H1. }
  split; [exact S1|]. split; [now apply set_NoDup|]. split; [|split].
  - intros k v. rewrite S3, in_app_iff. simpl. split.
    + intros [Hin [Hp Hq]]. split; [now left | now split].
    + intros [[Hin|[[= Heq _]|[]]] [Hp Hq]]; [now split|].
      elim (plain_not_dotted _ _ _ Hp (eq_sym Heq) Hplain).
  - intros p. rewrite set_keys, S4. split.
    + intros [->|[Hp [c [v Hin]]]].
      * split; [exact Hplain|]. exists child, value.
        apply in_app_iff. right. now left.
      * split; [exact Hp|]. exists c, v. apply in_app_iff. now left.
    + intros [Hp [c [v Hin]]]. apply in_app_iff in Hin.
      destruct Hin as [Hin|[Heq|[]]].
      * right. split; [exact Hp|]. now exists c, v.
      * left. injection Heq as H1 _.
        now destruct (dotted_inj _ _ _ _ Hplain Hp H1).
  - intros p group Hin. apply In_set_iff in Hin; [|exact S2].
    cbn [fst] in Hin. destruct Hin as [[= -> ->]|[Hne Hin]];
      [exact Hnew|].
    assert (Hp : Js.includes "." p = false).
    { apply (S4 p). apply in_map_iff. now exists (p, group). }
    destruct (S5 p group Hin) as [Hn Hc]. split; [exact Hn|].
    intros c v. rewrite Hc, in_app_iff. simpl. split.
    + intros [H1 H2]. split; [now left | exact H2].
    + intros [[H1|[Heq|[]]] H2]; [now split|]. exfalso.
      injection Heq as H1 _.
      destruct (dotted_inj _ _ _ _ Hplain Hp H1) as [Hpp _].
      now apply Hne.
Qed.

Lemma sorted_loop (l done : list (string * string))
  (g : Obj (Obj string)) (s : Obj string) (m : Obj (Obj string)) :
  sorted done g s ->
  NoDup (map fst (done ++ l)) ->
  ordinaryKeys l = true ->
  exists g' s',
    fold_left groupStep l (Normal (g, s, m)) = Normal (g', s', m)
    /\ sorted (done ++ l) g' s'.
Proof.
  revert done g s.
  induction l as [|[key value] l IH]; intros done g s Hs Hnodup Hord.
  - exists g, s. now rewrite app_nil_r.
  - simpl in Hord. apply andb_true_iff in Hord. destruct Hord as [Hk Hord].
    apply negb_true_iff in Hk.
    assert (Hfresh : ~ In key (map fst done)).
    { rewrite map_app in Hnodup. simpl in Hnodup.
      apply NoDup_remove_2 in Hnodup. intros Hin. apply Hnodup.
      apply in_app_iff. now left. }
    replace (done ++ (key, value) :: l)%list
      with ((done ++ [(key, value)]) ++ l)%list in *
      by (now rewrite <- app_assoc).
    cbn [fold_left].
    destruct (key_cases key) as [Hplain|[p [c [-> Hp]]]].
    + rewrite groupStep_plain by exact Hplain.
      apply IH; [now apply sorted_plain_step | exact Hnodup | exact Hord].
    + rewrite builtinPrefix_dotted in Hk by exact Hp.
      rewrite groupStep_dotted by assumption.
      apply IH; [now apply sorted_dotted_step | exact Hnodup | exact Hord].
Qed.

Lemma sorted_same_tags (l l' : list (string * string))
  (g : Obj (Obj string)) (s : Obj string) :
  (forall x, In x l <-> In x l') -> sorted l g s -> sorted l' g s.
Proof.
  intros Hsame [S1 [S2 [S3 [S4 S5]]]].
  split; [exact S1|]. split; [exact S2|]. split; [|split].
  - intros k v. rewrite S3. now rewrite Hsame.
  - intros p. rewrite S4. split; intros [Hp [c [v Hin]]];
      (split; [exact Hp|]); exists c, v; now apply Hsame.
  - intros p group Hin. destruct (S5 p group Hin) as [Hn Hc].
    split; [exact Hn|]. intros c v. rewrite Hc. now rewrite Hsame.
Qed.

Lemma entries_NoDup {T} (o : Obj T) :
  NoDup (map fst o) -> NoDup (map fst (Object.entries o)).
Proof.
  apply Permutation_NoDup. apply Permutation_map. symmetry.
  apply entries_perm.
Qed.

Lemma ordinaryKeys_entries (tags : Obj string) :
  ordinaryKeys tags = true -> ordinaryKeys (Object.entries tags) = true.
Proof.
  unfold ordinaryKeys. rewrite !forallb_forall. intros H x Hin.
  apply H. now apply (proj1 (entries_In _ _)).
Qed.

(** After the first loop the tags are sorted, and no method of
    [Object.prototype] has been given a property. *)
Lemma groupTags_sorted (tags : Obj string) :
  NoDup (map fst tags) ->
  ordinaryKeys tags = true ->
  exists grouped standalone,
    groupTags tags = Normal (grouped, standalone, [])
    /\ sorted tags grouped standalone.
Proof.
  intros Hnodup Hord. unfold groupTags.
  destruct (sorted_loop (Object.entries tags) [] [] [] [] sorted_nil
              (entries_NoDup tags Hnodup) (ordinaryKeys_entries tags Hord))
    as [g [s [Hrun Hsorted]]].
  exists g, s. split; [exact Hrun|].
  apply (sorted_same_tags (Object.entries tags)); [|exact Hsorted].
  intros x. apply entries_In.
Qed.

(** ** The tags section *)

Lemma subBullets_joinAll (subTags : Obj string) :
  subBullets subTags = subBulletsOf subTags.
Proof.
  unfold subBullets, subBulletsOf.
  rewrite (fold_left_appends _ subBullet); [reflexivity|].
  now intros out [k v].
Qed.

Lemma standaloneStep_shape (grouped : Obj (Obj string))
  (acc : string * list string) (kv : string * string) :
  standaloneStep grouped [] acc kv
  = (fst acc ++ standaloneBlock grouped kv,
     match Object.lookup grouped (fst kv) with
     | Object.Missing => snd acc
     | _ => fst kv :: snd acc
     end).
Proof.
  destruct acc as [output prefixes], kv as [key value].
  unfold standaloneStep, standaloneBlock, tagBullet, Object.lookup.
  cbn [fst snd].
  destruct (Object.get grouped key) as [subTags|].
  - rewrite subBullets_joinAll. f_equal. now repeat rewrite append_assoc.
  - destruct (Object.inherited key); f_equal;
      change (subBullets (propsOf [] key)) with "";
      now rewrite ?append_nil_r.
Qed.

Lemma standaloneLoop_output (grouped : Obj (Obj string))
  (l : list (string * string)) (acc : string * list string) :
  fst (fold_left (standaloneStep grouped []) l acc)
  = fst acc ++ joinAll (map (standaloneBlock grouped) l).
Proof.
  revert acc. induction l as [|kv l IH]; intros acc; simpl.
  - now rewrite append_nil_r.
  - rewrite IH, standaloneStep_shape. cbn [fst].
    now rewrite append_assoc.
Qed.

Lemma standaloneLoop_prefixes (grouped : Obj (Obj string))
  (l : list (string * string)) (acc : string * list string) (p : string) :
  In p (snd (fold_left (standaloneStep grouped []) l acc)) ->
  In p (snd acc) \/ In p (map fst l).
Proof.
  revert acc. induction l as [|kv l IH]; intros acc Hin; [now left|].
  simpl in Hin. apply IH in Hin. destruct Hin as [Hin|Hin];
    [|right; now right].
  rewrite standaloneStep_shape in Hin. cbn [snd] in Hin.
  destruct (Object.lookup grouped (fst kv));
    try (destruct Hin as [<-|Hin]; [right; now left | now left]).
  now left.
Qed.

Lemma standaloneLoop_keeps (grouped : Obj (Obj string))
  (l : list (string * string)) (acc : string * list string) (p : string) :
  In p (snd acc) ->
  In p (snd (fold_left (standaloneStep grouped []) l acc)).
Proof.
  revert acc. induction l as [|kv l IH]; intros acc Hin; [exact Hin|].
  simpl. apply IH. rewrite standaloneStep_shape. cbn [snd].
  destruct (Object.lookup grouped (fst kv)); try (now right); exact Hin.
Qed.

(** A standalone tag that has a group is recorded as put out. *)
Lemma standaloneLoop_records (grouped : Obj (Obj string))
  (l : list (string * string)) (acc : string * list string)
  (kv : string * string) (group : Obj string) :
  In kv l ->
  Object.get grouped (fst kv) = Some group ->
  In (fst kv) (snd (fold_left (standaloneStep grouped []) l acc)).
Proof.
  intros Hin Hget. revert acc.
  induction l as [|x l IH]; intros acc; [destruct Hin|].
  simpl. destruct Hin as [->|Hin]; [|now apply IH].
  apply standaloneLoop_keeps. rewrite standaloneStep_shape. cbn [snd].
  rewrite (lookup_get _ _ _ Hget). now left.
Qed.

(** For a group, having been put out with a tag is having a tag of its
    name. *)
Lemma outputted_iff (grouped : Obj (Obj string))
  (l : list (string * string)) (prefix : string) :
  In prefix (map fst grouped) ->
  existsb (String.eqb prefix)
    (snd (fold_left (standaloneStep grouped []) l ("", [])))
  = existsb (String.eqb prefix) (map fst l).
Proof.
  intros Hgroup. apply Bool.eq_iff_eq_true.
  rewrite !existsb_exists. split; intros [p [Hin Heq]];
    apply String.eqb_eq in Heq; subst p; exists prefix;
    (split; [|apply String.eqb_refl]).
  - apply standaloneLoop_prefixes in Hin. now destruct Hin as [[]|Hin].
  - apply in_map_iff in Hin. destruct Hin as [[k v] [Hk Hin]].
    simpl in Hk. subst k.
    destruct (Object.get grouped prefix) as [group|] eqn:Hget.
    + apply (standaloneLoop_records grouped l ("", []) (prefix, v) group);
        assumption.
    + apply get_None_iff in Hget. contradiction.
Qed.

Lemma groupedLoop_output (prefixes : list string)
  (l : list (string * Obj string)) (output : string) :
  fold_left (groupedStep prefixes) l output
  = output ++ joinAll (map (groupedBlock prefixes) l).
Proof.
  apply fold_left_appends. intros out [prefix subTags].
  unfold groupedStep, groupedBlock, syntheticBullet. cbn [fst snd].
  destruct (existsb _ _).
  - now rewrite append_nil_r.
  - rewrite subBullets_joinAll. now repeat rewrite append_assoc.
Qed.

Lemma existsb_same {A} (f : A -> bool) (l l' : list A) :
  (forall x, In x l <-> In x l') -> existsb f l = existsb f l'.
Proof.
  intros Hsame. apply Bool.eq_iff_eq_true. rewrite !existsb_exists.
  split; intros [x [Hin Hx]]; exists x; (split; [now apply Hsame | exact Hx]).
Qed.

(** The tags section is what the loop over [standalone] puts out,
    followed by what the loop over [grouped] puts out. *)
Lemma formatTagsNested_shape (tags : Obj string)
  (grouped : Obj (Obj string)) (standalone : Obj string) :
  Object.isEmpty tags = false ->
  groupTags tags = Normal (grouped, standalone, []) ->
  formatTagsNested (Some tags)
  = Normal
      (joinAll (map (standaloneBlock grouped) (Object.entries standalone))
       ++ joinAll (map (orphanBlock standalone) (Object.entries grouped))).
Proof.
  intros Hne Hrun. unfold formatTagsNested. rewrite Hne, Hrun.
  cbn [bindC].
  pose proof (standaloneLoop_output grouped (Object.entries standalone)
                ("", [])) as Hout.
  pose proof (fun prefix => outputted_iff grouped
                (Object.entries standalone) prefix) as Hput.
  destruct (fold_left (standaloneStep grouped []) (Object.entries standalone)
              ("", [])) as [output prefixes].
  cbn [fst snd] in *. subst output.
  rewrite groupedLoop_output. do 3 f_equal.
  apply map_ext_in. intros [prefix group] Hin.
  unfold orphanBlock, groupedBlock. cbn [fst snd].
  rewrite Hput.
  - rewrite (existsb_same _ (map fst (Object.entries standalone))
               (map fst standalone)); [reflexivity|].
    intros k. rewrite !in_map_iff.
    split; intros [x [Hk Hx]]; exists x; (split; [exact Hk|]);
      now apply entries_In.
  - apply in_map_iff. exists (prefix, group). split; [reflexivity|].
    now apply (proj1 (entries_In _ _)).
Qed.

(** Tags without a built-in prefix are formatted. *)
Lemma formatTagsNested_normal (tags : option (Obj string)) :
  ordinaryOpt tags ->
  exists text, formatTagsNested tags = Normal text.
Proof.
  destruct tags as [tags|]; [|now exists ""]. intros Hord.
  unfold formatTagsNested.
  destruct (Object.isEmpty tags); [now exists ""|].
  destruct (groupLoop_normal (Object.entries tags) ([], [], [])
              (ordinaryKeys_entries tags Hord)) as [[[g s] m] Hrun].
  change (groupTags tags = Normal (g, s, m)) in Hrun. rewrite Hrun.
  cbn [bindC].
  destruct (fold_left (standaloneStep g m) (Object.entries s) ("", [])).
  eexists; reflexivity.
Qed.

(** C3. The nesting fails where the prefix of a dotted key names a member
    of [Object.prototype]. For the tags [{constructor.name: x}] the read
    [grouped[constructor]] finds the inherited function [Object], no group
    is created, and the assignment to the read-only [Object.name] throws:
    no synthetic bullet named [constructor] is put out. For
    [{toString.x: 1}] the value is assigned to the inherited method, again
    no group is created, and nothing is rendered. *)
Theorem tag_group_lost_on_builtin_prefix :
  formatTagsNested (Some [("constructor.name", "x")]) = ThrowTypeError
  /\ formatTagsNested (Some [("constructor.name", "x")])
     <> Normal (syntheticBullet "constructor" ++ subBullet ("name", "x"))
  /\ Object.lookup ([] : Obj (Obj string)) "constructor" = Object.Inherited
  /\ formatTagsNested (Some [("toString.x", "1")]) = Normal ""
  /\ formatTagsNested (Some [("toString.x", "1")])
     <> Normal (syntheticBullet "toString" ++ subBullet ("x", "1")).
Proof.
  split; [reflexivity|]. split; [discriminate|]. split; [reflexivity|].
  split; [reflexivity | discriminate].
Qed.

(** X26. The two scenarios of the specification render as stated. In
    general, for tags with distinct keys none of which has a prefix that
    names a member of [Object.prototype], the section is one block per
    tag without a dot, in the order of [standalone], followed by one
    block per group, in the order of [grouped]. The block of a tag is its
    bullet and beneath it the sub-bullets of the group of its name; the
    block of a group is empty when a tag has its name and otherwise a
    synthetic bullet with the sub-bullets beneath. So a tag [parent.child]
    is shown once, beneath the bullet of [parent] when [parent] is a tag
    of its own and beneath a synthetic bullet named [parent] when it is
    not. *)
Theorem tags_nest_under_prefix :
  formatTagsNested (Some [("runtime", "node"); ("runtime.version", "18")])
  = Normal ("- **runtime:** node" ++ Js.LF ++ "  - version: 18" ++ Js.LF)
  /\ formatTagsNested (Some [("os.name", "linux")])
     = Normal ("- **os:**" ++ Js.LF ++ "  - name: linux" ++ Js.LF)
  /\ forall tags : Obj string,
       NoDup (map fst tags) ->
       ordinaryKeys tags = true ->
       tags <> [] ->
       exists grouped standalone,
         groupTags tags = Normal (grouped, standalone, [])
         /\ sorted tags grouped standalone
         /\ formatTagsNested (Some tags)
            = Normal
                (joinAll (map (standaloneBlock grouped)
                            (Object.entries standalone))
                 ++ joinAll (map (orphanBlock standalone)
                               (Object.entries grouped)))
         /\ (forall parent child value childValue : string,
               Js.includes "." parent = false ->
               child <> Object.proto ->
               In (parent, value) tags ->
               In (parent ++ "." ++ child, childValue) tags ->
               exists group,
                 In (parent, value) (Object.entries standalone)
                 /\ In (parent, group) (Object.entries grouped)
                 /\ In (child, childValue) (Object.entries group)
                 /\ standaloneBlock grouped (parent, value)
                    = tagBullet parent value ++ subBulletsOf group
                 /\ orphanBlock standalone (parent, group) = "")
         /\ (forall parent child childValue : string,
               Js.includes "." parent = false ->
               child <> Object.proto ->
               ~ In parent (map fst tags) ->
               In (parent ++ "." ++ child, childValue) tags ->
               exists group,
                 In (parent, group) (Object.entries grouped)
                 /\ In (child, childValue) (Object.entries group)
                 /\ orphanBlock standalone (parent, group)
                    = syntheticBullet parent ++ subBulletsOf group).
Proof.
  split; [reflexivity|]. split; [reflexivity|].
  intros tags Hnodup Hord Hne.
  destruct (groupTags_sorted tags Hnodup Hord)
    as [grouped [standalone [Hrun Hsorted]]].
  exists grouped, standalone.
  split; [exact Hrun|]. split; [exact Hsorted|]. split.
  { apply formatTagsNested_shape; [|exact Hrun].
    destruct (Object.isEmpty tags) eqn:E; [|reflexivity].
    apply isEmpty_nil in E. contradiction. }
  destruct Hsorted as [S1 [S2 [S3 [S4 S5]]]].
  assert (Hgroup : forall parent child childValue,
    Js.includes "." parent = false ->
    child <> Object.proto ->
    In (parent ++ "." ++ child, childValue) tags ->
    exists group,
      Object.get grouped parent = Some group
      /\ In (parent, group) (Object.entries grouped)
      /\ In (child, childValue) (Object.entries group)).
  { intros parent child childValue Hplain Hchild Hin.
    assert (Hkey : In parent (map fst grouped)).
    { apply S4. split; [exact Hplain|]. now exists child, childValue. }
    apply in_map_iff in Hkey. destruct Hkey as [[p group] [Hp Hg]].
    simpl in Hp. subst p. exists group.
    split; [now apply In_get|]. split; [now apply entries_In|].
    apply entries_In. apply (S5 parent group Hg). now split. }
  split.
  - intros parent child value childValue Hplain Hchild Hparent Hin.
    destruct (Hgroup parent child childValue Hplain Hchild Hin)
      as [group [Hget [Hg Hc]]].
    assert (Hproto : parent <> Object.proto).
    { apply inherited_not_proto.
      rewrite <- (builtinPrefix_dotted parent child Hplain).
      unfold ordinaryKeys in Hord. rewrite forallb_forall in Hord.
      apply negb_true_iff. exact (Hord _ Hin). }
    assert (Hown : In (parent, value) standalone)
      by (apply S3; now repeat split).
    exists group. split; [now apply entries_In|].
    split; [exact Hg|]. split; [exact Hc|]. split.
    + unfold standaloneBlock. cbn [fst snd]. now rewrite Hget.
    + unfold orphanBlock, groupedBlock. cbn [fst].
      replace (existsb (String.eqb parent) (map fst standalone)) with true;
        [reflexivity|].
      symmetry. apply existsb_exists. exists parent.
      split; [|apply String.eqb_refl].
      apply in_map_iff. now exists (parent, value).
  - intros parent child childValue Hplain Hchild Hnot Hin.
    destruct (Hgroup parent child childValue Hplain Hchild Hin)
      as [group [Hget [Hg Hc]]].
    exists group. split; [exact Hg|]. split; [exact Hc|].
    unfold orphanBlock, groupedBlock. cbn [fst snd].
    replace (existsb (String.eqb parent) (map fst standalone)) with false;
      [reflexivity|].
    symmetry. apply Bool.not_true_is_false. intros Hex.
    apply existsb_exists in Hex. destruct Hex as [p [Hp Heq]].
    apply String.eqb_eq in Heq. subst p.
    apply in_map_iff in Hp. destruct Hp as [[k v] [Hk Hs]].
    simpl in Hk. subst k. apply S3 in Hs. destruct Hs as [Hs _].
    apply Hnot. apply in_map_iff. now exists (parent, v).
Qed.

Lemma tags_nest_under_prefix_witness :
  exists grouped standalone,
    groupTags [("runtime", "node"); ("runtime.version", "18")]
    = Normal (grouped, standalone, [])
    /\ In ("runtime", "node") (Object.entries standalone)
    /\ Object.get grouped "runtime" = Some [("version", "18")].
Proof.
  destruct (proj2 (proj2 tags_nest_under_prefix)
              [("runtime", "node"); ("runtime.version", "18")])
    as [grouped [standalone [Hrun _]]].
  - repeat constructor; simpl; intuition discriminate.
  - reflexivity.
  - discriminate.
  - exists grouped, standalone. split; [exact Hrun|].
    vm_compute in Hrun. injection Hrun as <- <-.
    split; [now left | reflexivity].
Defined.

(** ** The formatter: the whole document *)

Section Document.
Context {NF : NumberFormat}.
Variable now : string.

Lemma pushKeyValue_shape (lines : list string) (key : string)
  (value : option string) :
  pushKeyValue lines key value = (lines ++ bullet key value)%list.
Proof.
  unfold pushKeyValue, bullet, push.
  destruct (Js.truthyOpt value); [reflexivity | now rewrite app_nil_r].
Qed.

Lemma overviewLines_shape (data : SentryIssueData.t) :
  overviewLines data
  = ([ ("## " ++ headerTitle data)%string; "";
       ("[View in Sentry](" ++ SentryIssueData.url data ++ ")")%string; "";
       "---"; ""; "### Issue Overview"; "" ]
     ++ bullet "Project" (Some (SentryIssueData.projectName data))
     ++ (if Js.truthyOpt (SentryIssueData.shortId data)
         then [formatKeyValue "Issue ID" (SentryIssueData.shortId data)]
         else bullet "Issue ID" (Some (SentryIssueData.issueId data)))
     ++ bullet "Status" (SentryIssueData.status data)
     ++ bullet "Priority" (SentryIssueData.priority data)
     ++ bullet "Level" (SentryIssueData.level data)
     ++ bullet "Environment" (SentryIssueData.environment data)
     ++ bullet "Release" (SentryIssueData.release data)
     ++ bullet "Events" (Some (SentryIssueData.eventCount data))
     ++ bullet "Users Affected" (Some (SentryIssueData.userCount data))
     ++ bullet "Route/URL" (SentryIssueData.route data)
     ++ bullet "First Seen"
          (match SentryIssueData.timestamps data with
           | Some ts => Timestamps.firstSeen ts
           | None => None
           end)
     ++ bullet "Last Seen"
          (match SentryIssueData.timestamps data with
           | Some ts => Timestamps.lastSeen ts
           | None => None
           end)
     ++ [""])%list.
Proof.
  unfold overviewLines. cbv zeta.
  repeat rewrite pushKeyValue_shape.
  assert (Hid : forall lines : list string,
    (if Js.truthyOpt (SentryIssueData.shortId data)
     then push lines [formatKeyValue "Issue ID" (SentryIssueData.shortId data)]
     else (lines ++ bullet "Issue ID"
                      (Some (SentryIssueData.issueId data)))%list)
    = (lines ++
       (if Js.truthyOpt (SentryIssueData.shortId data)
        then [formatKeyValue "Issue ID" (SentryIssueData.shortId data)]
        else bullet "Issue ID" (Some (SentryIssueData.issueId data))))%list).
  { intros lines. now destruct (Js.truthyOpt (SentryIssueData.shortId data)). }
  rewrite Hid. unfold push.
  repeat rewrite <- app_assoc. reflexivity.
Qed.

Lemma pushErrorMessage_extends (data : SentryIssueData.t)
  (lines : list string) :
  exists added, pushErrorMessage data lines = (lines ++ added)%list.
Proof.
  unfold pushErrorMessage, push.
  destruct (Js.truthyOpt (SentryIssueData.errorMessage data)).
  - eexists; reflexivity.
  - exists []. now rewrite app_nil_r.
Qed.

Lemma pushStackTrace_extends (data : SentryIssueData.t)
  (lines : list string) :
  exists added, pushStackTrace data lines = (lines ++ added)%list.
Proof.
  unfold pushStackTrace, push.
  destruct (SentryIssueData.stackTrace data).
  - eexists; reflexivity.
  - exists []. now rewrite app_nil_r.
Qed.

Lemma pushBreadcrumbs_extends (data : SentryIssueData.t)
  (include : option bool) (lines : list string) :
  exists added, pushBreadcrumbs data include lines = (lines ++ added)%list.
Proof.
  unfold pushBreadcrumbs, push.
  destruct (SentryIssueData.breadcrumbs data) as [[|b bs]|];
    try (exists []; now rewrite app_nil_r).
  destruct (FormatOptions.enabled include).
  - eexists; reflexivity.
  - exists []. now rewrite app_nil_r.
Qed.

Lemma pushTags_normal (data : SentryIssueData.t)
  (include : option bool) (lines : list string) :
  ordinaryTags data ->
  exists added, pushTags data include lines = Normal (lines ++ added)%list.
Proof.
  intros Hord. unfold pushTags, push.
  destruct (andb _ _).
  - destruct (formatTagsNested_normal (SentryIssueData.tags data) Hord)
      as [text ->].
    simpl. eexists; reflexivity.
  - exists []. now rewrite app_nil_r.
Qed.

(** A section that is put out is put after the lines that were there. *)
Lemma pushed_after (lines out : list string) (c : Completion string)
  (title : string) (b : bool) :
  (if b then try! text <- c; Normal (push lines [title; ""; text; ""])
   else Normal lines) = Normal out ->
  exists added, out = (lines ++ added)%list.
Proof.
  destruct b.
  - destruct c as [text| |]; simpl; [|discriminate|discriminate].
    intros [= <-]. eexists; reflexivity.
  - intros [= <-]. exists []. now rewrite app_nil_r.
Qed.

Lemma pushHttpRequest_normal (data : SentryIssueData.t)
  (lines : list string) :
  exists added, pushHttpRequest data lines = Normal (lines ++ added)%list.
Proof.
  unfold pushHttpRequest, push.
  destruct (hasKeys _).
  - destruct (formatAsList_strings (SentryIssueData.httpRequest data))
      as [text ->].
    simpl. eexists; reflexivity.
  - exists []. now rewrite app_nil_r.
Qed.

Lemma pushUserInfo_normal (data : SentryIssueData.t)
  (lines : list string) :
  exists added, pushUserInfo data lines = Normal (lines ++ added)%list.
Proof.
  unfold pushUserInfo, push.
  destruct (hasKeys _).
  - destruct (formatAsList_strings (SentryIssueData.userInfo data))
      as [text ->].
    simpl. eexists; reflexivity.
  - exists []. now rewrite app_nil_r.
Qed.

Lemma pushContexts_normal (data : SentryIssueData.t)
  (include : option bool) (lines : list string) :
  exists added,
    pushContexts data include lines = Normal (lines ++ added)%list.
Proof.
  unfold pushContexts, push.
  destruct (andb _ _).
  - destruct (formatContexts_normal (SentryIssueData.contexts data))
      as [text ->].
    simpl. eexists; reflexivity.
  - exists []. now rewrite app_nil_r.
Qed.

Lemma pushAdditionalData_normal (data : SentryIssueData.t)
  (lines : list string) :
  wellFormed data ->
  exists added, pushAdditionalData data lines = Normal (lines ++ added)%list.
Proof.
  intros Hwf. unfold pushAdditionalData, push.
  destruct (hasKeys _).
  - destruct (formatAdditionalData_normal
                (SentryIssueData.additionalData data) Hwf) as [text ->].
    simpl. eexists; reflexivity.
  - exists []. now rewrite app_nil_r.
Qed.

(** On a well-formed record every section is formatted: the lines are
    those up to the breadcrumbs, followed by the later sections. *)
Lemma sectionLines_normal (data : SentryIssueData.t)
  (includeBreadcrumbs includeContexts includeTags : option bool)
  (lines : list string) :
  wellFormed data ->
  ordinaryTags data ->
  exists later,
    sectionLines data includeBreadcrumbs includeContexts includeTags lines
    = Normal
        (pushBreadcrumbs data includeBreadcrumbs
           (pushStackTrace data (pushErrorMessage data lines)) ++ later)%list.
Proof.
  intros Hwf Hord. unfold sectionLines. cbv zeta.
  set (l3 := pushBreadcrumbs data includeBreadcrumbs
               (pushStackTrace data (pushErrorMessage data lines))).
  destruct (pushHttpRequest_normal data l3) as [a4 ->]. simpl.
  destruct (pushUserInfo_normal data (l3 ++ a4)) as [a5 ->]. simpl.
  destruct (pushTags_normal data includeTags ((l3 ++ a4) ++ a5) Hord)
    as [a6 ->]. simpl.
  destruct (pushContexts_normal data includeContexts
              (((l3 ++ a4) ++ a5) ++ a6)) as [a7 ->]. simpl.
  destruct (pushAdditionalData_normal data
              ((((l3 ++ a4) ++ a5) ++ a6) ++ a7) Hwf) as [a8 ->]. simpl.
  exists (a4 ++ a5 ++ a6 ++ a7 ++ a8)%list.
  now repeat rewrite <- app_assoc.
Qed.

(** Whenever the sections are put out, the lines are those up to the
    breadcrumbs, followed by the later sections. *)
Lemma sectionLines_after (data : SentryIssueData.t)
  (includeBreadcrumbs includeContexts includeTags : option bool)
  (lines out : list string) :
  sectionLines data includeBreadcrumbs includeContexts includeTags lines
  = Normal out ->
  exists later,
    out = (pushBreadcrumbs data includeBreadcrumbs
             (pushStackTrace data (pushErrorMessage data lines))
           ++ later)%list.
Proof.
  unfold sectionLines. cbv zeta.
  set (l3 := pushBreadcrumbs data includeBreadcrumbs
               (pushStackTrace data (pushErrorMessage data lines))).
  destruct (pushHttpRequest data l3) as [l4| |] eqn:E4;
    cbn [bindC]; try discriminate.
  destruct (pushUserInfo data l4) as [l5| |] eqn:E5;
    cbn [bindC]; try discriminate.
  destruct (pushTags data includeTags l5) as [l6| |] eqn:E6;
    cbn [bindC]; try discriminate.
  destruct (pushContexts data includeContexts l6) as [l7| |] eqn:E7;
    cbn [bindC]; try discriminate.
  destruct (pushAdditionalData data l7) as [l8| |] eqn:E8;
    cbn [bindC]; try discriminate.
  intros [= <-].
  apply pushed_after in E4. destruct E4 as [a4 ->].
  apply pushed_after in E5. destruct E5 as [a5 ->].
  apply pushed_after in E6. destruct E6 as [a6 ->].
  apply pushed_after in E7. destruct E7 as [a7 ->].
  apply pushed_after in E8. destruct E8 as [a8 ->].
  exists (a4 ++ a5 ++ a6 ++ a7 ++ a8)%list.
  now repeat rewrite <- app_assoc.
Qed.

End Document.

(** Whenever the document is put out, its lines are those up to the
    breadcrumbs, the later sections and the footer. *)
Lemma documentLines_after {NF : NumberFormat} (now : string)
  (data : SentryIssueData.t) (options : FormatOptions.t)
  (lines : list string) :
  documentLines now data options = Normal lines ->
  exists later,
    lines
    = (pushBreadcrumbs data
         (FormatOptions.resolved (FormatOptions.includeBreadcrumbs options))
         (pushStackTrace data (pushErrorMessage data (overviewLines data)))
       ++ later ++ footerLines now)%list.
Proof.
  unfold documentLines. cbv zeta.
  destruct (sectionLines _ _ _ _ _) as [out| |] eqn:E;
    cbn [bindC]; try discriminate.
  intros [= <-]. apply sectionLines_after in E. destruct E as [later ->].
  exists later. unfold push. now rewrite <- app_assoc.
Qed.

Lemma documentLines_shape {NF : NumberFormat} (now : string)
  (data : SentryIssueData.t) (options : FormatOptions.t) :
  wellFormed data ->
  ordinaryTags data ->
  exists later,
    documentLines now data options
    = Normal
        (pushBreadcrumbs data
           (FormatOptions.resolved (FormatOptions.includeBreadcrumbs options))
           (pushStackTrace data (pushErrorMessage data (overviewLines data)))
         ++ later)%list.
Proof.
  intros Hwf Hord. unfold documentLines. cbv zeta.
  destruct (sectionLines_normal data
              (FormatOptions.resolved (FormatOptions.includeBreadcrumbs options))
              (FormatOptions.resolved (FormatOptions.includeContexts options))
              (FormatOptions.resolved (FormatOptions.includeTags options))
              (overviewLines data) Hwf Hord) as [later ->].
  simpl. unfold push. rewrite <- app_assoc. eexists; reflexivity.
Qed.

(** C1 (amended). On a well-formed record none of whose tags has a
    dotted key with a prefix that names a member of [Object.prototype],
    the formatter returns, and the document begins with the header line:
    two hashes, a space and the header text. The header text is the title,
    prefixed with the short id and a colon exactly when the short id is a
    non-empty string; a short id that is [null] or empty gives the bare
    title. *)
Theorem markdown_starts_with_header :
  forall {NF : NumberFormat} (now : string) (data : SentryIssueData.t)
         (options : FormatOptions.t),
    wellFormed data ->
    ordinaryTags data ->
    exists rest,
      formatToJiraMarkdown now data options
      = Normal ("## " ++ headerTitle data ++ Js.LF ++ rest)
      /\ (Js.includes (ascii_of_nat 10) (headerTitle data) = false ->
          firstLine ("## " ++ headerTitle data ++ Js.LF ++ rest)
          = "## " ++ headerTitle data)
      /\ (forall shortId,
            SentryIssueData.shortId data = Some shortId ->
            shortId <> "" ->
            headerTitle data = shortId ++ ": " ++ SentryIssueData.title data)
      /\ (SentryIssueData.shortId data = None
          \/ SentryIssueData.shortId data = Some "" ->
          headerTitle data = SentryIssueData.title data).
Proof.
  intros NF now data options Hwf Hord.
  unfold formatToJiraMarkdown.
  destruct (documentLines_shape now data options Hwf Hord) as [later ->].
  destruct (pushErrorMessage_extends data (overviewLines data)) as [a1 ->].
  destruct (pushStackTrace_extends data (overviewLines data ++ a1))
    as [a2 ->].
  destruct (pushBreadcrumbs_extends data
              (FormatOptions.resolved
                 (FormatOptions.includeBreadcrumbs options))
              ((overviewLines data ++ a1) ++ a2)) as [a3 ->].
  rewrite overviewLines_shape. simpl bindC.
  repeat rewrite <- app_assoc. cbn [app].
  eexists. split; [reflexivity|].
  split; [|split].
  - intros Hline. unfold firstLine.
    change ("## " ++ headerTitle data ++ Js.LF ++ ?r)
      with (("## " ++ headerTitle data)
            ++ String (ascii_of_nat 10) r).
    now rewrite split_before by exact Hline.
  - intros shortId Hid Hne. unfold headerTitle. rewrite Hid. simpl.
    destruct shortId; [now elim Hne | reflexivity].
  - intros [Hid|Hid]; unfold headerTitle; rewrite Hid; reflexivity.
Qed.

Lemma markdown_starts_with_header_witness :
  exists rest,
    formatToJiraMarkdown (NF := Sample.integers) Sample.now
      Sample.fullRecord FormatOptions.empty
    = Normal ("## " ++ headerTitle Sample.fullRecord ++ Js.LF ++ rest)
    /\ (Js.includes (ascii_of_nat 10) (headerTitle Sample.fullRecord) = false ->
        firstLine ("## " ++ headerTitle Sample.fullRecord ++ Js.LF ++ rest)
        = "## " ++ headerTitle Sample.fullRecord)
    /\ (forall shortId,
          SentryIssueData.shortId Sample.fullRecord = Some shortId ->
          shortId <> "" ->
          headerTitle Sample.fullRecord
          = shortId ++ ": " ++ SentryIssueData.title Sample.fullRecord)
    /\ (SentryIssueData.shortId Sample.fullRecord = None
        \/ SentryIssueData.shortId Sample.fullRecord = Some "" ->
        headerTitle Sample.fullRecord
        = SentryIssueData.title Sample.fullRecord).
Proof.
  apply (markdown_starts_with_header (NF := Sample.integers) Sample.now
           Sample.fullRecord FormatOptions.empty).
  - reflexivity.
  - reflexivity.
Defined.

(** C1 as the specification states it fails on a record whose short id is
    the empty string: the short id is not [null], yet the first line is
    the bare title and not the title behind a colon. *)
Lemma header_prefix_counterexample :
  wellFormed Sample.emptyShortId
  /\ SentryIssueData.shortId Sample.emptyShortId <> None
  /\ ~ (exists text,
          formatToJiraMarkdown (NF := Sample.integers) Sample.now
            Sample.emptyShortId FormatOptions.empty = Normal text
          /\ firstLine text = "## " ++ specHeaderTitle Sample.emptyShortId).
Proof.
  split; [exact I|]. split; [discriminate|].
  intros [text [Hrun Hline]].
  vm_compute in Hrun. injection Hrun as <-.
  vm_compute in Hline. discriminate.
Qed.

(** The formatter throws on a well-formed record with the tag
    [constructor.name]: the assignment to the read-only [Object.name] is
    a [TypeError]. With the tags switched off the same record is
    formatted. *)
Example formatter_throws_on_builtin_prefix :
  wellFormed (Pages.tagged [("constructor.name", "x")])
  /\ formatToJiraMarkdown (NF := Sample.integers) Sample.now
       (Pages.tagged [("constructor.name", "x")]) FormatOptions.empty
     = ThrowTypeError
  /\ exists text,
       formatToJiraMarkdown (NF := Sample.integers) Sample.now
         (Pages.tagged [("constructor.name", "x")])
         {| FormatOptions.includeBreadcrumbs := None;
            FormatOptions.includeContexts := None;
            FormatOptions.includeTags := Some (Some false) |}
       = Normal text.
Proof.
  split; [exact I|]. split; [reflexivity|]. eexists. reflexivity.
Qed.

(** C5. For the minimal record (title [X], url [https://x], every nullable
    field [null]) and any options, the document is the header, the source
    link, the rule, the overview header with the bullets of the mandatory
    fields that are not empty, and the footer: no other section header is
    put out. With the mandatory fields empty nothing but those lines
    remains. *)
Theorem minimal_record_has_no_sections :
  forall {NF : NumberFormat} (now : string) (options : FormatOptions.t)
         (projectName issueId eventCount userCount : string),
    formatToJiraMarkdown now
      (minimalRecord projectName issueId eventCount userCount) options
    = Normal
        (Js.join Js.LF
           ([ "## X"; ""; "[View in Sentry](https://x)"; "";
              "---"; ""; "### Issue Overview"; "" ]
            ++ bullet "Project" (Some projectName)
            ++ bullet "Issue ID" (Some issueId)
            ++ bullet "Events" (Some eventCount)
            ++ bullet "Users Affected" (Some userCount)
            ++ [ ""; "---";
                 ("*Extracted from Sentry on "
                  ++ hd "" (Js.split "T" now) ++ "*")%string ])%list)
    /\ formatToJiraMarkdown now (minimalRecord "" "" "" "") options
       = Normal
           ("## X" ++ Js.LF ++ Js.LF
            ++ "[View in Sentry](https://x)" ++ Js.LF ++ Js.LF
            ++ "---" ++ Js.LF ++ Js.LF
            ++ "### Issue Overview" ++ Js.LF ++ Js.LF ++ Js.LF
            ++ "---" ++ Js.LF
            ++ "*Extracted from Sentry on "
            ++ hd "" (Js.split "T" now) ++ "*").
Proof.
  intros NF now options projectName issueId eventCount userCount.
  assert (Hlines : forall p i e u,
    documentLines now (minimalRecord p i e u) options
    = Normal
        ([ "## X"; ""; "[View in Sentry](https://x)"; "";
           "---"; ""; "### Issue Overview"; "" ]
         ++ bullet "Project" (Some p)
         ++ bullet "Issue ID" (Some i)
         ++ bullet "Events" (Some e)
         ++ bullet "Users Affected" (Some u)
         ++ [ ""; "---";
              ("*Extracted from Sentry on "
               ++ hd "" (Js.split "T" now) ++ "*")%string ])%list).
  { intros p i e u. unfold documentLines, sectionLines. cbv zeta.
    rewrite overviewLines_shape.
    unfold pushErrorMessage, pushStackTrace, pushBreadcrumbs,
      pushHttpRequest, pushUserInfo, pushTags, pushContexts,
      pushAdditionalData, footerLines, push.
    simpl. repeat rewrite Bool.andb_false_r. simpl.
    repeat rewrite <- app_assoc. reflexivity. }
  unfold formatToJiraMarkdown. split.
  - rewrite Hlines. reflexivity.
  - rewrite Hlines. reflexivity.
Qed.

(** C9. When breadcrumbs are enabled and the list is not empty, the
    formatter returns on every well-formed record whose tags have no
    built-in prefix, and every document it returns has a breadcrumbs
    section that opens with a header stating the length of the whole
    list, followed by the rendered breadcrumbs; for a list of more than
    fifteen entries the rendering beneath it still has only the bullets of
    the last fifteen. *)
Theorem breadcrumbs_header_counts_all :
  forall {NF : NumberFormat} (now : string) (data : SentryIssueData.t)
         (options : FormatOptions.t) (breadcrumbs : list Breadcrumb.t),
    SentryIssueData.breadcrumbs data = Some breadcrumbs ->
    breadcrumbs <> [] ->
    FormatOptions.enabled
      (FormatOptions.resolved (FormatOptions.includeBreadcrumbs options))
    = true ->
    (wellFormed data -> ordinaryTags data ->
     exists text, formatToJiraMarkdown now data options = Normal text)
    /\ (forall text,
          formatToJiraMarkdown now data options = Normal text ->
          exists before after,
            documentLines now data options
            = Normal
                (before
                 ++ [ ("### Breadcrumbs ("
                       ++ Js.ofNat (List.length breadcrumbs)
                       ++ " entries)")%string;
                      "";
                      formatBreadcrumbs (Some breadcrumbs);
                      "" ]
                 ++ after)%list
            /\ text
               = Js.join Js.LF
                   (before
                    ++ [ ("### Breadcrumbs ("
                          ++ Js.ofNat (List.length breadcrumbs)
                          ++ " entries)")%string;
                         "";
                         formatBreadcrumbs (Some breadcrumbs);
                         "" ]
                    ++ after)%list)
    /\ (15 < List.length breadcrumbs ->
        formatBreadcrumbs (Some breadcrumbs)
        = joinAll
            (map crumbBullet
               (skipn (List.length breadcrumbs - 15) breadcrumbs))).
Proof.
  intros NF now data options breadcrumbs Hbc Hne Hon.
  split; [|split].
  - intros Hwf Hord. unfold formatToJiraMarkdown.
    destruct (documentLines_shape now data options Hwf Hord) as [later ->].
    eexists; reflexivity.
  - intros text. unfold formatToJiraMarkdown.
    destruct (documentLines now data options) as [lines| |] eqn:E;
      cbn [bindC]; try discriminate.
    intros [= <-]. apply documentLines_after in E.
    destruct E as [later E]. subst lines.
    unfold pushBreadcrumbs. rewrite Hbc, Hon.
    destruct breadcrumbs as [|b bs]; [now elim Hne|].
    unfold push.
    exists (pushStackTrace data (pushErrorMessage data (overviewLines data))),
           (later ++ footerLines now)%list.
    repeat rewrite <- app_assoc. split; reflexivity.
  - intros Hlen. apply formatBreadcrumbs_crumbs.
    destruct breadcrumbs as [|b [|c bs]]; simpl in *; [lia | lia | reflexivity].
Qed.

Lemma breadcrumbs_header_counts_all_witness :
  exists before after,
    documentLines (NF := Sample.integers) Sample.now Sample.fullRecord
      FormatOptions.empty
    = Normal
        (before
         ++ [ ("### Breadcrumbs ("
               ++ Js.ofNat (List.length Sample.sixteenCrumbs)
               ++ " entries)")%string;
              "";
              formatBreadcrumbs (Some Sample.sixteenCrumbs);
              "" ]
         ++ after)%list.
Proof.
  destruct (breadcrumbs_header_counts_all (NF := Sample.integers)
              Sample.now Sample.fullRecord FormatOptions.empty
              Sample.sixteenCrumbs) as [Hreturns [Hheader _]].
  - reflexivity.
  - discriminate.
  - reflexivity.
  - destruct Hreturns as [text Htext]; [reflexivity | reflexivity |].
    destruct (Hheader text Htext) as [before [after [Hlines _]]].
    now exists before, after.
Defined.

(** ** The tags extractor *)

Lemma firstBinding_app (key : string) (l1 l2 : list (string * string)) :
  firstBinding key (l1 ++ l2)
  = match firstBinding key l1 with
    | Some v => Some v
    | None => firstBinding key l2
    end.
Proof.
  unfold firstBinding.
  induction l1 as [|[k v] l1 IH]; simpl; [reflexivity|].
  destruct (String.eqb k key); [reflexivity | exact IH].
Qed.

Lemma lastBinding_app (key : string) (l1 l2 : list (string * string)) :
  lastBinding key (l1 ++ l2)
  = match lastBinding key l2 with
    | Some v => Some v
    | None => lastBinding key l1
    end.
Proof. unfold lastBinding. now rewrite rev_app_distr, firstBinding_app. Qed.

Lemma lastBinding_None (key : string) (l : list (string * string)) :
  lastBinding key l = None <-> ~ In key (map fst l).
Proof.
  induction l as [|[k v] l IH].
  - split; [intros _ [] | reflexivity].
  - change ((k, v) :: l) with ([(k, v)] ++ l)%list.
    rewrite lastBinding_app. simpl map.
    destruct (lastBinding key l) as [w|] eqn:E.
    + split; [discriminate|]. intros H. exfalso.
      assert (Hl : ~ In key (map fst l)) by (intros Hin; apply H; now right).
      apply IH in Hl. discriminate.
    + unfold lastBinding, firstBinding. simpl.
      destruct (String.eqb_spec k key) as [->|Hne]; simpl.
      * split; [discriminate | intros H; elim H; now left].
      * split; [|reflexivity]. intros _ [Hk|Hin]; [contradiction|].
        now apply (proj1 IH).
Qed.

Section TagsFacts.
Context {D : Dom}.

Lemma rowBindings_cons (row : Node) (rows : list Node) :
  rowBindings (row :: rows) = (bindingsOf row ++ rowBindings rows)%list.
Proof. unfold bindingsOf, rowBindings. simpl. now rewrite app_nil_r. Qed.

(** A row binds nothing or one key, and never an empty text. *)
Lemma bindingsOf_cases (row : Node) :
  (bindingsOf row = []
   /\ (forall tags, addRow tags row = tags)
   /\ (forall tags, addRowIfUnset tags row = tags))
  \/ exists key value,
       bindingsOf row = [(key, value)]
       /\ Js.truthy key = true
       /\ Js.truthy value = true
       /\ (forall tags, addRow tags row = Object.store tags key value)
       /\ (forall tags,
             addRowIfUnset tags row
             = if negb (isSet tags key)
               then Object.store tags key value else tags).
Proof.
  unfold bindingsOf, rowBindings, addRow, addRowIfUnset. simpl.
  destruct (rowKeyValue row) as [[key value]|]; [|left; auto].
  destruct (Js.truthy key) eqn:Hk, (Js.truthy value) eqn:Hv; simpl;
    try (left; auto; fail).
  right. exists key, value. auto.
Qed.

(** What an assignment leaves under each key, on an object without an
    own [__proto__]. *)
Lemma get_store (o : Obj string) (k v k' : string) :
  Object.get o Object.proto = None ->
  Object.get (Object.store o k v) k'
  = if String.eqb k Object.proto then Object.get o k'
    else if String.eqb k k' then Some v else Object.get o k'.
Proof.
  intros Hproto. destruct (String.eqb_spec k Object.proto) as [->|Hne].
  - unfold Object.store. now rewrite Hproto.
  - rewrite store_ordinary by exact Hne.
    destruct (String.eqb_spec k k') as [->|Hk].
    + apply get_set_same.
    + now apply get_set_other.
Qed.

Lemma store_no_proto (o : Obj string) (k v : string) :
  Object.get o Object.proto = None ->
  Object.get (Object.store o k v) Object.proto = None.
Proof.
  intros Hproto. rewrite get_store by exact Hproto.
  destruct (String.eqb_spec k Object.proto) as [->|Hne]; [exact Hproto|].
  destruct (String.eqb_spec k Object.proto); [contradiction | exact Hproto].
Qed.

Lemma addRow_no_proto (tags : Obj string) (row : Node) :
  Object.get tags Object.proto = None ->
  Object.get (addRow tags row) Object.proto = None.
Proof.
  intros Hproto.
  destruct (bindingsOf_cases row)
    as [[_ [Hadd _]]|[k [v [_ [_ [_ [Hadd _]]]]]]]; rewrite Hadd;
    [exact Hproto | now apply store_no_proto].
Qed.

Lemma firstBinding_one (key k v : string) :
  firstBinding key [(k, v)] = if String.eqb k key then Some v else None.
Proof. unfold firstBinding. simpl. now destruct (String.eqb k key). Qed.

Lemma lastBinding_one (key k v : string) :
  lastBinding key [(k, v)] = if String.eqb k key then Some v else None.
Proof. apply firstBinding_one. Qed.

(** The tree rows: the last row of a key gives its value, and a row
    keyed [__proto__] is lost. *)
Lemma get_fold_addRow (rows : list Node) (tags : Obj string) (key : string) :
  Object.get tags Object.proto = None ->
  Object.get (fold_left addRow rows tags) key
  = if String.eqb key Object.proto then None
    else match lastBinding key (rowBindings rows) with
         | Some v => Some v
         | None => Object.get tags key
         end.
Proof.
  revert tags. induction rows as [|row rows IH]; intros tags Hproto.
  - simpl. destruct (String.eqb_spec key Object.proto) as [->|_];
      [exact Hproto | reflexivity].
  - cbn [fold_left]. rewrite IH by now apply addRow_no_proto.
    destruct (String.eqb key Object.proto) eqn:Hkey; [reflexivity|].
    apply String.eqb_neq in Hkey.
    rewrite rowBindings_cons, lastBinding_app.
    destruct (lastBinding key (rowBindings rows)); [reflexivity|].
    destruct (bindingsOf_cases row)
      as [[-> [Hadd _]]|[k [v [-> [_ [_ [Hadd _]]]]]]]; rewrite Hadd.
    + reflexivity.
    + rewrite get_store by exact Hproto. rewrite lastBinding_one.
      destruct (String.eqb_spec k Object.proto) as [->|Hk].
      * destruct (String.eqb_spec Object.proto key) as [Heq|_];
          [now elim Hkey | reflexivity].
      * now destruct (String.eqb k key).
Qed.

Lemma allTruthy_store (tags : Obj string) (k v : string) :
  Object.get tags Object.proto = None ->
  allTruthy tags -> Js.truthy v = true ->
  allTruthy (Object.store tags k v).
Proof.
  intros Hproto Hall Hv k' v'. rewrite get_store by exact Hproto.
  destruct (String.eqb k Object.proto); [apply Hall|].
  destruct (String.eqb k k'); [now intros [= <-] | apply Hall].
Qed.

Lemma allTruthy_fold_addRow (rows : list Node) (tags : Obj string) :
  Object.get tags Object.proto = None ->
  allTruthy tags ->
  allTruthy (fold_left addRow rows tags)
  /\ Object.get (fold_left addRow rows tags) Object.proto = None.
Proof.
  revert tags. induction rows as [|row rows IH]; intros tags Hproto Hall;
    [now split|].
  cbn [fold_left]. apply IH; [now apply addRow_no_proto|].
  destruct (bindingsOf_cases row)
    as [[_ [Hadd _]]|[k [v [_ [_ [Hv [Hadd _]]]]]]]; rewrite Hadd.
  - exact Hall.
  - now apply allTruthy_store.
Qed.

(** The highlight rows after the tree rows: a key that is not set yet
    takes the value of its first highlight row, unless it names a member
    of [Object.prototype]. *)
Lemma get_fold_addRowIfUnset (rows : list Node) (tags : Obj string)
  (key : string) :
  Object.get tags Object.proto = None ->
  allTruthy tags ->
  Object.get (fold_left addRowIfUnset rows tags) key
  = match Object.get tags key with
    | Some v => Some v
    | None =>
        if Object.inherited key then None
        else firstBinding key (rowBindings rows)
    end.
Proof.
  revert tags. induction rows as [|row rows IH]; intros tags Hproto Hall.
  - simpl. destruct (Object.get tags key); [reflexivity|].
    now destruct (Object.inherited key).
  - cbn [fold_left]. rewrite rowBindings_cons, firstBinding_app.
    destruct (bindingsOf_cases row)
      as [[-> [_ Hadd]]|[k [v [-> [_ [Hv [_ Hadd]]]]]]]; rewrite Hadd.
    + now rewrite IH.
    + rewrite firstBinding_one. unfold isSet, Object.lookup.
      destruct (Object.get tags k) as [v0|] eqn:Hk.
      * rewrite (Hall k v0 Hk). cbn [negb]. rewrite IH by assumption.
        destruct (String.eqb_spec k key) as [->|Hne]; [now rewrite Hk|].
        reflexivity.
      * destruct (Object.inherited k) eqn:Hinh; cbn [negb].
        -- rewrite IH by assumption.
           destruct (String.eqb_spec k key) as [->|Hne];
             [now rewrite Hk, Hinh | reflexivity].
        -- rewrite IH;
             [|now apply store_no_proto|now apply allTruthy_store].
           rewrite get_store by exact Hproto.
           replace (String.eqb k Object.proto) with false
             by (symmetry; apply String.eqb_neq;
                 now apply inherited_not_proto).
           destruct (String.eqb_spec k key) as [->|Hne];
             [now rewrite Hk, Hinh | reflexivity].
Qed.

Lemma nonEmptyOrNull_get (tags : Obj string) (key value : string) :
  Object.get tags key = Some value -> nonEmptyOrNull tags = Some tags.
Proof.
  intros Hget. unfold nonEmptyOrNull.
  now rewrite (isEmpty_In (key, value) tags (get_In _ _ _ Hget)).
Qed.

Lemma nonEmptyOrNull_Some (tags result : Obj string) :
  nonEmptyOrNull tags = Some result -> result = tags.
Proof.
  unfold nonEmptyOrNull. destruct (negb _); [now intros [= <-] | discriminate].
Qed.

(** What a page with a tags section binds under each key. *)
Lemma get_merged (tagRows highlightRows : list Node) (key : string) :
  Object.get
    (fold_left addRowIfUnset highlightRows (fold_left addRow tagRows []))
    key
  = if String.eqb key Object.proto then None
    else match lastBinding key (rowBindings tagRows) with
         | Some v => Some v
         | None =>
             if Object.inherited key then None
             else firstBinding key (rowBindings highlightRows)
         end.
Proof.
  destruct (allTruthy_fold_addRow tagRows [] eq_refl) as [Hall Hproto];
    [intros k v; discriminate|].
  rewrite get_fold_addRowIfUnset by assumption.
  rewrite get_fold_addRow by reflexivity. cbn [Object.get].
  destruct (String.eqb_spec key Object.proto) as [->|_]; [reflexivity|].
  now destruct (lastBinding key (rowBindings tagRows)).
Qed.

End TagsFacts.

(** C7. The merge loses a tree row keyed [__proto__]: on a page whose tags
    section binds [__proto__] and [level], and whose highlight rows bind
    [__proto__] too, the key is bound in both row sets, yet the mapping
    holds [level] only, because the assignment [tags[__proto__] = value]
    creates no property. *)
Theorem proto_tag_row_is_lost :
  lastBinding "__proto__"
    (rowBindings (D := Sample.dom)
       [Sample.row 10 "__proto__" "x"; Sample.row 20 "level" "error"])
  = Some "x"
  /\ firstBinding "__proto__"
       (rowBindings (D := Sample.dom) [Sample.row 30 "__proto__" "y"])
     = Some "y"
  /\ readTags (D := Sample.dom) Pages.protoPage = Some [("level", "error")]
  /\ (forall tags,
        readTags (D := Sample.dom) Pages.protoPage = Some tags ->
        Object.get tags "__proto__" = None).
Proof.
  split; [reflexivity|]. split; [reflexivity|]. split; [reflexivity|].
  intros tags Hread. vm_compute in Hread. now injection Hread as <-.
Qed.

(** X27. On a page with a tags section, a key other than [__proto__]
    that a tag tree row binds is mapped to the value of the tree rows (the
    last such row), whatever the highlight rows show for it. A key that no
    tree row binds is mapped to the value of its first highlight row,
    unless it names a member of [Object.prototype]; such a key is never
    taken from a highlight row. The mapping holds nothing else. *)
Theorem primary_tag_rows_win :
  forall {D : Dom} (document tagsSection : Node),
    querySelector document
      (SelOr (SelAnd (SelTag "section") (SelId "tags"))
             (SelAttr "data-test-id" "tags")) = Some tagsSection ->
    forall (key : string),
      let primary :=
        rowBindings
          (querySelectorAll tagsSection
             (SelAttr "data-test-id" "tag-tree-row")) in
      let highlight :=
        rowBindings
          (querySelectorAll document
             (SelAttr "data-test-id" "highlight-tag-row")) in
      (forall value,
         key <> Object.proto ->
         lastBinding key primary = Some value ->
         exists tags,
           readTags document = Some tags
           /\ Object.get tags key = Some value)
      /\ (forall value,
            Object.inherited key = false ->
            ~ In key (map fst primary) ->
            firstBinding key highlight = Some value ->
            exists tags,
              readTags document = Some tags
              /\ Object.get tags key = Some value)
      /\ (forall tags value,
            readTags document = Some tags ->
            Object.get tags key = Some value ->
            key <> Object.proto
            /\ (lastBinding key primary = Some value
                \/ (~ In key (map fst primary)
                    /\ Object.inherited key = false
                    /\ firstBinding key highlight = Some value))).
Proof.
  intros D document tagsSection Hsection key primary highlight.
  unfold readTags. rewrite Hsection. cbv zeta.
  pose proof (get_merged
                (querySelectorAll tagsSection
                   (SelAttr "data-test-id" "tag-tree-row"))
                (querySelectorAll document
                   (SelAttr "data-test-id" "highlight-tag-row")) key)
    as Hget.
  fold primary in Hget. fold highlight in Hget.
  split; [|split].
  - intros value Hkey Hprimary.
    apply String.eqb_neq in Hkey. rewrite Hkey, Hprimary in Hget.
    eexists. split; [|exact Hget].
    exact (nonEmptyOrNull_get _ _ _ Hget).
  - intros value Hinh Hnot Hhighlight.
    apply lastBinding_None in Hnot.
    replace (String.eqb key Object.proto) with false in Hget
      by (symmetry; apply String.eqb_neq; now apply inherited_not_proto).
    rewrite Hnot, Hinh, Hhighlight in Hget.
    eexists. split; [|exact Hget].
    exact (nonEmptyOrNull_get _ _ _ Hget).
  - intros tags value Hread Hvalue.
    apply nonEmptyOrNull_Some in Hread. subst tags.
    rewrite Hget in Hvalue.
    destruct (String.eqb_spec key Object.proto) as [->|Hkey];
      [discriminate|].
    split; [exact Hkey|].
    destruct (lastBinding key primary) as [v|] eqn:E.
    + left. exact Hvalue.
    + right. split; [now apply lastBinding_None|].
      destruct (Object.inherited key); [discriminate | now split].
Qed.

Lemma primary_tag_rows_win_witness :
  exists tags,
    readTags (D := Sample.dom) Sample.collidingPage = Some tags
    /\ Object.get tags "release" = Some "1.0".
Proof.
  apply (proj1 (primary_tag_rows_win (D := Sample.dom) Sample.collidingPage
                  _ eq_refl "release")).
  - discriminate.
  - reflexivity.
Defined.

(** ** The tags cache *)

Section CacheFacts.
Context {D : Dom}.

Lemma extractTags_cached (first later : Node) (m : TagsModule) :
  extractTags later (snd (extractTags first m)) = extractTags first m.
Proof.
  unfold extractTags.
  destruct (tagsCacheValid m) eqn:Hvalid; simpl.
  - now rewrite Hvalid.
  - reflexivity.
Qed.

Lemma extractTags_fresh (document : Node) (m : TagsModule) :
  freshFor document m ->
  extractTags document m = (readTags document, cachedFor document).
Proof. intros [-> | ->]; reflexivity. Qed.

Lemma extractEnvironment_fresh (document : Node) (m : TagsModule) :
  freshFor document m ->
  snd (extractEnvironment document m) = cachedFor document.
Proof.
  intros Hm. unfold extractEnvironment, bind.
  rewrite (extractTags_fresh _ _ Hm).
  now destruct (truthyTag (readTags document) "environment").
Qed.

Lemma extractRelease_fresh (document : Node) (m : TagsModule) :
  freshFor document m ->
  snd (extractRelease document m) = cachedFor document.
Proof.
  intros Hm. unfold extractRelease, bind.
  rewrite (extractTags_fresh _ _ Hm).
  now destruct (truthyTag (readTags document) "release").
Qed.

Lemma extractLevel_fresh (document : Node) (m : TagsModule) :
  freshFor document m ->
  snd (extractLevel document m) = cachedFor document.
Proof.
  intros Hm. unfold extractLevel, bind.
  rewrite (extractTags_fresh _ _ Hm).
  destruct (truthyTag (readTags document) "level"); [reflexivity|].
  destruct (querySelector document _) as [levelIndicator|]; [|reflexivity].
  now destruct (querySelector levelIndicator _).
Qed.

Lemma extractRoute_fresh (document : Node) (m : TagsModule) :
  freshFor document m ->
  freshFor document (snd (extractRoute document m)).
Proof.
  intros Hm. unfold extractRoute, bind.
  match goal with
  | |- context [match ?x with Some text => ret (Some text) | None => _ end] =>
      destruct x
  end; [exact Hm|].
  rewrite (extractTags_fresh _ _ Hm).
  destruct (truthyTag (readTags document) "transaction");
    [right; reflexivity|].
  destruct (truthyTag (readTags document) "url"); right; reflexivity.
Qed.

End CacheFacts.

(** The aggregator leaves the tags of the page it runs on, in its result
    and in the cache. *)
Lemma extractAllData_tags {D : Dom} {P : PageExtractors} (document : Node)
  (m : TagsModule) :
  SentryIssueData.tags (fst (extractAllData document m)) = readTags document
  /\ snd (extractAllData document m) = cachedFor document.
Proof.
  unfold extractAllData, bind, clearTagsCache. cbv iota beta.
  assert (H0 : freshFor document
                 {| tagsCache := None; tagsCacheValid := false |})
    by (left; reflexivity).
  pose proof (extractRoute_fresh document _ H0) as H1.
  destruct (extractRoute document _) as [route m1]. simpl in H1.
  cbv beta iota.
  pose proof (extractEnvironment_fresh document _ H1) as H2.
  destruct (extractEnvironment document m1) as [environment m2].
  simpl in H2. subst m2. cbv beta iota.
  assert (Hc : freshFor document (cachedFor document))
    by (right; reflexivity).
  pose proof (extractRelease_fresh document _ Hc) as H3.
  destruct (extractRelease document (cachedFor document)) as [release m3].
  simpl in H3. subst m3. cbv beta iota.
  pose proof (extractLevel_fresh document _ Hc) as H4.
  destruct (extractLevel document (cachedFor document)) as [level m4].
  simpl in H4. subst m4. cbv beta iota.
  rewrite (extractTags_fresh document _ Hc).
  split; reflexivity.
Qed.

(** C6. A second call of the tags extractor with no clear in between
    returns what the first call returned and leaves the cache as it was,
    whatever the page shows by then. After [clearTagsCache] the next call
    reads the page: whatever the cache held, its result binds every key
    other than [__proto__] that a tag tree row of the page binds to the
    value of the last such row. The aggregator clears the cache first, so
    its result never depends on the cache left by an earlier pass and its
    tags are those of the page it runs on. *)
Theorem tags_cache_lifecycle :
  forall {D : Dom} {P : PageExtractors} (first later : Node)
         (m : TagsModule),
    extractTags later (snd (extractTags first m)) = extractTags first m
    /\ extractTags later (snd (clearTagsCache m))
       = (readTags later, cachedFor later)
    /\ (forall (tagsSection : Node) (key value : string),
          querySelector later
            (SelOr (SelAnd (SelTag "section") (SelId "tags"))
                   (SelAttr "data-test-id" "tags")) = Some tagsSection ->
          key <> Object.proto ->
          lastBinding key
            (rowBindings
               (querySelectorAll tagsSection
                  (SelAttr "data-test-id" "tag-tree-row")))
          = Some value ->
          exists tags,
            fst (extractTags later (snd (clearTagsCache m))) = Some tags
            /\ Object.get tags key = Some value)
    /\ extractAllData later m = extractAllData later initialTagsModule
    /\ SentryIssueData.tags (fst (extractAllData later m)) = readTags later
    /\ snd (extractAllData later m) = cachedFor later.
Proof.
  intros D P first later m.
  split; [apply extractTags_cached|].
  split; [reflexivity|].
  split; [|split; [reflexivity | apply extractAllData_tags]].
  intros tagsSection key value Hsection Hkey Hrow.
  cbn [clearTagsCache snd extractTags tagsCacheValid fst].
  unfold readTags. rewrite Hsection. cbv zeta.
  pose proof (get_merged
                (querySelectorAll tagsSection
                   (SelAttr "data-test-id" "tag-tree-row"))
                (querySelectorAll later
                   (SelAttr "data-test-id" "highlight-tag-row")) key)
    as Hget.
  apply String.eqb_neq in Hkey. rewrite Hkey, Hrow in Hget.
  eexists. split; [|exact Hget].
  exact (nonEmptyOrNull_get _ _ _ Hget).
Qed.

(** On the sample page, with a cache left valid by an earlier pass: once
    the cache is cleared the release is read from the page. *)
Lemma tags_cache_lifecycle_witness :
  exists tags,
    fst (extractTags (D := Sample.dom) Sample.collidingPage
           (snd (clearTagsCache Sample.staleCache)))
    = Some tags
    /\ Object.get tags "release" = Some "1.0".
Proof.
  apply (proj1 (proj2 (proj2
           (tags_cache_lifecycle (D := Sample.dom) (P := noExtractors)
              Sample.collidingPage Sample.collidingPage Sample.staleCache)))
           _ "release" "1.0" eq_refl).
  - discriminate.
  - reflexivity.
Defined.

(** On the sample page: a cache left valid by an earlier pass answers a
    direct call, and the aggregator discards it. *)
Example stale_cache_on_sample_page :
  fst (extractTags (D := Sample.dom) Sample.collidingPage Sample.staleCache)
  = Some [("release", "0.9")]
  /\ SentryIssueData.tags
       (fst (extractAllData (D := Sample.dom) (P := noExtractors)
               Sample.collidingPage Sample.staleCache))
     = Some [("release", "1.0"); ("level", "error"); ("os", "linux")]
  /\ SentryIssueData.release
       (fst (extractAllData (D := Sample.dom) (P := noExtractors)
               Sample.collidingPage Sample.staleCache))
     = Some "1.0".
Proof. repeat split; reflexivity. Qed.

(** ** Structured values *)

Section ValueFacts.
Context {D : Dom}.

Lemma parseFloat_NaN_iff (text : string) :
  parseFloat text = NaN <-> scanFloat text = None.
Proof.
  unfold parseFloat. split.
  - destruct (scanFloat text) as [[num rest]|] eqn:E; [|reflexivity].
    intros ->. exfalso. revert E. unfold scanFloat.
    destruct (parseSign (Js.trimStart text)) as [neg u].
    destruct (stripPrefix "Infinity" u); [discriminate|].
    destruct (Js.spanDigits u) as [ip r1].
    destruct (match r1 with
              | String "." r => Js.spanDigits r
              | _ => (EmptyString, r1)
              end) as [fp r2].
    destruct (orb _ _); [|discriminate].
    destruct (scanExponent r2). discriminate.
  - now intros ->.
Qed.

End ValueFacts.

Section NumberMarker.
Context {D : Dom}.

Lemma parseFloat_scan (text : string) (num : number) (rest : string) :
  scanFloat text = Some (num, rest) ->
  parseFloat text = num /\ Number.isNaN num = false.
Proof.
  intros Hscan. unfold parseFloat. rewrite Hscan. split; [reflexivity|].
  destruct num; [|reflexivity|reflexivity].
  assert (H : parseFloat text = NaN) by (unfold parseFloat; now rewrite Hscan).
  apply parseFloat_NaN_iff in H. congruence.
Qed.

Lemma extractStructuredValue_number (fuel : nat) (element numberEl : Node)
  (text : string) :
  querySelector element
    (SelAttr "data-sentry-component" "CollapsibleValue") = None ->
  querySelector element (SelAttr "data-test-id" "value-number")
  = Some numberEl ->
  textContent numberEl = Some text ->
  extractStructuredValue fuel element
  = Some (if Number.isNaN (parseFloat (Js.trim text))
          then JString (Js.trim text)
          else JNumber (parseFloat (Js.trim text))).
Proof.
  intros Hnone Hnumber Htext. unfold extractStructuredValue.
  rewrite Hnone, Hnumber. unfold trimmedText. rewrite Htext. reflexivity.
Qed.

Lemma parseValueElement_number (valueEl : Node) (text : string) :
  getAttribute valueEl "data-test-id" = Some "value-number" ->
  textContent valueEl = Some text ->
  parseValueElement valueEl
  = if Number.isNaN (parseFloat (Js.trim text))
    then JString (Js.trim text)
    else JNumber (parseFloat (Js.trim text)).
Proof.
  intros Hattr Htext. unfold parseValueElement, trimmedText.
  rewrite Hattr, Htext. reflexivity.
Qed.

End NumberMarker.

(** C8 (amended). On an element whose value is marked as a number and
    which holds no composite value (that marker is looked at first), the
    structured-value extractor returns the number 42 for the text [42];
    it returns the number the text starts with whenever there is one, so
    [12abc] gives 12; and it returns the trimmed text itself, as a string,
    exactly when the text does not start with a number. The result is
    never [NaN]. The same holds for [parseValueElement] on an element
    whose [data-test-id] is [value-number]. *)
Theorem number_marker_values :
  forall {D : Dom},
    (forall (fuel : nat) (element numberEl : Node) (text : string),
       querySelector element
         (SelAttr "data-sentry-component" "CollapsibleValue") = None ->
       querySelector element (SelAttr "data-test-id" "value-number")
       = Some numberEl ->
       textContent numberEl = Some text ->
       (Js.trim text = "42" ->
        extractStructuredValue fuel element
        = Some (JNumber (Decimal false 42 0)))
       /\ (forall num rest,
             scanFloat (Js.trim text) = Some (num, rest) ->
             extractStructuredValue fuel element = Some (JNumber num))
       /\ (scanFloat (Js.trim text) = None ->
           extractStructuredValue fuel element
           = Some (JString (Js.trim text)))
       /\ extractStructuredValue fuel element <> Some (JNumber NaN))
    /\ (forall (valueEl : Node) (text : string),
          getAttribute valueEl "data-test-id" = Some "value-number" ->
          textContent valueEl = Some text ->
          (Js.trim text = "42" ->
           parseValueElement valueEl = JNumber (Decimal false 42 0))
          /\ (forall num rest,
                scanFloat (Js.trim text) = Some (num, rest) ->
                parseValueElement valueEl = JNumber num)
          /\ (scanFloat (Js.trim text) = None ->
              parseValueElement valueEl = JString (Js.trim text))
          /\ parseValueElement valueEl <> JNumber NaN).
Proof.
  intros D.
  assert (Hcases : forall text (result : JsValue),
    result = (if Number.isNaN (parseFloat (Js.trim text))
              then JString (Js.trim text)
              else JNumber (parseFloat (Js.trim text))) ->
    (Js.trim text = "42" -> result = JNumber (Decimal false 42 0))
    /\ (forall num rest,
          scanFloat (Js.trim text) = Some (num, rest) ->
          result = JNumber num)
    /\ (scanFloat (Js.trim text) = None -> result = JString (Js.trim text))
    /\ result <> JNumber NaN).
  { intros text result ->. repeat split.
    - intros ->. reflexivity.
    - intros num rest Hscan.
      destruct (parseFloat_scan _ _ _ Hscan) as [-> ->]. reflexivity.
    - intros Hscan. apply parseFloat_NaN_iff in Hscan. now rewrite Hscan.
    - destruct (parseFloat (Js.trim text)) eqn:E; simpl; congruence. }
  split.
  - intros fuel element numberEl text Hnone Hnumber Htext.
    destruct (Hcases text
                (if Number.isNaN (parseFloat (Js.trim text))
                 then JString (Js.trim text)
                 else JNumber (parseFloat (Js.trim text))) eq_refl)
      as [H42 [Hnum [Htxt Hnan]]].
    rewrite (extractStructuredValue_number fuel element numberEl text
               Hnone Hnumber Htext).
    repeat split.
    + intros H. now rewrite (H42 H).
    + intros num rest H. now rewrite (Hnum num rest H).
    + intros H. now rewrite (Htxt H).
    + intros [= H]. now apply Hnan.
  - intros valueEl text Hattr Htext.
    apply Hcases. now apply parseValueElement_number.
Qed.

Lemma number_marker_values_witness :
  extractStructuredValue (D := Sample.dom) 0 (Sample.numberCell "42")
  = Some (JNumber (Decimal false 42 0))
  /\ parseValueElement (D := Sample.dom)
       (Sample.leaf 1 "abc" [("data-test-id", "value-number")])
     = JString "abc".
Proof.
  split.
  - apply (proj1 (proj1 (number_marker_values (D := Sample.dom))
                    0 (Sample.numberCell "42") _ "42"
                    eq_refl eq_refl eq_refl)).
    reflexivity.
  - apply (proj1 (proj2 (proj2
             (proj2 (number_marker_values (D := Sample.dom))
                (Sample.leaf 1 "abc" [("data-test-id", "value-number")])
                "abc" eq_refl eq_refl)))).
    reflexivity.
Defined.

(** C8 as the specification states it fails on the text [12abc]: it is
    not a number, its element is marked as a number, and the extractor
    returns the number 12 instead of the text. *)
Lemma number_marker_counterexample :
  querySelector (Dom := Sample.dom) (Sample.numberCell "12abc")
    (SelAttr "data-test-id" "value-number")
  = Some (Sample.leaf 1 "12abc" [("data-test-id", "value-number")])
  /\ numericText "12abc" = false
  /\ extractStructuredValue (D := Sample.dom) 0 (Sample.numberCell "12abc")
     = Some (JNumber (Decimal false 12 0))
  /\ extractStructuredValue (D := Sample.dom) 0 (Sample.numberCell "12abc")
     <> Some (JString "12abc")
  /\ parseValueElement (D := Sample.dom)
       (Sample.leaf 1 "12abc" [("data-test-id", "value-number")])
     <> JString "12abc".
Proof.
  repeat split; try reflexivity; vm_compute; discriminate.
Qed.

(* ================================================================= *)
(** * Further properties *)

(** ** The formatter: frames *)

Lemma frameBlock_shape (frame : StackFrame.t) (index : nat) :
  frameBlock frame index
  = frameHead frame index
    ++ (if Js.truthy (StackFrame.context frame)
        then "      " ++ Js.substring0 200 (StackFrame.context frame)
             ++ Js.LF
        else "").
Proof.
  unfold frameBlock, formatFrame, frameHead. cbv zeta.
  destruct (StackFrame.isSystem frame),
    (Js.truthy (StackFrame.filename frame)),
    (Js.truthy (StackFrame.lineNo frame)),
    (Js.truthy (StackFrame.context frame));
    simpl; repeat rewrite append_assoc; simpl;
    repeat rewrite append_nil_r; reflexivity.
Qed.

Lemma formatFrame_appends (output : string) (frame : StackFrame.t)
  (index : nat) :
  formatFrame output frame index = output ++ frameBlock frame index.
Proof.
  unfold frameBlock, formatFrame. cbv zeta.
  destruct (Js.truthy (StackFrame.context frame));
    simpl; repeat rewrite append_assoc; reflexivity.
Qed.

Lemma forEachIndexed_frames (frames : list StackFrame.t) (index : nat)
  (output : string) :
  forEachIndexed formatFrame frames index output
  = output
    ++ joinAll (map (fun p => frameBlock (snd p) (fst p))
                  (numbered index frames)).
Proof.
  revert index output.
  induction frames as [|f frames IH]; intros index output; simpl.
  - now rewrite append_nil_r.
  - now rewrite IH, formatFrame_appends, append_assoc.
Qed.

Lemma numbered_nth {A} (xs : list A) (start i : nat) (x : A) :
  In (i, x) (numbered start xs) ->
  start <= i /\ nth_error xs (i - start) = Some x.
Proof.
  revert start. induction xs as [|y xs IH]; intros start; simpl; [easy|].
  intros [[= <- <-]|Hin].
  - split; [lia|]. now rewrite Nat.sub_diag.
  - apply IH in Hin. destruct Hin as [Hle Hnth]. split; [lia|].
    replace (i - start) with (S (i - S start)) by lia. exact Hnth.
Qed.

(** X1. A stack trace without raw text and with frames is rendered as
    the optional exception line and one fenced block that holds the
    frames in their order; the frame at position [i] (from 0) opens with
    its marker, two spaces for a system frame and an arrow for an
    application frame, and the number [i + 1]. *)
Theorem stack_frames_numbered_in_order :
  forall (stackTrace : StackTrace.t) (frames : list StackFrame.t),
    Js.truthyOpt (StackTrace.raw stackTrace) = false ->
    StackTrace.frames stackTrace = Some frames ->
    frames <> [] ->
    formatStackTrace (Some stackTrace)
    = exceptionLine stackTrace ++ fence ++ Js.LF
      ++ joinAll (map (fun p => frameBlock (snd p) (fst p))
                    (numbered 0 frames))
      ++ fence
    /\ forall (i : nat) (frame : StackFrame.t),
         In (i, frame) (numbered 0 frames) ->
         nth_error frames i = Some frame
         /\ exists rest,
              frameBlock frame i
              = (if StackFrame.isSystem frame then "  " else "→ ")
                ++ Js.ofNat (i + 1) ++ ". " ++ rest.
Proof.
  intros [frames0 raw exc] frames Hraw Hframes Hne. simpl in *. subst frames0.
  split.
  - unfold formatStackTrace, exceptionLine. simpl. rewrite Hraw.
    destruct frames as [|f frames]; [now elim Hne|].
    rewrite forEachIndexed_frames.
    destruct exc as [v|]; simpl.
    + destruct (Js.truthy v); simpl; repeat rewrite append_assoc;
        reflexivity.
    + repeat rewrite append_assoc. reflexivity.
  - intros i frame Hin. apply numbered_nth in Hin.
    destruct Hin as [_ Hnth]. rewrite Nat.sub_0_r in Hnth.
    split; [exact Hnth|].
    rewrite frameBlock_shape. unfold frameHead.
    eexists. repeat rewrite append_assoc. reflexivity.
Qed.

Lemma stack_frames_numbered_in_order_witness :
  formatStackTrace (Some Pages.twoFrames)
  = exceptionLine Pages.twoFrames ++ fence ++ Js.LF
    ++ joinAll (map (fun p => frameBlock (snd p) (fst p))
                  (numbered 0 [Sample.frame; Pages.systemFrame]))
    ++ fence.
Proof.
  apply (proj1 (stack_frames_numbered_in_order Pages.twoFrames
                  [Sample.frame; Pages.systemFrame]
                  eq_refl eq_refl
                  (fun H => @eq_ind _ [Sample.frame; Pages.systemFrame]
                              (fun l => match l with
                                        | [] => False
                                        | _ :: _ => True
                                        end) I [] H))).
Defined.

(** X2. A frame without context text is rendered as one line. A frame
    with context text gets a second line, indented by six spaces, that
    shows the context cut to 200 characters: whole when it has at most
    200, and exactly its first 200 otherwise. *)
Theorem frame_context_capped :
  forall (frame : StackFrame.t) (index : nat),
    (StackFrame.context frame = "" ->
     frameBlock frame index = frameHead frame index)
    /\ (StackFrame.context frame <> "" ->
        exists shown,
          frameBlock frame index
          = frameHead frame index ++ "      " ++ shown ++ Js.LF
          /\ (String.length (StackFrame.context frame) <= 200 ->
              shown = StackFrame.context frame)
          /\ (200 < String.length (StackFrame.context frame) ->
              String.length shown = 200
              /\ exists cut, StackFrame.context frame = shown ++ cut)).
Proof.
  intros frame index. rewrite frameBlock_shape. split.
  - intros ->. simpl. now rewrite append_nil_r.
  - intros Hne.
    replace (Js.truthy (StackFrame.context frame)) with true
      by (destruct (StackFrame.context frame); [now elim Hne | reflexivity]).
    exists (Js.substring0 200 (StackFrame.context frame)).
    split; [reflexivity|]. split.
    + intros Hle. now apply substring0_short.
    + intros Hlt. apply substring0_long. lia.
Qed.

Lemma frame_context_capped_witness :
  exists shown,
    frameBlock Pages.systemFrame 1
    = frameHead Pages.systemFrame 1 ++ "      " ++ shown ++ Js.LF
    /\ (String.length (StackFrame.context Pages.systemFrame) <= 200 ->
        shown = StackFrame.context Pages.systemFrame)
    /\ (200 < String.length (StackFrame.context Pages.systemFrame) ->
        String.length shown = 200
        /\ exists cut, StackFrame.context Pages.systemFrame = shown ++ cut).
Proof.
  apply (proj2 (frame_context_capped Pages.systemFrame 1)).
  vm_compute. discriminate.
Defined.

(** ** The formatter: breadcrumbs, lists and contexts *)

(** X3. A breadcrumb list of at most fifteen entries that is not the raw
    fallback is rendered whole, one bullet per entry in the order of the
    list; the bullet of an entry is its time, category and level followed
    by the first 100 units of its message and a line feed. *)
Theorem breadcrumbs_short_list_rendered_whole :
  forall breadcrumbs : list Breadcrumb.t,
    rawFallback breadcrumbs = false ->
    List.length breadcrumbs <= 15 ->
    formatBreadcrumbs (Some breadcrumbs)
    = joinAll (map crumbBullet breadcrumbs).
Proof.
  intros breadcrumbs Hraw Hle. rewrite (formatBreadcrumbs_crumbs _ Hraw).
  unfold sliceLast.
  replace (List.length breadcrumbs - 15) with 0 by lia. reflexivity.
Qed.

Lemma breadcrumbs_short_list_rendered_whole_witness :
  formatBreadcrumbs (Some [Sample.crumb "a"; Sample.crumb "b"])
  = joinAll (map crumbBullet [Sample.crumb "a"; Sample.crumb "b"]).
Proof.
  apply (breadcrumbs_short_list_rendered_whole
           [Sample.crumb "a"; Sample.crumb "b"]).
  - reflexivity.
  - simpl. lia.
Defined.

Section MapValues.
Context {A B : Type}.
Variable f : A -> B.

Let onValue (kv : string * A) : string * B := (fst kv, f (snd kv)).
Let onIndexed (x : N * (string * A)) : N * (string * B) :=
  (fst x, onValue (snd x)).

Lemma insertIndexed_map_values (x : N * (string * A))
  (l : list (N * (string * A))) :
  Object.insertIndexed (onIndexed x) (map onIndexed l)
  = map onIndexed (Object.insertIndexed x l).
Proof.
  induction l as [|y l IH]; simpl; [reflexivity|].
  destruct (fst x <=? fst y)%N; simpl; [reflexivity | now rewrite IH].
Qed.

Lemma indexed_map_values (o : Obj A) :
  Object.indexed (map onValue o) = map onIndexed (Object.indexed o).
Proof.
  induction o as [|[k v] o IH]; simpl; [reflexivity|].
  destruct (Object.arrayIndex k) as [n|]; [|exact IH].
  rewrite IH. apply (insertIndexed_map_values (n, (k, v))).
Qed.

Lemma named_map_values (o : Obj A) :
  Object.named (map onValue o) = map onValue (Object.named o).
Proof.
  induction o as [|[k v] o IH]; simpl; [reflexivity|].
  destruct (Object.arrayIndex k); simpl; [exact IH | now rewrite IH].
Qed.

(** Enumeration depends on the keys only. *)
Lemma entries_map_values (o : Obj A) :
  Object.entries (map (fun kv => (fst kv, f (snd kv))) o)
  = map (fun kv => (fst kv, f (snd kv))) (Object.entries o).
Proof.
  unfold Object.entries.
  change (map (fun kv => (fst kv, f (snd kv))) o) with (map onValue o).
  rewrite indexed_map_values, named_map_values, map_app, !map_map.
  reflexivity.
Qed.

End MapValues.

Section ListFacts.
Context {NF : NumberFormat}.

Lemma fold_left_completion {A} (f : Completion string -> A -> Completion string)
  (g : A -> string) (l : list A) :
  (forall x out, In x l -> f (Normal out) x = Normal (out ++ g x)) ->
  forall out,
    fold_left f l (Normal out) = Normal (out ++ joinAll (map g l)).
Proof.
  induction l as [|x l IH]; intros Hf out; simpl.
  - now rewrite append_nil_r.
  - rewrite (Hf x out (or_introl eq_refl)).
    rewrite IH by (intros y o Hy; apply Hf; now right).
    now rewrite append_assoc.
Qed.

Lemma formatAsList_bullets (o : Obj string) :
  formatAsList (Some (asUnknown o))
  = Normal
      (joinAll (map (fun p => tagBullet (fst p) (snd p)) (Object.entries o))).
Proof.
  unfold formatAsList.
  assert (Hentries :
    Object.entries (asUnknown o)
    = map (fun kv => (fst kv, JString (snd kv))) (Object.entries o))
    by apply entries_map_values.
  destruct (Object.isEmpty (asUnknown o)) eqn:Hempty.
  - apply isEmpty_nil in Hempty. destruct o; [reflexivity | discriminate].
  - rewrite Hentries.
    rewrite (fold_left_completion _
               (fun kv : string * JsValue =>
                  "- **" ++ fst kv ++ ":** " ++ String_ (snd kv) ++ Js.LF)).
    + simpl. rewrite map_map. reflexivity.
    + intros [k v] out Hin. apply in_map_iff in Hin.
      destruct Hin as [[k' s] [[= <- <-] _]]. reflexivity.
Qed.

End ListFacts.

(** X4. A mapping from strings to strings, as the HTTP request and the
    user information are, is listed without throwing as one bullet per
    entry, the key in bold before the value, in the order in which the
    object enumerates its keys; [null] and the empty object give the
    empty text. *)
Theorem string_record_listed_as_bullets :
  forall {NF : NumberFormat} (o : Obj string),
    formatAsList (Some (asUnknown o))
    = Normal
        (joinAll
           (map (fun p => "- **" ++ fst p ++ ":** " ++ snd p ++ Js.LF)
              (Object.entries o)))
    /\ formatAsList None = Normal ""
    /\ formatAsList (Some []) = Normal "".
Proof.
  intros NF o. split; [|split; reflexivity].
  rewrite formatAsList_bullets. reflexivity.
Qed.

(** X5. The contexts are rendered without throwing as one block per
    context that has data: an empty line, the name in bold and the
    bullets of its entries. A context without data puts out nothing. *)
Theorem contexts_rendered_per_context :
  forall {NF : NumberFormat} (contexts : Obj (Obj string)),
    formatContexts (Some contexts)
    = Normal (joinAll (map contextBlock (Object.entries contexts)))
    /\ (forall name, contextBlock (name, []) = "").
Proof.
  intros NF contexts. split; [|reflexivity].
  unfold formatContexts.
  destruct (Object.isEmpty contexts) eqn:Hempty.
  - apply isEmpty_nil in Hempty. now subst contexts.
  - apply (fold_left_completion _ contextBlock).
    intros [name data] out _. unfold contextBlock, bindC. cbn [fst snd].
    destruct (Object.isEmpty data) eqn:Hdata; cbn [negb].
    + now rewrite append_nil_r.
    + rewrite formatAsList_bullets.
      now repeat rewrite append_assoc.
Qed.

(** ** The formatter: options, footer and empty sections *)

Section DocumentMore.
Context {NF : NumberFormat}.
Variable now : string.

Lemma pushBreadcrumbs_disabled (data : SentryIssueData.t)
  (include : option bool) (lines : list string) :
  FormatOptions.enabled include = false ->
  pushBreadcrumbs data include lines = lines.
Proof.
  intros Hoff. unfold pushBreadcrumbs. rewrite Hoff.
  now destruct (SentryIssueData.breadcrumbs data) as [[|b bs]|].
Qed.

Lemma join_app_last (sep a b : string) (l : list string) :
  l <> [] ->
  Js.join sep (l ++ [a; b]) = Js.join sep l ++ sep ++ a ++ sep ++ b.
Proof.
  induction l as [|x l IH]; intros Hne; [now elim Hne|].
  destruct l as [|y l].
  - reflexivity.
  - change (Js.join sep ((x :: y :: l) ++ [a; b]))
      with (x ++ sep ++ Js.join sep ((y :: l) ++ [a; b])).
    rewrite IH by discriminate.
    change (Js.join sep (x :: y :: l))
      with (x ++ sep ++ Js.join sep (y :: l)).
    now repeat rewrite append_assoc.
Qed.

End DocumentMore.

(** X6. Switching a section off gives the document of the same record
    without that data: breadcrumbs, tags and contexts each. A flag is on
    when the options do not have the property or have it [true], and off
    when they have it [false] or [undefined]. *)
Theorem disabled_section_equals_absent_data :
  forall {NF : NumberFormat} (now : string) (data : SentryIssueData.t)
         (options : FormatOptions.t),
    (FormatOptions.enabled
       (FormatOptions.resolved (FormatOptions.includeBreadcrumbs options))
     = false ->
     formatToJiraMarkdown now data options
     = formatToJiraMarkdown now (dropBreadcrumbs data) options)
    /\ (FormatOptions.enabled
          (FormatOptions.resolved (FormatOptions.includeTags options))
        = false ->
        formatToJiraMarkdown now data options
        = formatToJiraMarkdown now (dropTags data) options)
    /\ (FormatOptions.enabled
          (FormatOptions.resolved (FormatOptions.includeContexts options))
        = false ->
        formatToJiraMarkdown now data options
        = formatToJiraMarkdown now (dropContexts data) options)
    /\ (forall flag : OptionalFlag,
          FormatOptions.enabled (FormatOptions.resolved flag)
          = match flag with
            | None => true
            | Some None => false
            | Some (Some b) => b
            end).
Proof.
  intros NF now data options.
  split; [|split; [|split]].
  - intros Hoff.
    unfold formatToJiraMarkdown, documentLines, sectionLines. cbv zeta.
    rewrite !pushBreadcrumbs_disabled by exact Hoff.
    destruct data; reflexivity.
  - intros Hoff.
    unfold formatToJiraMarkdown, documentLines, sectionLines. cbv zeta.
    unfold pushTags. rewrite Hoff. cbn [andb].
    destruct data; reflexivity.
  - intros Hoff.
    unfold formatToJiraMarkdown, documentLines, sectionLines. cbv zeta.
    unfold pushContexts. rewrite Hoff. cbn [andb].
    destruct data; reflexivity.
  - intros [[[|]|]|]; reflexivity.
Qed.

Lemma disabled_section_equals_absent_data_witness :
  formatToJiraMarkdown (NF := Sample.integers) Sample.now Sample.fullRecord
    Pages.quietOptions
  = formatToJiraMarkdown (NF := Sample.integers) Sample.now
      (dropTags Sample.fullRecord) Pages.quietOptions.
Proof.
  apply (proj1 (proj2 (disabled_section_equals_absent_data
                         (NF := Sample.integers) Sample.now
                         Sample.fullRecord Pages.quietOptions))).
  reflexivity.
Defined.

(** X7. Every document the formatter returns ends with the footer: a
    rule and the line [*Extracted from Sentry on D*], where [D] is what
    the clock's ISO text shows before its first [T], its date. The
    formatter returns on every well-formed record whose tags have no
    built-in prefix. *)
Theorem markdown_ends_with_footer :
  forall {NF : NumberFormat} (now : string) (data : SentryIssueData.t)
         (options : FormatOptions.t),
    (wellFormed data -> ordinaryTags data ->
     exists text, formatToJiraMarkdown now data options = Normal text)
    /\ (forall text,
          formatToJiraMarkdown now data options = Normal text ->
          exists body,
            text = body ++ Js.LF ++ "---" ++ Js.LF
                   ++ "*Extracted from Sentry on "
                   ++ hd "" (Js.split "T" now) ++ "*")
    /\ (forall date time,
          Js.includes "T" date = false ->
          now = date ++ "T" ++ time ->
          hd "" (Js.split "T" now) = date).
Proof.
  intros NF now data options. split; [|split].
  - intros Hwf Hord. unfold formatToJiraMarkdown.
    destruct (documentLines_shape now data options Hwf Hord) as [later ->].
    eexists; reflexivity.
  - intros text. unfold formatToJiraMarkdown.
    destruct (documentLines now data options) as [lines| |] eqn:E;
      cbn [bindC]; try discriminate.
    intros [= <-]. apply documentLines_after in E.
    destruct E as [later ->].
    destruct (pushErrorMessage_extends data (overviewLines data))
      as [a1 Ha1].
    destruct (pushStackTrace_extends data
                (pushErrorMessage data (overviewLines data))) as [a2 Ha2].
    destruct (pushBreadcrumbs_extends data
                (FormatOptions.resolved
                   (FormatOptions.includeBreadcrumbs options))
                (pushStackTrace data
                   (pushErrorMessage data (overviewLines data))))
      as [a3 Ha3].
    rewrite Ha3, Ha2, Ha1, overviewLines_shape.
    unfold footerLines. rewrite app_assoc.
    eexists. rewrite join_app_last; [reflexivity|].
    repeat rewrite <- app_assoc. discriminate.
  - intros date time Hclean ->.
    change (date ++ "T" ++ time) with (date ++ String "T" time).
    now rewrite split_before.
Qed.

Lemma markdown_ends_with_footer_witness :
  exists text body,
    formatToJiraMarkdown (NF := Sample.integers) Sample.now
      Sample.fullRecord FormatOptions.empty
    = Normal text
    /\ text = body ++ Js.LF ++ "---" ++ Js.LF
              ++ "*Extracted from Sentry on "
              ++ hd "" (Js.split "T" Sample.now) ++ "*".
Proof.
  destruct (markdown_ends_with_footer (NF := Sample.integers) Sample.now
              Sample.fullRecord FormatOptions.empty)
    as [Hreturns [Hfooter _]].
  destruct Hreturns as [text Htext]; [reflexivity | reflexivity |].
  destruct (Hfooter text Htext) as [body Hbody].
  now exists text, body.
Defined.

(** X8. A stack trace that is not [null] always gets its section header,
    also when it has no exception value, no raw text and no frames: the
    section body is then the empty text, in every document the formatter
    returns. The formatter returns on every well-formed record whose tags
    have no built-in prefix. *)
Theorem empty_stack_trace_keeps_header :
  forall {NF : NumberFormat} (now : string) (data : SentryIssueData.t)
         (options : FormatOptions.t) (stackTrace : StackTrace.t),
    SentryIssueData.stackTrace data = Some stackTrace ->
    Js.truthyOpt (StackTrace.exceptionValue stackTrace) = false ->
    Js.truthyOpt (StackTrace.raw stackTrace) = false ->
    (StackTrace.frames stackTrace = None
     \/ StackTrace.frames stackTrace = Some []) ->
    formatStackTrace (Some stackTrace) = ""
    /\ (wellFormed data -> ordinaryTags data ->
        exists lines, documentLines now data options = Normal lines)
    /\ (forall lines,
          documentLines now data options = Normal lines ->
          exists before after,
            lines
            = (before ++ ["### Stack Trace"; ""; ""; ""] ++ after)%list).
Proof.
  intros NF now data options stackTrace Hst Hexc Hraw Hframes.
  assert (Hempty : formatStackTrace (Some stackTrace) = "").
  { unfold formatStackTrace. rewrite Hexc, Hraw.
    destruct Hframes as [-> | ->]; reflexivity. }
  split; [exact Hempty|]. split.
  - intros Hwf Hord.
    destruct (documentLines_shape now data options Hwf Hord) as [later ->].
    eexists; reflexivity.
  - intros lines E. apply documentLines_after in E.
    destruct E as [later ->].
    destruct (pushBreadcrumbs_extends data
                (FormatOptions.resolved
                   (FormatOptions.includeBreadcrumbs options))
                (pushStackTrace data (pushErrorMessage data
                                        (overviewLines data)))) as [a3 ->].
    unfold pushStackTrace. rewrite Hst, Hempty. unfold push.
    exists (pushErrorMessage data (overviewLines data)),
           (a3 ++ later ++ footerLines now)%list.
    now repeat rewrite <- app_assoc.
Qed.

Lemma empty_stack_trace_keeps_header_witness :
  exists lines before after,
    documentLines (NF := Sample.integers) Sample.now
      (Pages.withTrace Pages.emptyTrace) FormatOptions.empty
    = Normal lines
    /\ lines = (before ++ ["### Stack Trace"; ""; ""; ""] ++ after)%list.
Proof.
  destruct (empty_stack_trace_keeps_header (NF := Sample.integers)
              Sample.now (Pages.withTrace Pages.emptyTrace)
              FormatOptions.empty Pages.emptyTrace)
    as [_ [Hreturns Hheader]].
  - reflexivity.
  - reflexivity.
  - reflexivity.
  - left. reflexivity.
  - destruct Hreturns as [lines Hlines]; [exact I | exact I |].
    destruct (Hheader lines Hlines) as [before [after Hshape]].
    now exists lines, before, after.
Defined.

(** ** The formatter: additional data that cannot be serialized *)

Lemma forallb_false {A} (f : A -> bool) (l : list A) :
  forallb f l = false -> exists x, In x l /\ f x = false.
Proof.
  induction l as [|x l IH]; simpl; [discriminate|].
  destruct (f x) eqn:E; simpl.
  - intros H. destruct (IH H) as [y [Hin Hy]]. exists y. auto.
  - intros _. exists x. auto.
Qed.

Lemma sequence_throws {A} (l : list (Completion A)) :
  Forall (fun c => c <> AltersBuiltin) l ->
  In ThrowTypeError l -> JSON.sequence l = ThrowTypeError.
Proof.
  induction l as [|c l IH]; simpl; [easy|].
  intros Hall [->|Hin]; [reflexivity|].
  apply Forall_cons_iff in Hall. destruct Hall as [Hc Hall].
  destruct c; simpl; [now rewrite IH | reflexivity | now elim Hc].
Qed.

Section Throws.
Context {NF : NumberFormat}.

(** [JSON.stringify] throws on every value that holds a BigInt. *)
Lemma serialize_throws (gap : string) (v : JsValue) :
  jsonLike v = false ->
  forall indent, JSON.serialize gap indent v = ThrowTypeError.
Proof.
  induction v as [| | | | | |items IH|props IH] using JsValue_nested_ind;
    intros Hjson indent; simpl in *; try discriminate.
  - reflexivity.
  - destruct (forallb_false _ _ Hjson) as [x [Hin Hx]].
    rewrite Forall_forall in IH.
    rewrite sequence_throws; [reflexivity| |].
    + apply Forall_forall. intros c Hc. apply in_map_iff in Hc.
      destruct Hc as [y [<- Hy]]. destruct (jsonLike y) eqn:Ey.
      * destruct (serialize_normal gap y Ey (indent ++ gap)) as [r ->].
        discriminate.
      * rewrite (IH y Hy Ey). discriminate.
    + apply in_map_iff. exists x. split; [|exact Hin]. now apply IH.
  - destruct (forallb_false _ _ Hjson) as [[k x] [Hin Hx]].
    rewrite Forall_forall in IH. unfold JSON.sequenceProps.
    rewrite sequence_throws; [reflexivity| |].
    + apply Forall_forall. intros c Hc. apply in_map_iff in Hc.
      destruct Hc as [[k' c'] [<- Hc]]. apply (proj1 (entries_In _ _)) in Hc.
      apply in_map_iff in Hc. destruct Hc as [[k0 y] [[= <- <-] Hy]].
      cbn [fst snd]. destruct (jsonLike y) eqn:Ey.
      * destruct (serialize_normal gap y Ey (indent ++ gap)) as [r ->].
        discriminate.
      * rewrite (IH (k0, y) Hy Ey). discriminate.
    + apply in_map_iff. exists (k, ThrowTypeError). split; [reflexivity|].
      apply entries_In. apply in_map_iff. exists (k, x).
      split; [|exact Hin]. simpl. f_equal. now apply (IH (k, x)).
Qed.

(** A step of the list returns or throws. *)
Lemma listStep_settles (out : string) (kv : string * JsValue) :
  listStep (Normal out) kv <> AltersBuiltin.
Proof.
  destruct kv as [k v]. unfold listStep. cbn [fst snd bindC].
  destruct (typeofObject v); [|discriminate].
  unfold JSON.stringify. destruct (jsonLike v) eqn:Hjson.
  - destruct (serialize_normal "" v Hjson "") as [r ->]. discriminate.
  - rewrite (serialize_throws "" v Hjson ""). discriminate.
Qed.

Lemma listStep_throws (out : string) (kv : string * JsValue) :
  listStep (Normal out) kv = ThrowTypeError
  <-> unserializableEntry kv = true.
Proof.
  destruct kv as [k v]. unfold listStep, unserializableEntry. cbn [fst snd bindC].
  destruct (typeofObject v); cbn [andb].
  - unfold JSON.stringify. destruct (jsonLike v) eqn:Hjson; cbn [negb].
    + destruct (serialize_normal "" v Hjson "") as [r ->]. simpl.
      split; discriminate.
    + rewrite (serialize_throws "" v Hjson ""). simpl. tauto.
  - simpl. split; discriminate.
Qed.

Lemma listLoop_sticky (l : list (string * JsValue)) :
  fold_left listStep l ThrowTypeError = ThrowTypeError.
Proof. induction l as [|x l IH]; cbn [fold_left]; auto. Qed.

Lemma listLoop_throws (l : list (string * JsValue)) (out : string) :
  fold_left listStep l (Normal out) = ThrowTypeError
  <-> exists kv, In kv l /\ unserializableEntry kv = true.
Proof.
  revert out. induction l as [|x l IH]; intros out; cbn [fold_left].
  - split; [discriminate | intros [kv [[] _]]].
  - destruct (listStep (Normal out) x) as [out'| |] eqn:Hstep.
    + rewrite IH. split.
      * intros [kv [Hin Hbad]]. exists kv. split; [now right | exact Hbad].
      * intros [kv [[->|Hin] Hbad]]; [|exists kv; auto].
        apply (listStep_throws out) in Hbad. congruence.
    + rewrite listLoop_sticky. split; [|reflexivity].
      intros _. exists x. split; [now left|].
      now apply (listStep_throws out).
    + now elim (listStep_settles out x).
Qed.

Lemma formatAsList_throws (o : Obj JsValue) :
  formatAsList (Some o) = ThrowTypeError
  <-> exists kv, In kv o /\ unserializableEntry kv = true.
Proof.
  unfold formatAsList.
  destruct (Object.isEmpty o) eqn:Hempty.
  - apply isEmpty_nil in Hempty. subst o.
    split; [discriminate | intros [kv [[] _]]].
  - change (fold_left _ (Object.entries o) (Normal ""))
      with (fold_left listStep (Object.entries o) (Normal "")).
    rewrite listLoop_throws. split; intros [kv [Hin Hbad]]; exists kv;
      (split; [now apply entries_In | exact Hbad]).
Qed.

End Throws.

(** X9. [formatAdditionalData] throws exactly when some entry of the
    data is an object or an array that [JSON.stringify] cannot serialize
    (here: one that holds a BigInt): the fallback to the bullet list
    serializes such an entry again, outside any [try]. Non-empty data
    that can be serialized is rendered as one fenced [json] block that
    holds [JSON.stringify(data, null, 2)]. *)
Theorem additional_data_throws_exactly_when_nested :
  forall {NF : NumberFormat} (data : Obj JsValue),
    (formatAdditionalData (Some data) = ThrowTypeError
     <-> exists kv, In kv data /\ unserializableEntry kv = true)
    /\ (data <> [] ->
        forallb (fun kv => jsonLike (snd kv)) data = true ->
        exists json,
          JSON.stringifyPretty (JObject data) = Normal (Some json)
          /\ formatAdditionalData (Some data)
             = Normal (fence ++ "json" ++ Js.LF ++ json ++ Js.LF ++ fence)).
Proof.
  intros NF data. split.
  - unfold formatAdditionalData.
    destruct (Object.isEmpty data) eqn:Hempty.
    + apply isEmpty_nil in Hempty. subst data.
      split; [discriminate | intros [kv [[] _]]].
    + destruct (jsonLike (JObject data)) eqn:Hjson.
      * unfold JSON.stringifyPretty.
        destruct (serialize_normal "  " (JObject data) Hjson "") as [r ->].
        simpl. split; [discriminate|].
        intros [kv [Hin Hbad]]. exfalso.
        simpl in Hjson. rewrite forallb_forall in Hjson.
        unfold unserializableEntry in Hbad.
        rewrite (Hjson kv Hin) in Hbad.
        destruct (typeofObject (snd kv)); discriminate.
      * unfold JSON.stringifyPretty.
        rewrite (serialize_throws "  " (JObject data) Hjson "").
        simpl. apply formatAsList_throws.
  - intros Hne Hjson. unfold formatAdditionalData.
    replace (Object.isEmpty data) with false
      by (symmetry; destruct (Object.isEmpty data) eqn:E; [|reflexivity];
          apply isEmpty_nil in E; contradiction).
    unfold JSON.stringifyPretty. simpl JSON.serialize.
    destruct (JSON.sequenceProps _) as [parts| |] eqn:Hparts.
    + simpl. eexists. split; reflexivity.
    + exfalso.
      pose proof (serialize_normal "  " (JObject data) Hjson "") as [r Hr].
      simpl in Hr. rewrite Hparts in Hr. discriminate.
    + exfalso.
      pose proof (serialize_normal "  " (JObject data) Hjson "") as [r Hr].
      simpl in Hr. rewrite Hparts in Hr. discriminate.
Qed.

Lemma additional_data_throws_exactly_when_nested_witness :
  formatAdditionalData (NF := Sample.integers) (Some Pages.nestedBigInt)
  = ThrowTypeError.
Proof.
  apply (proj2 (proj1 (additional_data_throws_exactly_when_nested
                         (NF := Sample.integers) Pages.nestedBigInt))).
  exists ("ids", JArray [JBigInt 7]). split.
  - simpl. right. left. reflexivity.
  - reflexivity.
Defined.

(** ** The tags extractor: what it returns *)

Section TagsMore.
Context {D : Dom}.

Lemma goodTags_store (tags : Obj string) (k v : string) :
  goodTags tags -> Js.truthy k = true -> Js.truthy v = true ->
  goodTags (Object.store tags k v).
Proof.
  intros [Hnodup Hgood] Hk Hv. split; [now apply store_NoDup|].
  intros k' v' Hin. apply In_store in Hin.
  destruct Hin as [[= -> ->]|Hin]; [auto | now apply Hgood].
Qed.

Lemma goodTags_addRow (tags : Obj string) (row : Node) :
  goodTags tags -> goodTags (addRow tags row).
Proof.
  intros Hgood. unfold addRow.
  destruct (rowKeyValue row) as [[key value]|]; [|exact Hgood].
  destruct (Js.truthy key) eqn:Hk, (Js.truthy value) eqn:Hv; simpl;
    try exact Hgood.
  now apply goodTags_store.
Qed.

Lemma goodTags_addRowIfUnset (tags : Obj string) (row : Node) :
  goodTags tags -> goodTags (addRowIfUnset tags row).
Proof.
  intros Hgood. unfold addRowIfUnset.
  destruct (rowKeyValue row) as [[key value]|]; [|exact Hgood].
  destruct (Js.truthy key) eqn:Hk, (Js.truthy value) eqn:Hv; simpl;
    try exact Hgood.
  destruct (negb _); [now apply goodTags_store | exact Hgood].
Qed.

Lemma goodTags_fold (f : Obj string -> Node -> Obj string)
  (rows : list Node) (tags : Obj string) :
  (forall t r, goodTags t -> goodTags (f t r)) ->
  goodTags tags -> goodTags (fold_left f rows tags).
Proof.
  intros Hf. revert tags.
  induction rows as [|row rows IH]; intros tags Hgood; simpl; auto.
Qed.

Lemma readTags_good (document : Node) (tags : Obj string) :
  readTags document = Some tags -> tags <> [] /\ goodTags tags.
Proof.
  assert (Hnil : goodTags []).
  { split; [constructor | intros k v []]. }
  unfold readTags.
  destruct (querySelector document _) as [tagsSection|]; intros Hread;
    pose proof (nonEmptyOrNull_Some _ _ Hread) as ->;
    (split;
     [ intros Hempty; rewrite Hempty in Hread; discriminate
     | repeat apply goodTags_fold;
       auto using goodTags_addRow, goodTags_addRowIfUnset ]).
Qed.

End TagsMore.

(** X10. When the tags extractor returns a mapping, the mapping is not
    empty, has no key twice, and has no empty key and no empty value;
    a page on which no row counts gives [null], never an empty
    object. *)
Theorem extracted_tags_are_well_formed :
  forall {D : Dom} (document : Node) (tags : Obj string),
    readTags document = Some tags ->
    tags <> []
    /\ NoDup (map fst tags)
    /\ forall k v, In (k, v) tags -> k <> "" /\ v <> "".
Proof.
  intros D document tags Hread.
  destruct (readTags_good document tags Hread) as [Hne [Hnodup Hgood]].
  split; [exact Hne|]. split; [exact Hnodup|].
  intros k v Hin. destruct (Hgood k v Hin) as [Hk Hv].
  split; intros ->; discriminate.
Qed.

Lemma extracted_tags_are_well_formed_witness :
  [("release", "1.0"); ("level", "error"); ("os", "linux")] <> []
  /\ NoDup (map fst [("release", "1.0"); ("level", "error"); ("os", "linux")])
  /\ forall k v,
       In (k, v) [("release", "1.0"); ("level", "error"); ("os", "linux")] ->
       k <> "" /\ v <> "".
Proof.
  apply (extracted_tags_are_well_formed (D := Sample.dom)
           Sample.collidingPage).
  reflexivity.
Defined.

(** X11. On a page without a tags section the mapping is read from the
    highlight rows alone: of several rows with one key the last one gives
    the value, and a row keyed [__proto__] is lost. *)
Theorem highlight_rows_alone_last_wins :
  forall {D : Dom} (document : Node) (key : string),
    querySelector document tagsSectionSelector = None ->
    match readTags document with
    | Some tags => Object.get tags key
    | None => None
    end
    = if String.eqb key Object.proto then None
      else lastBinding key (rowBindings (highlightRowsOf document)).
Proof.
  intros D document key Hnone. unfold readTags.
  unfold tagsSectionSelector in Hnone. rewrite Hnone.
  fold (highlightRowsOf document).
  pose proof (get_fold_addRow (highlightRowsOf document) [] key eq_refl)
    as Hget.
  cbn [Object.get] in Hget.
  unfold nonEmptyOrNull.
  destruct (Object.isEmpty (fold_left addRow (highlightRowsOf document) []))
    eqn:Hempty; cbn [negb].
  - apply isEmpty_nil in Hempty. rewrite Hempty in Hget. simpl in Hget.
    destruct (String.eqb key Object.proto); [reflexivity|].
    destruct (lastBinding key _); [discriminate | reflexivity].
  - rewrite Hget. destruct (String.eqb key Object.proto); [reflexivity|].
    now destruct (lastBinding key _).
Qed.

Lemma highlight_rows_alone_last_wins_witness :
  match readTags (D := Sample.dom) Pages.highlightsOnly with
  | Some tags => Object.get tags "os"
  | None => None
  end
  = if String.eqb "os" Object.proto then None
    else lastBinding "os"
           (rowBindings (D := Sample.dom)
              (highlightRowsOf (D := Sample.dom) Pages.highlightsOnly)).
Proof.
  apply (highlight_rows_alone_last_wins (D := Sample.dom)
           Pages.highlightsOnly "os").
  reflexivity.
Defined.

(** X12. In a pass whose cache is cleared or holds the tags of the
    page, a tag named [environment], [release] or [level] decides the
    field of that name, whatever the dedicated element of the page
    shows. *)
Theorem tag_values_take_precedence :
  forall {D : Dom} (document : Node) (m : TagsModule) (tags : Obj string),
    freshFor document m ->
    readTags document = Some tags ->
    (forall v, Object.get tags "environment" = Some v ->
               fst (extractEnvironment document m) = Some v)
    /\ (forall v, Object.get tags "release" = Some v ->
                  fst (extractRelease document m) = Some v)
    /\ (forall v, Object.get tags "level" = Some v ->
                  fst (extractLevel document m) = Some v).
Proof.
  intros D document m tags Hfresh Hread.
  destruct (readTags_good document tags Hread) as [_ [_ Hgood]].
  assert (Htruthy : forall name v,
    Object.get tags name = Some v ->
    truthyTag (readTags document) name = Some v).
  { intros name v Hget. unfold truthyTag. rewrite Hread, Hget.
    destruct (Hgood name v (get_In _ _ _ Hget)) as [_ ->]. reflexivity. }
  repeat split; intros v Hget.
  - unfold extractEnvironment, bind.
    rewrite (extractTags_fresh _ _ Hfresh), (Htruthy _ _ Hget). reflexivity.
  - unfold extractRelease, bind.
    rewrite (extractTags_fresh _ _ Hfresh), (Htruthy _ _ Hget). reflexivity.
  - unfold extractLevel, bind.
    rewrite (extractTags_fresh _ _ Hfresh), (Htruthy _ _ Hget). reflexivity.
Qed.

Lemma tag_values_take_precedence_witness :
  fst (extractEnvironment (D := Sample.dom) (Pages.routed [])
         initialTagsModule) = Some "prod".
Proof.
  apply (proj1 (tag_values_take_precedence (D := Sample.dom)
                  (Pages.routed []) initialTagsModule
                  [("url", "https://x/a"); ("transaction", "/api/users");
                   ("environment", "prod")]
                  (or_introl eq_refl) eq_refl)).
  reflexivity.
Defined.



(** ** Structured values: composites *)

Lemma fold_left_none {A B} (f : option B -> A -> option B) (l : list A) :
  (forall x, f None x = None) -> fold_left f l None = None.
Proof.
  intros Hf. induction l as [|x l IH]; simpl; [reflexivity|].
  now rewrite Hf.
Qed.

Lemma fold_left_option_inv {A B} (f : option B -> A -> option B)
  (P : B -> Prop) (l : list A) :
  (forall x, f None x = None) ->
  (forall x b b', In x l -> P b -> f (Some b) x = Some b' -> P b') ->
  forall b r, P b -> fold_left f l (Some b) = Some r -> P r.
Proof.
  intros Hnone. induction l as [|x l IH]; intros Hstep b r Hb; simpl.
  - now intros [= <-].
  - destruct (f (Some b) x) as [b'|] eqn:E.
    + apply IH; [|now apply (Hstep x b b'); auto; left].
      intros y c c' Hy. apply Hstep. now right.
    + now rewrite (fold_left_none f l Hnone).
Qed.

Lemma fold_left_some {A B} (f : option B -> A -> option B) (l : list A) :
  (forall x b, In x l -> exists b', f (Some b) x = Some b') ->
  forall b, exists b', fold_left f l (Some b) = Some b'.
Proof.
  induction l as [|x l IH]; intros Hf b; simpl.
  - now exists b.
  - destruct (Hf x b (or_introl eq_refl)) as [b' ->].
    apply IH. intros y c Hy. apply Hf. now right.
Qed.

Section CompositeFacts.
Context {D : Dom}.

(** A value element is read as a text, a number, a boolean or [null]. *)
Lemma parseValueElement_primitive (valueEl : Node) :
  jsonLike (parseValueElement valueEl) = true
  /\ isDefined (parseValueElement valueEl) = true
     \/ parseValueElement valueEl = JNull.
Proof.
  unfold parseValueElement.
  destruct (getAttribute valueEl "data-test-id") as [testId|];
    [|left; split; reflexivity].
  repeat match goal with
         | |- context [match ?x with _ => _ end] => destruct x
         end;
    try (left; split; reflexivity); right; reflexivity.
Qed.

Lemma parseValueElement_jsonLike (valueEl : Node) :
  jsonLike (parseValueElement valueEl) = true.
Proof.
  destruct (parseValueElement_primitive valueEl) as [[H _]|H];
    [exact H | now rewrite H].
Qed.

Lemma store_jsonLike (o : Obj JsValue) (k : string) (v : JsValue) :
  forallb (fun kv => jsonLike (snd kv)) o = true ->
  jsonLike v = true ->
  forallb (fun kv => jsonLike (snd kv)) (Object.store o k v) = true.
Proof.
  intros Ho Hv. apply forallb_forall. intros x Hin.
  apply In_store in Hin. destruct Hin as [->|Hin]; [exact Hv|].
  rewrite forallb_forall in Ho. now apply Ho.
Qed.

Lemma parseObjectValue_shape (recur : Node -> option JsValue)
  (container : Node) (v : JsValue) :
  (forall n w, recur n = Some w -> jsonLike w = true) ->
  parseObjectValue recur container = Some v ->
  jsonLike v = true /\ textOrNonEmpty v.
Proof.
  intros Hrecur. unfold parseObjectValue.
  destruct (contentContainer container) as [contentDiv|].
  - match goal with
    | |- context [fold_left ?f ?l ?a] =>
        destruct (fold_left f l a) as [result|] eqn:Hfold;
          [|discriminate];
        assert (Hjson : forallb (fun kv => jsonLike (snd kv)) result = true)
    end.
    { revert Hfold.
      apply (fold_left_option_inv _
               (fun o => forallb (fun kv => jsonLike (snd kv)) o = true));
        [reflexivity | | reflexivity].
      intros child b b' _ Hb.
      destruct (querySelector child
                  (SelAttr "data-sentry-element" "ValueObjectKey"));
        [|now intros [= <-]].
      destruct (querySelector child
                  (SelAttr "data-sentry-component" "CollapsibleValue"))
        as [nested|].
      - destruct (negb (sameNode nested container)).
        + destruct (recur nested) as [w|] eqn:Hw; [|discriminate].
          intros [= <-]. apply store_jsonLike; [exact Hb|].
          now apply (Hrecur nested).
        + destruct (querySelector child _); intros [= <-];
            [apply store_jsonLike; auto using parseValueElement_jsonLike
            | exact Hb].
      - destruct (querySelector child _); intros [= <-];
          [apply store_jsonLike; auto using parseValueElement_jsonLike
          | exact Hb]. }
    destruct (Object.isEmpty result) eqn:Hempty; simpl; intros [= <-].
    + split; [reflexivity | left; eexists; reflexivity].
    + split; [exact Hjson|]. right. left. exists result.
      split; [reflexivity|]. intros ->. discriminate.
  - intros [= <-]. split; [reflexivity | left; eexists; reflexivity].
Qed.

Lemma parseArrayValue_shape (recur : Node -> option JsValue)
  (container : Node) (v : JsValue) :
  (forall n w, recur n = Some w -> jsonLike w = true) ->
  parseArrayValue recur container = Some v ->
  jsonLike v = true /\ textOrNonEmpty v.
Proof.
  intros Hrecur. unfold parseArrayValue.
  destruct (contentContainer container) as [contentDiv|].
  - match goal with
    | |- context [fold_left ?f ?l ?a] =>
        destruct (fold_left f l a) as [result|] eqn:Hfold;
          [|discriminate];
        assert (Hjson : forallb jsonLike result = true)
    end.
    { revert Hfold.
      apply (fold_left_option_inv _
               (fun l => forallb jsonLike l = true));
        [reflexivity | | reflexivity].
      intros child b b' _ Hb.
      assert (Hpush : forall w, jsonLike w = true ->
                forallb jsonLike (b ++ [w]) = true).
      { intros w Hw. rewrite forallb_app, Hb. simpl. now rewrite Hw. }
      destruct (querySelector child
                  (SelAttr "data-sentry-component" "CollapsibleValue"))
        as [nested|].
      - destruct (recur nested) as [w|] eqn:Hw; [|discriminate].
        intros [= <-]. apply Hpush. now apply (Hrecur nested).
      - destruct (querySelector child _); intros [= <-];
          [apply Hpush; apply parseValueElement_jsonLike | exact Hb]. }
    destruct result as [|x result]; intros [= <-].
    + split; [reflexivity | left; eexists; reflexivity].
    + split; [exact Hjson|]. right. right. eexists.
      split; [reflexivity | discriminate].
  - intros [= <-]. split; [reflexivity | left; eexists; reflexivity].
Qed.

Lemma parseCollapsibleValue_shape (fuel : nat) (collapsible : Node)
  (v : JsValue) :
  parseCollapsibleValue fuel collapsible = Some v ->
  jsonLike v = true /\ textOrNonEmpty v.
Proof.
  revert collapsible v.
  induction fuel as [|fuel IH]; intros collapsible v; simpl; [discriminate|].
  assert (Hrecur : forall n w,
            parseCollapsibleValue fuel n = Some w -> jsonLike w = true)
    by (intros n w Hw; now apply (IH n w)).
  destruct (match option_map Js.charAt0 (trimmedText collapsible) with
            | Some c => (c =? "[")%string
            | None => false
            end).
  - now apply parseArrayValue_shape.
  - now apply parseObjectValue_shape.
Qed.

Lemma extractStructuredValue_jsonLike (fuel : nat) (element : Node)
  (v : JsValue) :
  extractStructuredValue fuel element = Some v -> jsonLike v = true.
Proof.
  unfold extractStructuredValue.
  destruct (querySelector element
              (SelAttr "data-sentry-component" "CollapsibleValue"))
    as [collapsible|].
  - intros H. now apply (parseCollapsibleValue_shape fuel collapsible).
  - repeat match goal with
           | |- context [querySelector ?e ?s] =>
               destruct (querySelector e s)
           end;
      intros [= <-]; unfold ofText, trimmedText;
      repeat match goal with
             | |- context [textContent ?e] => destruct (textContent e)
             end; cbn [option_map nullish];
      repeat match goal with
             | |- context [if ?c then _ else _] => destruct c
             end; reflexivity.
Qed.

End CompositeFacts.

(** X14. A composite value is never parsed to an empty object or an
    empty array: the result is a text, or an object or array with at
    least one member, and a container in which no content container is
    found is parsed to its trimmed text. *)
Theorem composite_is_never_empty :
  forall {D : Dom} (fuel : nat) (collapsible : Node),
    (forall v,
       parseCollapsibleValue fuel collapsible = Some v ->
       textOrNonEmpty v)
    /\ (contentContainer collapsible = None ->
        parseCollapsibleValue (S fuel) collapsible
        = Some (JString (nullish (trimmedText collapsible) ""))).
Proof.
  intros D fuel collapsible. split.
  - intros v Hv. now apply (parseCollapsibleValue_shape fuel collapsible).
  - intros Hnone. simpl. unfold parseArrayValue, parseObjectValue.
    rewrite Hnone. now destruct (match _ with Some c => _ | None => _ end).
Qed.

Lemma composite_is_never_empty_witness :
  textOrNonEmpty (JArray [JNumber (Decimal false 1 0); JString "a"]).
Proof.
  apply (proj1 (composite_is_never_empty (D := Sample.dom) 4
                  Pages.arrayComposite)).
  reflexivity.
Defined.

Section Termination.
Context {D : Dom} {F : FiniteDom D}.

Lemma contentContainer_below (container contentDiv : Node) :
  contentContainer container = Some contentDiv ->
  height contentDiv < height container.
Proof.
  unfold contentContainer.
  destruct (querySelector container
              (SelAttr "data-sentry-element" "CollapsibleContent")) eqn:E1.
  { intros [= <-]. now apply (querySelector_below _ _ _ E1). }
  destruct (querySelector container (SelAttr "role" "group")) eqn:E2.
  { intros [= <-]. now apply (querySelector_below _ _ _ E2). }
  apply querySelector_below.
Qed.

Lemma parseObjectValue_returns (recur : Node -> option JsValue)
  (container : Node) :
  (forall n, S (S (height n)) < height container ->
             exists w, recur n = Some w) ->
  exists v, parseObjectValue recur container = Some v.
Proof.
  intros Hrecur. unfold parseObjectValue.
  destruct (contentContainer container) as [contentDiv|] eqn:Hc;
    [|eexists; reflexivity].
  apply contentContainer_below in Hc.
  match goal with
  | |- context [fold_left ?f ?l (Some ?a)] =>
      destruct (fun H => fold_left_some f l H a) as [result ->]
  end.
  - intros child b Hchild. apply children_below in Hchild.
    destruct (querySelector child
                (SelAttr "data-sentry-element" "ValueObjectKey"));
      [|eexists; reflexivity].
    destruct (querySelector child
                (SelAttr "data-sentry-component" "CollapsibleValue"))
      as [nested|] eqn:Hn.
    + apply querySelector_below in Hn.
      destruct (negb (sameNode nested container)).
      * destruct (Hrecur nested) as [w ->]; [lia|]. eexists; reflexivity.
      * destruct (querySelector child
                  (SelAttrPrefix "data-test-id" "value-"));
        eexists; reflexivity.
    + destruct (querySelector child
                  (SelAttrPrefix "data-test-id" "value-"));
        eexists; reflexivity.
  - destruct (Object.isEmpty result); eexists; reflexivity.
Qed.

Lemma parseArrayValue_returns (recur : Node -> option JsValue)
  (container : Node) :
  (forall n, S (S (height n)) < height container ->
             exists w, recur n = Some w) ->
  exists v, parseArrayValue recur container = Some v.
Proof.
  intros Hrecur. unfold parseArrayValue.
  destruct (contentContainer container) as [contentDiv|] eqn:Hc;
    [|eexists; reflexivity].
  apply contentContainer_below in Hc.
  match goal with
  | |- context [fold_left ?f ?l (Some ?a)] =>
      destruct (fun H => fold_left_some f l H a) as [result ->]
  end.
  - intros child b Hchild. apply children_below in Hchild.
    destruct (querySelector child
                (SelAttr "data-sentry-component" "CollapsibleValue"))
      as [nested|] eqn:Hn.
    + apply querySelector_below in Hn.
      destruct (Hrecur nested) as [w ->]; [lia|]. eexists; reflexivity.
    + destruct (querySelector child
                  (SelAttrPrefix "data-test-id" "value-"));
        eexists; reflexivity.
  - destruct result; eexists; reflexivity.
Qed.

Lemma parseCollapsibleValue_returns (fuel : nat) (collapsible : Node) :
  height collapsible < 3 * fuel ->
  exists v, parseCollapsibleValue fuel collapsible = Some v.
Proof.
  revert collapsible.
  induction fuel as [|fuel IH]; intros collapsible Hh; [lia|]. simpl.
  assert (Hrecur : forall n, S (S (height n)) < height collapsible ->
            exists w, parseCollapsibleValue fuel n = Some w)
    by (intros n Hn; apply IH; lia).
  destruct (match option_map Js.charAt0 (trimmedText collapsible) with
            | Some c => (c =? "[")%string
            | None => false
            end).
  - now apply parseArrayValue_returns.
  - now apply parseObjectValue_returns.
Qed.

End Termination.

(** X15. On a document of finite height the structured-value parser
    returns: a nesting bound of a third of the element's height is
    enough for [extractStructuredValue] to produce a value. *)
Theorem structured_value_is_produced :
  forall {D : Dom} {F : FiniteDom D} (fuel : nat) (element : Node),
    height element <= 3 * fuel ->
    exists v, extractStructuredValue fuel element = Some v.
Proof.
  intros D F fuel element Hh. unfold extractStructuredValue.
  destruct (querySelector element
              (SelAttr "data-sentry-component" "CollapsibleValue"))
    as [collapsible|] eqn:Hc.
  - apply querySelector_below in Hc.
    apply parseCollapsibleValue_returns. lia.
  - repeat match goal with
           | |- context [querySelector ?e ?s] =>
               destruct (querySelector e s)
           end; eexists; reflexivity.
Qed.

Lemma structured_value_is_produced_witness :
  exists v,
    extractStructuredValue (D := Sample.dom) 2 Pages.arrayCell = Some v.
Proof.
  apply (structured_value_is_produced (F := Pages.finite) 2 Pages.arrayCell).
  vm_compute. lia.
Defined.

(** ** The additional data read from the page *)

Section AdditionalDataFacts.
Context {D : Dom}.

Lemma clean_store (data : Obj JsValue) (k : string) (v : JsValue) :
  clean data -> k <> "" -> isDefined v = true -> jsonLike v = true ->
  clean (Object.store data k v).
Proof.
  intros [Hnodup Hall] Hk Hv Hjson. split; [now apply store_NoDup|].
  intros k' v' Hin. apply In_store in Hin.
  destruct Hin as [[= -> ->]|Hin]; [auto | now apply Hall].
Qed.

Lemma readRow_clean (fuel : nat) (data data' : Obj JsValue) (row : Node) :
  clean data ->
  AdditionalData.readRow fuel data row = Some data' ->
  clean data'.
Proof.
  intros Hclean. unfold AdditionalData.readRow.
  destruct (querySelector row (SelAnd (SelTag "td") (SelClass "key")))
    as [keyCell|]; [|now intros [= <-]].
  destruct (querySelector row (SelAnd (SelTag "td") (SelClass "val")))
    as [valCell|]; [|now intros [= <-]].
  destruct (extractStructuredValue fuel valCell) as [value|] eqn:Hvalue;
    [|discriminate].
  apply extractStructuredValue_jsonLike in Hvalue.
  assert (Hkey : Js.truthy (nullish (trimmedText keyCell) "") = true ->
                 nullish (trimmedText keyCell) "" <> "")
    by (intros Ht Heq; rewrite Heq in Ht; discriminate).
  set (key := nullish (trimmedText keyCell) "") in *.
  destruct (Js.truthy key) eqn:Ht;
    destruct value; intros [= <-];
    first [exact Hclean | apply clean_store; auto].
Qed.

Lemma extractAdditionalData_clean (fuel : nat) (document : Node)
  (data : Obj JsValue) :
  AdditionalData.extractAdditionalData fuel document = Some (Some data) ->
  data <> [] /\ clean data.
Proof.
  unfold AdditionalData.extractAdditionalData.
  destruct (querySelector document _) as [extraSection|]; [|discriminate].
  assert (Hnil : clean []) by (split; [constructor | intros k v []]).
  assert (Hend : forall collected : Obj JsValue,
            clean collected ->
            Some (if negb (Object.isEmpty collected)
                  then Some collected else None) = Some (Some data) ->
            data <> [] /\ clean data).
  { intros collected Hc.
    destruct (Object.isEmpty collected) eqn:Hempty; simpl; [discriminate|].
    intros [= <-]. split; [|exact Hc].
    intros ->. discriminate. }
  destruct (querySelector extraSection _) as [kvTable|];
    [|now apply Hend].
  match goal with
  | |- context [fold_left ?f ?l ?a] =>
      destruct (fold_left f l a) as [collected|] eqn:Hfold; [|discriminate]
  end.
  apply Hend. revert Hfold.
  apply (fold_left_option_inv _ clean); [reflexivity | | exact Hnil].
  intros row b b' _ Hb. now apply readRow_clean.
Qed.

End AdditionalDataFacts.

Lemma extractAllData_additionalData {D : Dom} {P : PageExtractors}
  (document : Node) (m : TagsModule) :
  SentryIssueData.additionalData (fst (extractAllData document m))
  = extractAdditionalData document.
Proof.
  unfold extractAllData, bind, clearTagsCache, ret. cbv beta iota zeta.
  repeat match goal with
         | |- context [let (_, _) := ?c in _] => destruct c; cbv beta iota
         end.
  reflexivity.
Qed.

(** X16. The additional data read from a page is never an empty object:
    when the extractor gives an object it has at least one entry, no key
    twice, no empty key, no value that is [null] or [undefined], and only
    values the formatter can serialise. *)
Theorem additional_data_is_clean :
  forall {D : Dom} (fuel : nat) (document : Node) (data : Obj JsValue),
    AdditionalData.extractAdditionalData fuel document = Some (Some data) ->
    data <> []
    /\ NoDup (map fst data)
    /\ forall k v, In (k, v) data ->
         k <> "" /\ isDefined v = true /\ jsonLike v = true.
Proof.
  intros D fuel document data Hdata.
  destruct (extractAdditionalData_clean fuel document data Hdata)
    as [Hne [Hnodup Hall]].
  auto.
Qed.

Lemma additional_data_is_clean_witness :
  [("retries", JNumber (Decimal false 3 0));
   ("path", JArray [JNumber (Decimal false 1 0); JString "a"])]
  <> ([] : Obj JsValue).
Proof.
  apply (additional_data_is_clean (D := Sample.dom) 5 Pages.extraPage).
  reflexivity.
Defined.

(** X17. Extraction and formatting compose: when the additional data of
    the record comes from the page and no tag read from the page has a
    dotted key with a built-in prefix, the formatter returns on what
    [extractAllData] collected, whatever the other extractors found and
    whatever the options are. *)
Theorem extracted_record_always_formats :
  forall {D : Dom} {NF : NumberFormat} {P : PageExtractors}
         (fuel : nat) (document : Node) (m : TagsModule)
         (now : string) (options : FormatOptions.t),
    extractAdditionalData document
    = match AdditionalData.extractAdditionalData fuel document with
      | Some data => data
      | None => None
      end ->
    ordinaryOpt (readTags document) ->
    wellFormed (fst (extractAllData document m))
    /\ exists text,
         formatToJiraMarkdown now (fst (extractAllData document m)) options
         = Normal text.
Proof.
  intros D NF P fuel document m now options Hextra Hord.
  assert (Hwf : wellFormed (fst (extractAllData document m))).
  { unfold wellFormed. rewrite extractAllData_additionalData, Hextra.
    destruct (AdditionalData.extractAdditionalData fuel document)
      as [[data|]|] eqn:Hdata; [|exact I|exact I].
    destruct (extractAdditionalData_clean fuel document data Hdata)
      as [_ [_ Hall]].
    apply forallb_forall. intros [k v] Hin. now apply (Hall k v). }
  assert (Hplain : ordinaryTags (fst (extractAllData document m))).
  { unfold ordinaryTags.
    now rewrite (proj1 (extractAllData_tags document m)). }
  split; [exact Hwf|].
  unfold formatToJiraMarkdown.
  destruct (documentLines_shape now _ options Hwf Hplain) as [later ->].
  eexists; reflexivity.
Qed.

Lemma extracted_record_always_formats_witness :
  exists text,
    formatToJiraMarkdown (NF := Sample.integers) Sample.now
      (fst (extractAllData (P := Pages.withAdditionalData 5)
              Pages.extraPage initialTagsModule))
      FormatOptions.empty
    = Normal text.
Proof.
  apply (extracted_record_always_formats (P := Pages.withAdditionalData 5)
           5 Pages.extraPage initialTagsModule Sample.now
           FormatOptions.empty).
  - reflexivity.
  - exact I.
Defined.

(** ** [extractor/breadcrumbs.ts] *)

Section BreadcrumbFacts.
Context {D : Dom}.

Lemma readItems_from (items : list Node) (acc : list Breadcrumb.t) :
  fold_left
    (fun breadcrumbs item =>
       match Breadcrumbs.readItem item with
       | Some bc => (breadcrumbs ++ [bc])%list
       | None => breadcrumbs
       end)
    items acc
  = (acc ++ flat_map crumbsOf items)%list.
Proof.
  revert acc. induction items as [|item items IH]; intros acc; simpl.
  - now rewrite app_nil_r.
  - rewrite IH. unfold crumbsOf at 2.
    destruct (Breadcrumbs.readItem item); simpl;
      [now rewrite <- app_assoc | reflexivity].
Qed.

Lemma readItems_flat_map (items : list Node) :
  Breadcrumbs.readItems items = flat_map crumbsOf items.
Proof. unfold Breadcrumbs.readItems. now rewrite readItems_from. Qed.

Lemma categoryOf_cases (item : Node) :
  In (Some (Breadcrumbs.categoryOf item))
     [Some "http"; Some "exception"; Some "ui"; Some "console"; Some ""].
Proof.
  unfold Breadcrumbs.categoryOf.
  repeat match goal with
         | |- context [if ?c then _ else _] => destruct c
         end; simpl; auto 6.
Qed.

Lemma truthy_nonempty (s : string) : Js.truthy s = true -> s <> "".
Proof. now intros H ->. Qed.

Lemma readItem_structured (item : Node) (bc : Breadcrumb.t) :
  Breadcrumbs.readItem item = Some bc -> structuredCrumb bc.
Proof.
  unfold Breadcrumbs.readItem. cbv zeta.
  match goal with
  | |- context [if ?c then _ else _] => destruct c eqn:Hsome
  end; [|discriminate].
  intros [= <-]. unfold structuredCrumb. cbn.
  split; [reflexivity|]. split; [reflexivity|].
  split; [apply categoryOf_cases|].
  do 3 eexists. do 3 (split; [reflexivity|]).
  apply orb_true_iff in Hsome. destruct Hsome as [Hsome|Hc].
  - apply orb_true_iff in Hsome. destruct Hsome as [Hl|Hm].
    + left. now apply truthy_nonempty.
    + right. left. now apply truthy_nonempty.
  - right. right. intros [= Heq]. rewrite Heq in Hc. discriminate.
Qed.

Lemma readItems_structured (items : list Node) (bc : Breadcrumb.t) :
  In bc (Breadcrumbs.readItems items) -> structuredCrumb bc.
Proof.
  rewrite readItems_flat_map. intros Hin.
  apply in_flat_map in Hin. destruct Hin as [item [_ Hin]].
  unfold crumbsOf in Hin.
  destruct (Breadcrumbs.readItem item) as [bc'|] eqn:Hread; [|easy].
  destruct Hin as [<-|[]]. now apply (readItem_structured item).
Qed.

Lemma extractBreadcrumbs_cases (document : Node)
  (crumbs : list Breadcrumb.t) :
  Breadcrumbs.extractBreadcrumbs document = Some crumbs ->
  (crumbs <> [] /\ forall bc, In bc crumbs -> structuredCrumb bc)
  \/ exists allText,
       crumbs = [Breadcrumbs.rawEntry (Js.substring0 3000 allText)]
       /\ 10 < String.length allText.
Proof.
  unfold Breadcrumbs.extractBreadcrumbs.
  destruct (querySelector document _) as [breadcrumbSection|];
    [|discriminate].
  cbv zeta.
  destruct (Breadcrumbs.readItems _) as [|bc rest] eqn:Hitems.
  - destruct (textContent breadcrumbSection) as [allText|]; [|discriminate].
    destruct (10 <? String.length allText)%nat eqn:Hlen; [|discriminate].
    intros [= <-]. right. exists allText. split; [reflexivity|].
    now apply Nat.ltb_lt.
  - intros [= <-]. left. split; [discriminate|].
    intros bc' Hin. rewrite <- Hitems in Hin.
    now apply readItems_structured in Hin.
Qed.

Lemma substring0_length (n : nat) (s : string) :
  String.length (Js.substring0 n s) = Nat.min n (String.length s).
Proof.
  destruct (Nat.le_gt_cases n (String.length s)) as [Hle|Hgt].
  - destruct (substring0_long n s Hle) as [-> _]. lia.
  - rewrite substring0_short by lia. lia.
Qed.

End BreadcrumbFacts.



(** X19. Extracted breadcrumbs are rendered the way they were read: the
    raw entry of the fallback always becomes a fenced block of its text,
    and breadcrumbs read from items always become bullets, also when
    there is only one of them: the last fifteen, each with its time,
    category and level, the first 100 units of its message and a line
    feed. *)
Theorem extracted_breadcrumbs_render :
  forall {D : Dom} (document : Node) (crumbs : list Breadcrumb.t),
    Breadcrumbs.extractBreadcrumbs document = Some crumbs ->
    (exists text,
       crumbs = [Breadcrumbs.rawEntry text]
       /\ formatBreadcrumbs (Some crumbs)
          = fence ++ Js.LF ++ text ++ Js.LF ++ fence)
    \/ ((forall bc, In bc crumbs -> Breadcrumb.raw bc = None)
        /\ formatBreadcrumbs (Some crumbs)
           = joinAll (map crumbBullet (sliceLast 15 crumbs))).
Proof.
  intros D document crumbs Hcrumbs.
  destruct (extractBreadcrumbs_cases document crumbs Hcrumbs)
    as [[Hne Hall]|[allText [-> Hlen]]].
  - right.
    assert (Hraw : forall bc, In bc crumbs -> Breadcrumb.raw bc = None)
      by (intros bc Hin; now destruct (Hall bc Hin)).
    split; [exact Hraw|].
    apply formatBreadcrumbs_crumbs.
    destruct crumbs as [|bc [|second rest]]; try reflexivity.
    simpl. now rewrite (Hraw bc) by now left.
  - left. eexists. split; [reflexivity|].
    assert (Htruthy : Js.truthy (Js.substring0 3000 allText) = true).
    { pose proof (substring0_length 3000 allText) as Hl.
      destruct (Js.substring0 3000 allText); [|reflexivity].
      change (String.length "") with 0 in Hl. lia. }
    unfold formatBreadcrumbs, Breadcrumbs.rawEntry.
    cbn [List.length Nat.eqb Breadcrumb.raw Js.truthyOpt andb display].
    now rewrite Htruthy.
Qed.

Lemma extracted_breadcrumbs_render_witness :
  (exists text,
     [Pages.readCrumb] = [Breadcrumbs.rawEntry text]
     /\ formatBreadcrumbs (Some [Pages.readCrumb])
        = fence ++ Js.LF ++ text ++ Js.LF ++ fence)
  \/ ((forall bc, In bc [Pages.readCrumb] -> Breadcrumb.raw bc = None)
      /\ formatBreadcrumbs (Some [Pages.readCrumb])
         = joinAll (map crumbBullet (sliceLast 15 [Pages.readCrumb]))).
Proof.
  apply (extracted_breadcrumbs_render (D := Sample.dom) Pages.oneCrumbPage).
  reflexivity.
Defined.

(** ** [extractor/stack-trace.ts] *)

Section StackTraceFacts.
Context {D : Dom}.

Lemma readFrames_from (frameElements : list Node)
  (acc : list StackFrame.t) :
  fold_left
    (fun frames frame =>
       match StackTraces.readFrame frame with
       | Some f => (frames ++ [f])%list
       | None => frames
       end)
    frameElements acc
  = (acc ++ flat_map framesOf frameElements)%list.
Proof.
  revert acc.
  induction frameElements as [|frame rest IH]; intros acc; simpl.
  - now rewrite app_nil_r.
  - rewrite IH. unfold framesOf at 2.
    destruct (StackTraces.readFrame frame); simpl;
      [now rewrite <- app_assoc | reflexivity].
Qed.

Lemma readFrames_flat_map (frameElements : list Node) :
  StackTraces.readFrames frameElements = flat_map framesOf frameElements.
Proof. unfold StackTraces.readFrames. now rewrite readFrames_from. Qed.

Lemma readFrame_named (frame : Node) (f : StackFrame.t) :
  StackTraces.readFrame frame = Some f -> namedFrame f.
Proof.
  unfold StackTraces.readFrame. cbv zeta.
  match goal with
  | |- context [if ?c then _ else _] => destruct c eqn:Hsome
  end; [|discriminate].
  intros [= <-]. unfold namedFrame. cbn [StackFrame.filename
    StackFrame.function StackFrame.context].
  split.
  - apply orb_true_iff in Hsome.
    destruct Hsome as [H|H]; [left | right]; now apply truthy_nonempty.
  - rewrite substring0_length. lia.
Qed.

Lemma readFrames_named (frameElements : list Node) (f : StackFrame.t) :
  In f (StackTraces.readFrames frameElements) -> namedFrame f.
Proof.
  rewrite readFrames_flat_map. intros Hin.
  apply in_flat_map in Hin. destruct Hin as [frame [_ Hin]].
  unfold framesOf in Hin.
  destruct (StackTraces.readFrame frame) as [f'|] eqn:Hread; [|easy].
  destruct Hin as [<-|[]]. now apply (readFrame_named frame).
Qed.

Lemma extractStackTrace_cases (document : Node) (stackTrace : StackTrace.t) :
  StackTraces.extractStackTrace document = Some stackTrace ->
  (exists frames,
     StackTrace.frames stackTrace = Some frames
     /\ frames <> []
     /\ StackTrace.raw stackTrace = None
     /\ forall f, In f frames -> namedFrame f)
  \/ (StackTrace.frames stackTrace = None
      /\ forall r, StackTrace.raw stackTrace = Some r ->
                   String.length r <= 5000).
Proof.
  unfold StackTraces.extractStackTrace.
  destruct (querySelector document _) as [exceptionSection|];
    [|discriminate].
  cbv zeta.
  destruct (StackTraces.readFrames _) as [|f rest] eqn:Hframes.
  - destruct (querySelector document _) as [stackContent|]; [|discriminate].
    intros [= <-]. right. cbn [StackTrace.frames StackTrace.raw].
    split; [reflexivity|]. intros r Hr.
    destruct (trimmedText stackContent) as [t|]; [|discriminate].
    injection Hr as <-. rewrite substring0_length. lia.
  - intros [= <-]. left. exists (f :: rest).
    cbn [StackTrace.frames StackTrace.raw].
    split; [reflexivity|]. split; [discriminate|]. split; [reflexivity|].
    intros f' Hin. rewrite <- Hframes in Hin.
    now apply readFrames_named in Hin.
Qed.

End StackTraceFacts.



(** X21. The formatter renders a stack trace read from a page as the
    exception line followed by one block: when there are frames, the
    fenced frames, each with its head line (marker, number, function and
    location) and its context line; otherwise the fenced raw text, and
    nothing when the raw text is missing or empty. *)
Theorem extracted_stack_trace_renders :
  forall {D : Dom} (document : Node) (stackTrace : StackTrace.t),
    StackTraces.extractStackTrace document = Some stackTrace ->
    formatStackTrace (Some stackTrace)
    = exceptionLine stackTrace ++ traceBody stackTrace.
Proof.
  intros D document stackTrace Hst.
  destruct (extractStackTrace_cases document stackTrace Hst)
    as [[frames [Hframes [Hne [Hraw _]]]]|[Hframes _]];
    destruct stackTrace as [frames0 raw exc]; simpl in Hframes;
    unfold formatStackTrace, exceptionLine, traceBody;
    cbn [StackTrace.frames StackTrace.raw StackTrace.exceptionValue].
  - simpl in Hraw. subst frames0 raw. cbn [Js.truthyOpt].
    destruct frames as [|f frames]; [now elim Hne|].
    rewrite forEachIndexed_frames.
    rewrite (map_ext (fun p => frameText (snd p) (fst p))
               (fun p => frameBlock (snd p) (fst p)))
      by (intros p; symmetry; apply frameBlock_shape).
    destruct exc as [v|]; cbn [Js.truthyOpt display];
      [destruct (Js.truthy v)|]; normalize_append; reflexivity.
  - subst frames0.
    destruct raw as [r|]; cbn [Js.truthyOpt display];
      [destruct (Js.truthy r)|];
      (destruct exc as [v|]; cbn [Js.truthyOpt display];
       [destruct (Js.truthy v)|]); normalize_append;
      rewrite ?append_nil_r; reflexivity.
Qed.

Lemma extracted_stack_trace_renders_witness :
  formatStackTrace (Some Pages.readTrace)
  = exceptionLine Pages.readTrace ++ traceBody Pages.readTrace.
Proof.
  apply (extracted_stack_trace_renders (D := Sample.dom) Pages.framesPage).
  reflexivity.
Defined.

(** ** [extractor/basic-info.ts] *)

Lemma stripPrefix_Some (p s r : string) :
  stripPrefix p s = Some r -> s = p ++ r.
Proof.
  revert s. induction p as [|a p IH]; intros [|b s]; simpl;
    try discriminate; try (now intros [= <-]).
  destruct (Ascii.eqb_spec a b) as [<-|_]; [|discriminate].
  intros H. now rewrite (IH s H).
Qed.

Lemma spanDigits_split (s d r : string) :
  Js.spanDigits s = (d, r) -> s = d ++ r /\ allDigits d = true.
Proof.
  revert d r. induction s as [|a s IH]; intros d r; simpl.
  - now intros [= <- <-].
  - destruct (Js.isDigit a) eqn:Ha.
    + destruct (Js.spanDigits s) as [d' r'].
      intros [= <- <-]. destruct (IH d' r' eq_refl) as [-> Hd].
      simpl. now rewrite Ha.
    + now intros [= <- <-].
Qed.

Lemma matchIssuePath_sound (pathname digits : string) :
  BasicInfo.matchIssuePath pathname = Some digits ->
  digits <> "" /\ allDigits digits = true
  /\ exists before after,
       pathname = before ++ "/issues/" ++ digits ++ after.
Proof.
  induction pathname as [|a pathname IH].
  - simpl. discriminate.
  - cbn [BasicInfo.matchIssuePath].
    destruct (stripPrefix "/issues/" (String a pathname)) as [r|] eqn:Hr.
    + apply stripPrefix_Some in Hr.
      destruct (Js.spanDigits r) as [d r'] eqn:Hd.
      apply spanDigits_split in Hd. destruct Hd as [-> Hd].
      destruct (Js.truthy d) eqn:Ht.
      * intros [= <-]. split; [now apply truthy_nonempty|].
        split; [exact Hd|]. exists "", r'. exact Hr.
      * intros H. destruct (IH H) as [Hne [Hall [before [after ->]]]].
        split; [exact Hne|]. split; [exact Hall|].
        now exists (String a before), after.
    + intros H. destruct (IH H) as [Hne [Hall [before [after ->]]]].
      split; [exact Hne|]. split; [exact Hall|].
      now exists (String a before), after.
Qed.

Lemma stripPrefix_append (p r : string) : stripPrefix p (p ++ r) = Some r.
Proof.
  induction p as [|a p IH]; simpl; [reflexivity|].
  now rewrite Ascii.eqb_refl.
Qed.

Lemma spanDigits_append (digits after : string) :
  allDigits digits = true -> startsWithDigit after = false ->
  Js.spanDigits (digits ++ after) = (digits, after).
Proof.
  intros Hd Ha. induction digits as [|a digits IH]; simpl in *.
  - destruct after as [|c after]; [reflexivity|].
    simpl in Ha |- *. now rewrite Ha.
  - apply andb_true_iff in Hd. destruct Hd as [Hdigit Hd].
    now rewrite Hdigit, (IH Hd).
Qed.

Lemma spanDigits_no_digit (rest : string) :
  startsWithDigit rest = false -> Js.spanDigits rest = ("", rest).
Proof.
  destruct rest as [|c rest]; simpl; [reflexivity|].
  now intros ->.
Qed.

(** The search of the path, one position at a time. *)
Lemma matchIssuePath_step (pathname : string) :
  BasicInfo.matchIssuePath pathname
  = match
      match stripPrefix "/issues/" pathname with
      | Some r =>
          let (digits, _) := Js.spanDigits r in
          if Js.truthy digits then Some digits else None
      | None => None
      end
    with
    | Some digits => Some digits
    | None =>
        match pathname with
        | EmptyString => None
        | String _ pathname' => BasicInfo.matchIssuePath pathname'
        end
    end.
Proof. destruct pathname; reflexivity. Qed.

(** No [/issues/] of the path is followed by a digit: nothing matches. *)
Lemma matchIssuePath_none (pathname : string) :
  (forall b rest, pathname = b ++ "/issues/" ++ rest ->
                  startsWithDigit rest = false) ->
  BasicInfo.matchIssuePath pathname = None.
Proof.
  induction pathname as [|a pathname IH]; intros Hno; [reflexivity|].
  rewrite matchIssuePath_step.
  assert (Hrest : BasicInfo.matchIssuePath pathname = None).
  { apply IH. intros b rest ->. now apply (Hno (String a b) rest). }
  destruct (stripPrefix "/issues/" (String a pathname)) as [r|] eqn:Hr;
    [|exact Hrest].
  apply stripPrefix_Some in Hr.
  rewrite (spanDigits_no_digit r (Hno "" r Hr)). exact Hrest.
Qed.

(** The first [/issues/] that a digit follows gives the match: the whole
    run of digits behind it. *)
Lemma matchIssuePath_leftmost (before digits after : string) :
  digits <> "" -> allDigits digits = true ->
  startsWithDigit after = false ->
  (forall b rest,
     before ++ "/issues/" ++ digits ++ after = b ++ "/issues/" ++ rest ->
     String.length b < String.length before -> startsWithDigit rest = false) ->
  BasicInfo.matchIssuePath (before ++ "/issues/" ++ digits ++ after)
  = Some digits.
Proof.
  intros Hne Hd Ha. induction before as [|a before IH]; intros Hfirst.
  - rewrite matchIssuePath_step.
    change ("" ++ "/issues/" ++ digits ++ after)
      with ("/issues/" ++ (digits ++ after)).
    rewrite stripPrefix_append, (spanDigits_append _ _ Hd Ha).
    destruct digits; [now elim Hne | reflexivity].
  - assert (Hrest : BasicInfo.matchIssuePath
                      (before ++ "/issues/" ++ digits ++ after)
                    = Some digits).
    { apply IH. intros b rest Heq Hlen.
      apply (Hfirst (String a b) rest).
      - exact (f_equal (String a) Heq).
      - simpl. lia. }
    rewrite matchIssuePath_step.
    change (String a before ++ "/issues/" ++ digits ++ after)
      with (String a (before ++ "/issues/" ++ digits ++ after)).
    destruct (stripPrefix "/issues/"
                (String a (before ++ "/issues/" ++ digits ++ after)))
      as [r|] eqn:Hr; [|exact Hrest].
    apply stripPrefix_Some in Hr.
    assert (Hr' : startsWithDigit r = false).
    { apply (Hfirst "" r); [exact Hr | simpl; lia]. }
    rewrite (spanDigits_no_digit r Hr'). exact Hrest.
Qed.

(** X22. The issue id is never the empty text, although the short id
    may be. It is the short id when that is a text that is not empty.
    When the short id is missing or empty the id is read from the path:
    it is the whole run of digits behind the first [/issues/] that a
    digit follows, and [Unknown] when no [/issues/] of the path is
    followed by a digit. *)
Theorem issue_id_is_never_empty :
  forall {D : Dom} (document : Node) (pathname : string),
    let id := BasicInfo.extractIssueId document pathname in
    id <> ""
    /\ (forall shortId,
          BasicInfo.extractShortId document = Some shortId ->
          shortId <> "" -> id = shortId)
    /\ (BasicInfo.extractShortId document = None
        \/ BasicInfo.extractShortId document = Some "" ->
        (forall before digits after,
           pathname = before ++ "/issues/" ++ digits ++ after ->
           digits <> "" -> allDigits digits = true ->
           startsWithDigit after = false ->
           (forall b rest,
              pathname = b ++ "/issues/" ++ rest ->
              String.length b < String.length before -> startsWithDigit rest = false) ->
           id = digits)
        /\ ((forall b rest,
               pathname = b ++ "/issues/" ++ rest ->
               startsWithDigit rest = false) ->
            id = "Unknown")
        /\ (id = "Unknown"
            \/ (allDigits id = true
                /\ exists before after,
                     pathname = before ++ "/issues/" ++ id ++ after))).
Proof.
  intros D document pathname. unfold BasicInfo.extractIssueId. cbv zeta.
  split; [|split].
  - destruct (BasicInfo.extractShortId document) as [[|a shortId]|];
      cbn [Js.truthyOpt Js.truthy nullish]; [| discriminate |].
    all: destruct (BasicInfo.matchIssuePath pathname) as [digits|] eqn:Hm;
      [now apply matchIssuePath_sound in Hm | discriminate].
  - intros shortId Hshort Hne. rewrite Hshort.
    destruct shortId; [now elim Hne | reflexivity].
  - intros Hshort.
    assert (Hpath : (if Js.truthyOpt (BasicInfo.extractShortId document)
                     then nullish (BasicInfo.extractShortId document) ""
                     else match BasicInfo.matchIssuePath pathname with
                          | Some digits => digits
                          | None => "Unknown"
                          end)
                    = match BasicInfo.matchIssuePath pathname with
                      | Some digits => digits
                      | None => "Unknown"
                      end).
    { destruct Hshort as [Hshort|Hshort]; now rewrite Hshort. }
    rewrite Hpath. clear Hpath. split; [|split].
    + intros before digits after Hsplit Hne Hd Ha Hfirst.
      rewrite Hsplit in Hfirst |- *.
      now rewrite (matchIssuePath_leftmost _ _ _ Hne Hd Ha Hfirst).
    + intros Hno. now rewrite (matchIssuePath_none _ Hno).
    + destruct (BasicInfo.matchIssuePath pathname) as [digits|] eqn:Hm;
        [|now left].
      apply matchIssuePath_sound in Hm. destruct Hm as [_ [Hall Hex]].
      right. now split.
Qed.

Lemma issue_id_is_never_empty_witness :
  BasicInfo.extractIssueId (D := Sample.dom) Pages.blankPage
    "/issues/12345/events/" = "12345".
Proof.
  refine (proj1 (proj2 (proj2 (issue_id_is_never_empty (D := Sample.dom)
                                 Pages.blankPage "/issues/12345/events/"))
                   (or_introl eq_refl))
            "" "12345" "/events/" eq_refl _ eq_refl eq_refl _).
  - discriminate.
  - intros b rest _ Hlen. simpl in Hlen. lia.
Defined.

(** On a path with an [/issues/] that no digit follows, the id is read
    behind the next one. *)
Example issue_id_skips_issues_without_digits :
  BasicInfo.extractIssueId (D := Sample.dom) Pages.blankPage
    "/a/issues/new/issues/77x/issues/8" = "77".
Proof. reflexivity. Qed.

Lemma includes_trimStart (c : ascii) (s : string) :
  Js.includes c s = false -> Js.includes c (Js.trimStart s) = false.
Proof.
  induction s as [|a s IH]; simpl; [easy|].
  destruct (Ascii.eqb a c) eqn:Ea; [discriminate|].
  intros H. destruct (Js.isWhiteSpace a); [now apply IH|].
  simpl. now rewrite Ea.
Qed.

Lemma includes_rev (c : ascii) (s : string) :
  Js.includes c (Js.rev s) = Js.includes c s.
Proof.
  induction s as [|a s IH]; simpl; [reflexivity|].
  rewrite includes_append, IH. simpl.
  destruct (Ascii.eqb a c), (Js.includes c s); reflexivity.
Qed.

Lemma includes_trim (c : ascii) (s : string) :
  Js.includes c s = false -> Js.includes c (Js.trim s) = false.
Proof.
  intros H. unfold Js.trim, Js.trimEnd.
  rewrite includes_rev. apply includes_trimStart.
  rewrite includes_rev. now apply includes_trimStart.
Qed.

Lemma split_whole (c : ascii) (s : string) :
  Js.includes c s = false -> Js.split c s = [s].
Proof.
  induction s as [|a s IH]; simpl; [reflexivity|].
  destruct (Ascii.eqb a c); [discriminate|].
  intros H. now rewrite (IH H).
Qed.

(** What stands before the first bar of a title, and the whole title
    when it has no bar. *)
Lemma title_head (shown title : string) :
  Js.includes "|" shown = false ->
  (title = shown \/ exists rest, title = shown ++ "|" ++ rest) ->
  hd "" (Js.split "|" title) = shown.
Proof.
  intros Hclean [->|[rest ->]].
  - now rewrite (split_whole _ _ Hclean).
  - change (shown ++ "|" ++ rest) with (shown ++ String "|" rest).
    now rewrite (split_before _ _ _ Hclean).
Qed.

(** X23. When no title element is on the page the issue title comes
    from the page title: what stands before its first bar, or the whole
    title when it has no bar, trimmed; and [Unknown Issue] when that is
    empty. It is never empty and holds no bar. *)
Theorem page_title_fallback_is_shown :
  forall {D : Dom} (document : Node) (title : string),
    BasicInfo.firstMatch document BasicInfo.titleSelectors = None ->
    BasicInfo.extractIssueTitle document title <> ""
    /\ Js.includes "|" (BasicInfo.extractIssueTitle document title) = false
    /\ (forall shown rest,
          Js.includes "|" shown = false ->
          Js.trim shown <> "" ->
          BasicInfo.extractIssueTitle document (shown ++ "|" ++ rest)
          = Js.trim shown)
    /\ (forall shown,
          Js.includes "|" shown = false ->
          (title = shown \/ exists rest, title = shown ++ "|" ++ rest) ->
          BasicInfo.extractIssueTitle document title
          = if String.eqb (Js.trim shown) "" then "Unknown Issue"
            else Js.trim shown).
Proof.
  intros D document title Hnone. unfold BasicInfo.extractIssueTitle.
  rewrite Hnone. split; [|split; [|split]].
  - unfold Js.orElse.
    destruct (Js.trim _) eqn:Ht; simpl; discriminate.
  - unfold Js.orElse.
    destruct (Js.truthy (Js.trim (hd "" (Js.split "|" title)))) eqn:Ht;
      [|reflexivity].
    apply includes_trim.
    destruct (Js.split "|" title) as [|p ps] eqn:Hs; [reflexivity|].
    now apply (split_head_clean _ _ _ _ Hs).
  - intros shown rest Hclean Hne.
    rewrite (title_head shown _ Hclean) by (right; now exists rest).
    unfold Js.orElse.
    destruct (Js.trim shown); [now elim Hne | reflexivity].
  - intros shown Hclean Htitle.
    rewrite (title_head shown title Hclean Htitle).
    unfold Js.orElse. now destruct (Js.trim shown).
Qed.

Lemma page_title_fallback_is_shown_witness :
  BasicInfo.extractIssueTitle (D := Sample.dom) Pages.blankPage
    " TypeError: x | Sentry" = "TypeError: x"
  /\ BasicInfo.extractIssueTitle (D := Sample.dom) Pages.blankPage
       "  " = "Unknown Issue".
Proof.
  split.
  - exact (proj2 (proj2 (proj2
             (page_title_fallback_is_shown (D := Sample.dom) Pages.blankPage
                " TypeError: x | Sentry" eq_refl)))
             " TypeError: x " eq_refl
             (or_intror (ex_intro _ " Sentry" eq_refl))).
  - exact (proj2 (proj2 (proj2
             (page_title_fallback_is_shown (D := Sample.dom) Pages.blankPage
                "  " eq_refl)))
             "  " eq_refl (or_introl eq_refl)).
Defined.

Section StatusFacts.
Context {D : Dom}.

Lemma statusFrom_valid (spans : list Node) (status : string) :
  BasicInfo.statusFrom spans = Some status ->
  In (Text.toLowerCase status) BasicInfo.validStatuses
  /\ exists span, In span spans /\ trimmedText span = Some status.
Proof.
  induction spans as [|span rest IH]; [discriminate|].
  cbn [BasicInfo.statusFrom In].
  assert (Hrest : BasicInfo.statusFrom rest = Some status ->
            In (Text.toLowerCase status) BasicInfo.validStatuses
            /\ exists span0, (span = span0 \/ In span0 rest)
                             /\ trimmedText span0 = Some status).
  { intros H. destruct (IH H) as [Hin [span0 [Hs Ht]]].
    split; [exact Hin|]. exists span0. auto. }
  destruct (trimmedText span) as [text|] eqn:Htext; cbn [option_map];
    [|exact Hrest].
  destruct (Js.truthy (Text.toLowerCase text)
            && existsb (String.eqb (Text.toLowerCase text))
                 BasicInfo.validStatuses) eqn:Hok; [|exact Hrest].
  intros [= <-]. apply andb_true_iff in Hok. destruct Hok as [_ Hok].
  apply existsb_exists in Hok. destruct Hok as [valid [Hin Heq]].
  apply String.eqb_eq in Heq. rewrite Heq.
  split; [exact Hin|]. exists span. auto.
Qed.

Lemma statsStep_shown (acc : option string * option string) (item : Node) :
  missingOrShown (fst acc) -> missingOrShown (snd acc) ->
  missingOrShown (fst (BasicInfo.statsStep acc item))
  /\ missingOrShown (snd (BasicInfo.statsStep acc item)).
Proof.
  destruct acc as [firstSeen lastSeen]. cbn [fst snd]. intros Hf Hl.
  unfold BasicInfo.statsStep.
  destruct (getText _ item) as [label|]; [|now split].
  destruct (getText _ item) as [value|]; [|now split].
  destruct (Js.truthy label); [|now split].
  destruct (Js.truthy value) eqn:Hv; [|now split].
  cbn [andb]. apply truthy_nonempty in Hv.
  destruct (Text.includes "first" _), (Text.includes "last" _);
    now split.
Qed.

Lemma statsLoop_shown (items : list Node)
  (acc : option string * option string) :
  missingOrShown (fst acc) -> missingOrShown (snd acc) ->
  missingOrShown (fst (fold_left BasicInfo.statsStep items acc))
  /\ missingOrShown (snd (fold_left BasicInfo.statsStep items acc)).
Proof.
  revert acc. induction items as [|item items IH]; intros acc Hf Hl;
    [now split|].
  simpl. destruct (statsStep_shown acc item Hf Hl). now apply IH.
Qed.

Lemma whenTruthy_shown (text : option string) :
  missingOrShown (BasicInfo.whenTruthy text).
Proof.
  unfold BasicInfo.whenTruthy.
  destruct text as [[|a s]|]; simpl; easy.
Qed.

End StatusFacts.

(** X24. The status read from the header is one of the five known
    statuses up to the case of its letters, and it is the trimmed text of
    a span of the header, in the spelling of the page. *)
Theorem status_is_a_known_status :
  forall {D : Dom} (document : Node) (status : string),
    BasicInfo.extractStatus document = Some status ->
    In (Text.toLowerCase status)
       ["ongoing"; "resolved"; "ignored"; "archived"; "unresolved"]
    /\ exists span,
         In span
            (querySelectorAll document
               (SelDescendant (SelAttr "data-sentry-element" "HeaderGrid")
                              (SelTag "span")))
         /\ trimmedText span = Some status.
Proof.
  intros D document status. unfold BasicInfo.extractStatus.
  apply statusFrom_valid.
Qed.

Lemma status_is_a_known_status_witness :
  In (Text.toLowerCase "Resolved")
     ["ongoing"; "resolved"; "ignored"; "archived"; "unresolved"].
Proof.
  apply (status_is_a_known_status (D := Sample.dom)
           (Pages.statusPage ["GET /a"; ""; " Resolved "; "ongoing"])).
  reflexivity.
Defined.

(** X25. The timestamps read from a page are never an empty object and
    never hold an empty text: when the extractor gives an object, the
    first or the last sighting is set, and each one that is set is a text
    that is not empty. *)
Theorem timestamps_are_never_empty :
  forall {D : Dom} (document : Node) (timestamps : Timestamps.t),
    BasicInfo.extractTimestamps document = Some timestamps ->
    (Timestamps.firstSeen timestamps <> None
     \/ Timestamps.lastSeen timestamps <> None)
    /\ missingOrShown (Timestamps.firstSeen timestamps)
    /\ missingOrShown (Timestamps.lastSeen timestamps).
Proof.
  intros D document timestamps. unfold BasicInfo.extractTimestamps.
  cbv zeta.
  match goal with
  | |- context [fold_left BasicInfo.statsStep ?items ?acc] =>
      pose proof (statsLoop_shown items acc
                    (whenTruthy_shown _) (whenTruthy_shown _)) as Hshown;
      destruct (fold_left BasicInfo.statsStep items acc)
        as [firstSeen lastSeen]
  end.
  cbn [fst snd] in Hshown. destruct Hshown as [Hf Hl].
  destruct firstSeen as [f|], lastSeen as [l|]; intros [= <-];
    cbn [Timestamps.firstSeen Timestamps.lastSeen];
    (split; [first [left; discriminate | right; discriminate]|]);
    now split.
Qed.

Lemma timestamps_are_never_empty_witness :
  missingOrShown None /\ missingOrShown (Some "2 days ago").
Proof.
  apply (timestamps_are_never_empty (D := Sample.dom) Pages.statsPage
           {| Timestamps.firstSeen := None;
              Timestamps.lastSeen := Some "2 days ago" |}).
  reflexivity.
Defined.
